(** * Porter AI command interpreter: a shallow embedding of
      server/src/controllers/aiController.ts

    Texts are ASCII strings (a non-ASCII code unit never matches one of the
    controller's patterns, none of which carries the [u] flag).  Time stamps
    are milliseconds on the server's local time axis, taken with a fixed
    offset to UTC.  The order collection is a list of documents in insertion
    order; the conversation history is a finite map from user ids. *)

From Stdlib Require Import ZArith QArith Ascii String List Bool Lia Permutation.
From stdpp Require Import base option gmap strings pretty.
Import ListNotations.

Local Open Scope string_scope.
Local Open Scope Z_scope.

(** ** Characters *)

Module Char.

Definition code (c : ascii) : N := N_of_ascii c.

Definition between (lo hi : N) (c : ascii) : bool :=
  (N.leb lo (code c) && N.leb (code c) hi)%bool.

Definition isUpper : ascii -> bool := between 65 90.
Definition isLower : ascii -> bool := between 97 122.
Definition isDigit : ascii -> bool := between 48 57.
Definition isAlpha (c : ascii) : bool := isUpper c || isLower c.

(** [[A-Za-z0-9]] *)
Definition isAlnum (c : ascii) : bool := isAlpha c || isDigit c.

(** [\w], which decides [\b] *)
Definition isWord (c : ascii) : bool := isAlnum c || Ascii.eqb c "_".

(** [[A-Za-z0-9\-]] *)
Definition isIdChar (c : ascii) : bool := isAlnum c || Ascii.eqb c "-".

(** [[A-Za-z ]] *)
Definition isAlphaSpace (c : ascii) : bool := isAlpha c || Ascii.eqb c " ".

(** [\s] on ASCII: tab, line feed, vertical tab, form feed, carriage return,
    space. *)
Definition isSpace (c : ascii) : bool :=
  between 9 13 c || Ascii.eqb c " ".

Definition toLower (c : ascii) : ascii :=
  if isUpper c then ascii_of_N (code c + 32) else c.

Definition toUpper (c : ascii) : ascii :=
  if isLower c then ascii_of_N (code c - 32) else c.

(** Equality of characters under the [i] flag. *)
Definition eqCI (a b : ascii) : bool := Ascii.eqb (toLower a) (toLower b).

End Char.

(** ** Strings: the String.prototype methods the controller uses *)

Module Str.

Fixpoint map (f : ascii -> ascii) (s : string) : string :=
  match s with
  | EmptyString => EmptyString
  | String c r => String (f c) (map f r)
  end.

Definition toLowerCase : string -> string := map Char.toLower.
Definition toUpperCase : string -> string := map Char.toUpper.

Fixpoint all (p : ascii -> bool) (s : string) : bool :=
  match s with
  | EmptyString => true
  | String c r => p c && all p r
  end.

Fixpoint any (p : ascii -> bool) (s : string) : bool :=
  match s with
  | EmptyString => false
  | String c r => p c || any p r
  end.

Definition isEmpty (s : string) : bool :=
  match s with EmptyString => true | _ => false end.

(** A JavaScript string is truthy when it is not empty. *)
Definition truthy (s : string) : bool := negb (isEmpty s).

(** [dropPrefix eq p s] is the rest of [s] after the literal [p], characters
    compared with [eq]. *)
Fixpoint dropPrefix (eq : ascii -> ascii -> bool) (p s : string) : option string :=
  match p, s with
  | EmptyString, _ => Some s
  | String a p', String b s' => if eq a b then dropPrefix eq p' s' else None
  | String _ _, EmptyString => None
  end.

Definition lit : string -> string -> option string := dropPrefix Ascii.eqb.
Definition litCI : string -> string -> option string := dropPrefix Char.eqCI.

Definition startsWith (p s : string) : bool := bool_decide (is_Some (lit p s)).

(** Longest prefix of characters in a class, and the rest. *)
Fixpoint span (p : ascii -> bool) (s : string) : string * string :=
  match s with
  | EmptyString => (EmptyString, EmptyString)
  | String c r =>
      if p c then let '(a, b) := span p r in (String c a, b)
      else (EmptyString, s)
  end.

Definition dropWhile (p : ascii -> bool) (s : string) : string := snd (span p s).

Fixpoint rev_onto (s acc : string) : string :=
  match s with
  | EmptyString => acc
  | String c r => rev_onto r (String c acc)
  end.

Definition rev (s : string) : string := rev_onto s EmptyString.

(** [String.prototype.trim], on ASCII white space. *)
Definition trim (s : string) : string :=
  rev (dropWhile Char.isSpace (rev (dropWhile Char.isSpace s))).

Fixpoint take (n : nat) (s : string) : string :=
  match n, s with
  | S n', String c r => String c (take n' r)
  | _, _ => EmptyString
  end.

Fixpoint drop (n : nat) (s : string) : string :=
  match n, s with
  | S n', String _ r => drop n' r
  | _, _ => s
  end.

(** [s.slice(i, j)] for [0 <= i <= j]. *)
Definition slice (i j : nat) (s : string) : string := take (j - i) (drop i s).

Fixpoint join (sep : string) (l : list string) : string :=
  match l with
  | [] => EmptyString
  | [x] => x
  | x :: r => x ++ sep ++ join sep r
  end.

End Str.

(** ** Leftmost matching

    A pattern is embedded as an anchored matcher: given the character before
    the position (which [\b] looks at) and the text from the position on, it
    returns what the pattern yields there.  [search] tries the positions from
    left to right, the end of the text included, as [String.prototype.match]
    and [RegExp.prototype.test] do. *)

Module Rx.

Definition anchored (A : Type) : Type := option ascii -> string -> option A.

Fixpoint search {A} (m : anchored A) (prev : option ascii) (s : string) : option A :=
  match m prev s with
  | Some r => Some r
  | None =>
      match s with
      | EmptyString => None
      | String c r => search m (Some c) r
      end
  end.

Definition find {A} (m : anchored A) (s : string) : option A := search m None s.

Definition test {A} (m : anchored A) (s : string) : bool :=
  bool_decide (is_Some (find m s)).

Definition wordBefore (prev : option ascii) : bool :=
  match prev with Some c => Char.isWord c | None => false end.

Definition wordAt (s : string) : bool :=
  match s with String c _ => Char.isWord c | EmptyString => false end.

(** A literal, case-sensitively: the text after it. *)
Definition literal (p : string) : anchored string := fun _ s => Str.lit p s.

(** [\bw\b] for a literal [w] that starts and ends with a word character:
    no word character before it, none after it. *)
Definition word (eq : ascii -> ascii -> bool) (w : string) : anchored string :=
  fun prev s =>
    if wordBefore prev then None
    else match Str.dropPrefix eq w s with
         | Some r => if wordAt r then None else Some r
         | None => None
         end.

(** An alternation [p1|p2|...]: the first alternative that matches here. *)
Fixpoint alt {A} (ms : list (anchored A)) : anchored A :=
  fun prev s =>
    match ms with
    | [] => None
    | m :: r => match m prev s with Some x => Some x | None => alt r prev s end
    end.

End Rx.

(** ** The controller's helpers *)

(** [Number.prototype.toString(36)] on an integer. *)
Definition digit36 (d : Z) : ascii :=
  if d <? 10 then ascii_of_N (Z.to_N (48 + d)) else ascii_of_N (Z.to_N (87 + d)).

Fixpoint digits36 (fuel : nat) (n : Z) (acc : string) : string :=
  match fuel with
  | O => acc
  | S f =>
      let acc' := String (digit36 (n mod 36)) acc in
      if n <? 36 then acc' else digits36 f (n / 36) acc'
  end.

Definition toString36 (n : Z) : string :=
  if n <? 0 then String "-" (digits36 (S (Z.to_nat (Z.log2 (- n)))) (- n) EmptyString)
  else digits36 (S (Z.to_nat (Z.log2 n))) n EmptyString.

(** [makeTrackingId], with its two readings of the world made explicit:
    [now] is [Date.now()] and [rnd] is [Math.random().toString(36)]. *)
Definition makeTrackingId (now : Z) (rnd : string) : string :=
  "ORD-" ++ toString36 now ++ Str.toUpperCase (Str.slice 2 8 rnd).

(** [/\bORD-[A-Za-z0-9]+\b/i] at one position: the matched text.  The run of
    alphanumerics is taken whole; a shorter run would end before a word
    character, where [\b] fails. *)
Definition ordToken : Rx.anchored string := fun prev s =>
  if Rx.wordBefore prev then None
  else match Str.litCI "ORD-" s with
       | Some r =>
           let '(run, rest) := Str.span Char.isAlnum r in
           if Str.truthy run && negb (Rx.wordAt rest)
           then Some (Str.take 4 s ++ run) else None
       | None => None
       end.

Definition extractTrackingIdFrom (text : string) : option string :=
  match Rx.find ordToken text with
  | Some m => Some (Str.toUpperCase m)
  | None => None
  end.

(** [\s+([A-Za-z ]+)]: the capture.  When the character after the white space
    is not in the class, [\s+] gives back white space until the class can
    start, which is at the last space of the run, the first character of the
    run staying with [\s+]; the capture is then that single space. *)
Definition nameAfterSpaces (s : string) : option string :=
  let '(ws, rest) := Str.span Char.isSpace s in
  match ws with
  | EmptyString => None
  | String _ ws' =>
      let nm := fst (Str.span Char.isAlphaSpace rest) in
      if Str.truthy nm then Some nm
      else if Str.any (Ascii.eqb " ") ws' then Some " " else None
  end.

(** [/assign(?:\s+to)?\s+([A-Za-z ]+)/i] at one position: group 1. *)
Definition assignName : Rx.anchored string := fun _ s =>
  match Str.litCI "assign" s with
  | None => None
  | Some r =>
      let '(ws, r1) := Str.span Char.isSpace r in
      match (if Str.truthy ws then Str.litCI "to" r1 else None) with
      | Some r2 =>
          match nameAfterSpaces r2 with
          | Some nm => Some nm
          | None => nameAfterSpaces r
          end
      | None => nameAfterSpaces r
      end
  end.

Definition extractAssignee (text : string) : option string :=
  match Rx.find assignName text with
  | Some g => Some (Str.trim g)
  | None => None
  end.

Definition extractStatus (text : string) : option string :=
  let lower := Str.toLowerCase text in
  if Rx.test (Rx.word Ascii.eqb "delivered") lower then Some "delivered"
  else if Rx.test (Rx.word Ascii.eqb "processing") lower then Some "processing"
  else if Rx.test (Rx.word Ascii.eqb "shipped") lower then Some "shipped"
  else None.

(** *** Pickup times *)

Inductive ampm := AM | PM.

(** [/(\d{1,2})(?::(\d{2}))?\s*(am|pm)?/i] at one position: the three groups.
    Every part after the first digit is optional and greedy, so the first
    attempt is the match. *)
Definition timeGroups : Rx.anchored (string * option string * option ampm) := fun _ s =>
  match s with
  | String d1 r =>
      if Char.isDigit d1 then
        let '(g1, r1) :=
          match r with
          | String d2 r' => if Char.isDigit d2 then (String d1 (String d2 EmptyString), r') else (String d1 EmptyString, r)
          | EmptyString => (String d1 EmptyString, r)
          end in
        let '(g2, r2) :=
          match r1 with
          | String ":" (String m1 (String m2 r')) =>
              if Char.isDigit m1 && Char.isDigit m2
              then (Some (String m1 (String m2 EmptyString)), r') else (None, r1)
          | _ => (None, r1)
          end in
        let r3 := Str.dropWhile Char.isSpace r2 in
        let g3 :=
          if bool_decide (is_Some (Str.litCI "am" r3)) then Some AM
          else if bool_decide (is_Some (Str.litCI "pm" r3)) then Some PM
          else None in
        Some (g1, g2, g3)
      else None
  | EmptyString => None
  end.

(** [parseInt(s, 10)] on a string of decimal digits. *)
Fixpoint parseDigits (acc : Z) (s : string) : Z :=
  match s with
  | EmptyString => acc
  | String c r => parseDigits (10 * acc + (Z.of_N (Char.code c) - 48)) r
  end.

Definition msPerDay : Z := 86400000.

(** Local midnight of the day of [t]. *)
Definition startOfDay (t : Z) : Z := (t / msPerDay) * msPerDay.

(** [d.setSeconds(0, 0); d.setHours(h, min, 0, 0)] on [d = new Date()]. *)
Definition setHours (d h min : Z) : Z := startOfDay d + h * 3600000 + min * 60000.

(** The hour and minute [extractPickupTime] reads from the text, after the
    12-hour adjustment. *)
Definition parsedClock (text : string) : option (Z * Z) :=
  match Rx.find timeGroups text with
  | None => None
  | Some (g1, g2, g3) =>
      let h := parseDigits 0 g1 in
      let min := match g2 with Some m => parseDigits 0 m | None => 0 end in
      let h :=
        match g3 with
        | Some PM => if h <? 12 then h + 12 else h
        | Some AM => if h =? 12 then 0 else h
        | None => h
        end in
      Some (h, min)
  end.

(** [extractPickupTime]: [created] is the reading of the clock by
    [new Date()], [now] the later reading by [Date.now()]. *)
Definition extractPickupTime (created now : Z) (text : string) : option Z :=
  match parsedClock text with
  | None => None
  | Some (h, min) =>
      let d := setHours created h min in
      Some (if d <? now then d + msPerDay else d)
  end.

(** *** Intent classification *)

Inductive intent :=
  | create_order | track_order | next_pickup | list_orders | cancel_order
  | delete_order | update_address | update_order | general.

#[global] Instance intent_eq_dec : EqDecision intent.
Proof. solve_decision. Defined.

Record Parsed := { p_intent : intent; p_trackingId : option string }.

Definition just (i : intent) : Parsed := {| p_intent := i; p_trackingId := None |}.

(** A greedy optional literal [(?:p)?] before the continuation [k], with the
    backtracking to the empty alternative. *)
Definition optional (eq : ascii -> ascii -> bool) (p : string) {A}
    (k : string -> option A) (s : string) : option A :=
  match Str.dropPrefix eq p s with
  | Some r => match k r with Some x => Some x | None => k s end
  | None => k s
  end.

(** [([A-Za-z0-9\-]+)]: the capture. *)
Definition idToken (s : string) : option string :=
  let tok := fst (Str.span Char.isIdChar s) in
  if Str.truthy tok then Some tok else None.

Definition rest_ok (s : string) : option unit := Some tt.

(** [/create (an )?order|place order|i want to order|new order|add order/] *)
Definition createRx : Rx.anchored unit := Rx.alt
  [ (fun _ s => Str.lit "create " s ≫= optional Ascii.eqb "an " (fun r => Str.lit "order" r ≫= rest_ok));
    (fun _ s => Str.lit "place order" s ≫= rest_ok);
    (fun _ s => Str.lit "i want to order" s ≫= rest_ok);
    (fun _ s => Str.lit "new order" s ≫= rest_ok);
    (fun _ s => Str.lit "add order" s ≫= rest_ok) ].

(** [/track (?:order )?([A-Za-z0-9\-]+)/i]: group 1. *)
Definition trackRx : Rx.anchored string := fun _ s =>
  Str.litCI "track " s ≫= optional Char.eqCI "order " idToken.

(** [/where is order ([A-Za-z0-9\-]+)/i]: group 1. *)
Definition whereRx : Rx.anchored string := fun _ s =>
  Str.litCI "where is order " s ≫= idToken.

(** [/next pickup|next delivery|next order|what's my next pickup|what is my next pickup/] *)
Definition nextRx : Rx.anchored unit := Rx.alt
  [ (fun _ s => Str.lit "next pickup" s ≫= rest_ok);
    (fun _ s => Str.lit "next delivery" s ≫= rest_ok);
    (fun _ s => Str.lit "next order" s ≫= rest_ok);
    (fun _ s => Str.lit "what's my next pickup" s ≫= rest_ok);
    (fun _ s => Str.lit "what is my next pickup" s ≫= rest_ok) ].

(** [/list (my )?orders|show (my )?orders|recent orders/] *)
Definition listRx : Rx.anchored unit := Rx.alt
  [ (fun _ s => Str.lit "list " s ≫= optional Ascii.eqb "my " (fun r => Str.lit "orders" r ≫= rest_ok));
    (fun _ s => Str.lit "show " s ≫= optional Ascii.eqb "my " (fun r => Str.lit "orders" r ≫= rest_ok));
    (fun _ s => Str.lit "recent orders" s ≫= rest_ok) ].

(** [/\bcancel order\b/] *)
Definition cancelRx : Rx.anchored string := Rx.word Ascii.eqb "cancel order".

(** [/\bdelete order\b|\bremove order\b/] *)
Definition deleteRx : Rx.anchored string :=
  Rx.alt [Rx.word Ascii.eqb "delete order"; Rx.word Ascii.eqb "remove order"].

(** [/add address|update address/] *)
Definition addressRx : Rx.anchored string :=
  Rx.alt [Rx.literal "add address"; Rx.literal "update address"].

(** [/\bupdate\b|\bmodify\b|\bchange\b/] *)
Definition updateRx : Rx.anchored string :=
  Rx.alt [Rx.word Ascii.eqb "update"; Rx.word Ascii.eqb "modify"; Rx.word Ascii.eqb "change"].

Definition parseIntent (text : string) : Parsed :=
  let t := Str.toLowerCase text in
  if Rx.test createRx t then just create_order
  else
    match (match Rx.find trackRx t with Some g => Some g | None => Rx.find whereRx t end) with
    | Some g => {| p_intent := track_order; p_trackingId := Some g |}
    | None =>
        if Rx.test nextRx t then just next_pickup
        else if Rx.test listRx t then just list_orders
        else if Rx.test cancelRx t then just cancel_order
        else if Rx.test deleteRx t then just delete_order
        else if Rx.test addressRx t then just update_address
        else if Rx.test updateRx t then just update_order
        else just general
    end.

(** *** Splitting and replacing

    A separator pattern is an anchored matcher that yields the length of its
    match; all the controller's separators match at least one character.
    [splitBy] is [String.prototype.split]; a global [replace] by a constant
    is the split joined again. *)

Fixpoint splitGo (m : Rx.anchored nat) (skip : nat) (prev : option ascii)
    (cur : string) (s : string) : list string :=
  match s with
  | EmptyString => [Str.rev cur]
  | String c r =>
      match skip with
      | S k => splitGo m k (Some c) cur r
      | O =>
          match m prev s with
          | Some (S k) => Str.rev cur :: splitGo m k (Some c) EmptyString r
          | _ => splitGo m O (Some c) (String c cur) r
          end
      end
  end.

Definition splitBy (m : Rx.anchored nat) (s : string) : list string :=
  splitGo m O None EmptyString s.

Definition replaceAll (m : Rx.anchored nat) (rep s : string) : string :=
  Str.join rep (splitBy m s).

Definition lengthOf (eq : ascii -> ascii -> bool) (p : string) : Rx.anchored nat :=
  fun _ s => Str.dropPrefix eq p s ≫= fun _ => Some (String.length p).

(** [text.split(sep)] for a non-empty string [sep]. *)
Definition splitOn (sep : string) : string -> list string :=
  splitBy (lengthOf Ascii.eqb sep).

(** [/add/i] *)
Definition addSep : Rx.anchored nat := lengthOf Char.eqCI "add".
(** [/remove/i] *)
Definition removeSep : Rx.anchored nat := lengthOf Char.eqCI "remove".
(** [/(?:remove|status|assign|pickup)/i] *)
Definition addStop : Rx.anchored nat := Rx.alt
  [lengthOf Char.eqCI "remove"; lengthOf Char.eqCI "status";
   lengthOf Char.eqCI "assign"; lengthOf Char.eqCI "pickup"].
(** [/(?:add|status|assign|pickup)/i] *)
Definition removeStop : Rx.anchored nat := Rx.alt
  [lengthOf Char.eqCI "add"; lengthOf Char.eqCI "status";
   lengthOf Char.eqCI "assign"; lengthOf Char.eqCI "pickup"].
(** [/(?:,| and )/i] *)
Definition itemSep : Rx.anchored nat := Rx.alt
  [lengthOf Char.eqCI ","; lengthOf Char.eqCI " and "].

(** [/pick\s?up/i] *)
Definition pickupRx : Rx.anchored unit := fun _ s =>
  Str.litCI "pick" s ≫= fun r =>
    match r with
    | String c r' =>
        if Char.isSpace c
        then match Str.litCI "up" r' with Some _ => Some tt | None => Str.litCI "up" r ≫= rest_ok end
        else Str.litCI "up" r ≫= rest_ok
    | EmptyString => None
    end.

(** [/,\s*,/g] *)
Definition commaGap : Rx.anchored nat := fun _ s =>
  match s with
  | String "," r =>
      let '(ws, r') := Str.span Char.isSpace r in
      match r' with
      | String "," _ => Some (2 + String.length ws)%nat
      | _ => None
      end
  | _ => None
  end.

(** [/^,\s*|\s*,\s*$/g]: the first alternative only at the start of the
    string, the second only up to its end. *)
Definition edgeComma : Rx.anchored nat := fun prev s =>
  let leading :=
    match prev, s with
    | None, String "," r => Some (1 + String.length (fst (Str.span Char.isSpace r)))%nat
    | _, _ => None
    end in
  match leading with
  | Some n => Some n
  | None =>
      let '(ws, r) := Str.span Char.isSpace s in
      match r with
      | String "," r' =>
          let '(ws', r'') := Str.span Char.isSpace r' in
          if Str.isEmpty r'' then Some (String.length ws + 1 + String.length ws')%nat
          else None
      | _ => None
      end
  end.

(** [s.split(/(?:,| and )/i).map(s => s.trim()).filter(Boolean)] *)
Definition itemList (s : string) : list string :=
  List.filter Str.truthy (List.map Str.trim (splitBy itemSep s)).

(** [/cancel order ([A-Za-z0-9\-]+)/i]: group 1. *)
Definition cancelIdRx : Rx.anchored string := fun _ s =>
  Str.litCI "cancel order " s ≫= idToken.

(** [/ORD-[A-Za-z0-9]+/i]: the matched text. *)
Definition ordLoose : Rx.anchored string := fun _ s =>
  Str.litCI "ORD-" s ≫= fun r =>
    let run := fst (Str.span Char.isAlnum r) in
    if Str.truthy run then Some (Str.take 4 s ++ run) else None.

(** [/\{[\s\S]*\}/]: from the first opening brace to the last closing one. *)
Definition braceBlock (content : string) : option string :=
  let fromOpen := Str.dropWhile (fun c => negb (Ascii.eqb c "{")) content in
  let upToClose := Str.rev (Str.dropWhile (fun c => negb (Ascii.eqb c "}")) (Str.rev fromOpen)) in
  match fromOpen with
  | String _ tl => if Str.any (Ascii.eqb "}") tl then Some upToClose else None
  | EmptyString => None
  end.

(** ** Data model *)

(** Modelled from the spec: models/Order.ts, the schema of the persisted
    order, is not among the sources.  The fields are those the controller
    writes and reads; JavaScript numbers are rationals. *)
Record Order := {
  _id : nat;
  customerName : option string;
  address : option string;
  item : string;
  qty : Q;
  status : string;
  pickupTime : option Z;
  trackingId : string;
  createdBy : string;
  assignedTo : option string;
  amount : Q;
  expenses : Q;
  createdAt : Z;
  updatedAt : Z
}.

Inductive role := system | user | assistant | function.

Record Msg := { m_role : role; content : string; name : option string }.

Definition msg (r : role) (c : string) : Msg :=
  {| m_role := r; content := c; name := None |}.

(** The process state: the order collection, in insertion order, the
    per-user conversation history, and the next storage id. *)
Record State := {
  orders : list Order;
  conversationHistory : gmap string (list Msg);
  nextId : nat
}.

(** What [res.json] sends as [order]: a document, the bare
    [{ trackingId }] of the delete branch, or [null]. *)
Inductive Payload := Doc (o : Order) | Ref (tid : string) | Null.

Record Response := {
  reply : string;
  action : string;
  order : option Payload;
  r_orders : option (list Order);
  r_trackingId : option string
}.

(** [res.json(...)], or [res.status(500).json(...)] of the outer catch. *)
Inductive Result := Json (r : Response) | InternalError.

Inductive completion := Throws | Content (c : option string).

(** What one request reads from outside the process. *)
Record World := {
  groq : bool;                         (* a backend is configured *)
  now : Z;                             (* Date.now(), new Date() *)
  later : Z;                           (* a later Date.now() *)
  random : string;                     (* Math.random().toString(36) *)
  extraction : string -> completion;   (* the extraction call, by user prompt *)
  chat : list Msg -> completion        (* the chat call, by messages *)
}.

(** The ten keys read from the parsed model output, at the types the system
    prompt asks for; [None] is [null] or an absent key, and a pickup time is
    the time stamp [new Date] reads from the string. *)
Record Fields := {
  f_customerName : option string;
  f_address : option string;
  f_item : option string;
  f_qty : option Q;
  f_pickupTime : option Z;
  f_assignedTo : option string;
  f_status : option string;
  f_trackingId : option string;
  f_amount : option Q;
  f_expenses : option Q
}.

Record Extracted := {
  e_customerName : option string;
  e_address : option string;
  e_item : string;
  e_qty : Q;
  e_pickupTime : option Z;
  e_assignedTo : option string;
  e_status : string;
  e_trackingId : option string;
  e_amount : Q;
  e_expenses : Q
}.

(** ** The order collection *)

Module Store.

Definition byTrackingId (tid : string) (o : Order) : bool := String.eqb (trackingId o) tid.
Definition byId (i : nat) (o : Order) : bool := Nat.eqb (_id o) i.

(** [Order.findOne(filter)] *)
Definition findOne (p : Order -> bool) (l : list Order) : option Order := List.find p l.

(** [Order.findOneAndUpdate(filter, update, { new: true })]: the first
    matching document is replaced; the updated document is returned. *)
Fixpoint findOneAndUpdate (p : Order -> bool) (f : Order -> Order) (l : list Order)
  : list Order * option Order :=
  match l with
  | [] => ([], None)
  | o :: r =>
      if p o then (f o :: r, Some (f o))
      else let '(r', res) := findOneAndUpdate p f r in (o :: r', res)
  end.

(** [Order.findByIdAndDelete(id)] *)
Fixpoint deleteOne (p : Order -> bool) (l : list Order) : list Order :=
  match l with
  | [] => []
  | o :: r => if p o then r else o :: deleteOne p r
  end.

(** Insertion of [o] into a list sorted by descending [createdAt], before the
    documents that are not newer: documents created at the same instant keep
    the order of the collection. *)
Fixpoint insertDesc (o : Order) (l : list Order) : list Order :=
  match l with
  | [] => [o]
  | x :: r => if createdAt x <=? createdAt o then o :: l else x :: insertDesc o r
  end.

(** [.sort({ createdAt: -1 })] *)
Definition sortNewestFirst (l : list Order) : list Order :=
  List.fold_right insertDesc [] l.

(** The sort key of [.sort({ pickupTime: 1, createdAt: 1 })]: a missing
    pickup time sorts before every date. *)
Definition pickupBefore (a b : Order) : bool :=
  match pickupTime a, pickupTime b with
  | None, None => createdAt a <? createdAt b
  | None, Some _ => true
  | Some _, None => false
  | Some x, Some y => (x <? y) || ((x =? y) && (createdAt a <? createdAt b))
  end.

(** The first document of the collection sorted by that key. *)
Fixpoint earliest (l : list Order) : option Order :=
  match l with
  | [] => None
  | o :: r =>
      match earliest r with
      | Some m => if pickupBefore m o then Some m else Some o
      | None => Some o
      end
  end.

End Store.

(** ** The controller *)

Definition nl : string := String (ascii_of_N 10) EmptyString.
Definition dquote : string := String (ascii_of_N 34) EmptyString.
(** U+2014, in UTF-8. *)
Definition emDash : string :=
  String (ascii_of_N 226) (String (ascii_of_N 128) (String (ascii_of_N 148) EmptyString)).

(** [x || null] on a string that may be absent. *)
Definition orNull (o : option string) : option string :=
  match o with
  | Some s => if Str.truthy s then Some s else None
  | None => None
  end.

(** [x || d] on a string that may be absent. *)
Definition orElse (o : option string) (d : string) : string :=
  match orNull o with Some s => s | None => d end.

(** A number is truthy when it is not zero. *)
Definition truthyQ (q : Q) : bool := negb (Qeq_bool q 0).

(** [x || d] on a number. *)
Definition orNum (q d : Q) : Q := if truthyQ q then q else d.

(** [x ? Number(x) : d] on a number that may be absent. *)
Definition numOr (o : option Q) (d : Q) : Q :=
  match o with Some q => orNum q d | None => d end.

Definition fallbackFields (text : string) : Extracted :=
  {| e_item := text; e_qty := 1; e_address := None; e_customerName := None;
     e_pickupTime := None; e_assignedTo := None; e_status := "created";
     e_trackingId := None; e_amount := 200; e_expenses := 50 |}.

Definition systemPreamble : string :=
  "You are Porter Saathi, a concise task-focused assistant for deliveries.".

Definition historyOf (uid : string) (st : State) : list Msg :=
  default [] (conversationHistory st !! uid).

(** [history.push(m)] on the history of [uid]. *)
Definition push (uid : string) (m : Msg) (st : State) : State :=
  {| orders := orders st;
     conversationHistory := <[uid := (historyOf uid st ++ [m])%list]> (conversationHistory st);
     nextId := nextId st |}.

Definition withOrders (l : list Order) (st : State) : State :=
  {| orders := l; conversationHistory := conversationHistory st; nextId := nextId st |}.

(** The start of a request: the history of a new user begins with the system
    preamble, and the utterance is appended. *)
Definition enter (uid text : string) (st : State) : State :=
  let st' :=
    match conversationHistory st !! uid with
    | Some _ => st
    | None =>
        {| orders := orders st;
           conversationHistory := <[uid := [msg system systemPreamble]]> (conversationHistory st);
           nextId := nextId st |}
    end in
  push uid (msg user text) st'.

Definition response (rep act : string) : Response :=
  {| reply := rep; action := act; order := None; r_orders := None; r_trackingId := None |}.

Definition withOrder (p : Payload) (r : Response) : Response :=
  {| reply := reply r; action := action r; order := Some p;
     r_orders := r_orders r; r_trackingId := r_trackingId r |}.

Definition withList (l : list Order) (r : Response) : Response :=
  {| reply := reply r; action := action r; order := order r;
     r_orders := Some l; r_trackingId := r_trackingId r |}.

Definition withTrackingId (t : string) (r : Response) : Response :=
  {| reply := reply r; action := action r; order := order r;
     r_orders := r_orders r; r_trackingId := Some t |}.

(** [history.push({ role: "assistant", content: reply }); return res.json(r)] *)
Definition respond (uid : string) (st : State) (r : Response) : State * Result :=
  (push uid (msg assistant (reply r)) st, Json r).

Definition setStatus (s : string) (o : Order) (t : Z) : Order :=
  {| _id := _id o; customerName := customerName o; address := address o; item := item o;
     qty := qty o; status := s; pickupTime := pickupTime o; trackingId := trackingId o;
     createdBy := createdBy o; assignedTo := assignedTo o; amount := amount o;
     expenses := expenses o; createdAt := createdAt o; updatedAt := t |}.

Definition setAddress (a : string) (o : Order) (t : Z) : Order :=
  {| _id := _id o; customerName := customerName o; address := Some a; item := item o;
     qty := qty o; status := status o; pickupTime := pickupTime o; trackingId := trackingId o;
     createdBy := createdBy o; assignedTo := assignedTo o; amount := amount o;
     expenses := expenses o; createdAt := createdAt o; updatedAt := t |}.

(** The [updates] object of the update branch: a key is present or not. *)
Record Updates := {
  u_status : option string;
  u_pickupTime : option Z;
  u_assignedTo : option string;
  u_item : option string
}.

Definition noUpdates (u : Updates) : bool :=
  match u_status u, u_pickupTime u, u_assignedTo u, u_item u with
  | None, None, None, None => true
  | _, _, _, _ => false
  end.

Definition applyUpdates (u : Updates) (o : Order) (t : Z) : Order :=
  {| _id := _id o; customerName := customerName o; address := address o;
     item := default (item o) (u_item u);
     qty := qty o;
     status := default (status o) (u_status u);
     pickupTime := match u_pickupTime u with Some d => Some d | None => pickupTime o end;
     trackingId := trackingId o; createdBy := createdBy o;
     assignedTo := match u_assignedTo u with Some a => Some a | None => assignedTo o end;
     amount := amount o; expenses := expenses o; createdAt := createdAt o; updatedAt := t |}.

(** The statuses the next-pickup query selects. *)
Definition awaitingPickup (o : Order) : bool :=
  String.eqb (status o) "created" || String.eqb (status o) "assigned"
  || String.eqb (status o) "pending".

(** [history.slice(-n)] *)
Definition lastN {A} (n : nat) (l : list A) : list A :=
  List.skipn (List.length l - n) l.

Section Controller.

(** [JSON.parse] of the model's answer followed by the reading of the ten
    keys; [None] when [JSON.parse] throws or yields [null], on which the
    first property access throws. *)
Variable parseFields : string -> option Fields.

(** [newItem.replace(re, empty)] for [re] the pattern [\b rem \b\s*,?\s*]
    with flags [ig], built from the utterance; [None] when [rem] is not a pattern and
    the constructor throws. *)
Variable removeWord : string -> string -> option string.

(** [Number.prototype.toString] and [Date.prototype.toLocaleString]. *)
Variable showNumber : Q -> string.
Variable toLocaleString : Z -> string.

Definition userPrompt (text : string) : string :=
  "Extract order details from this user message: "
  ++ dquote ++ dquote ++ dquote ++ text ++ dquote ++ dquote ++ dquote.

(** [content.match(/\{[\s\S]*\}/)?.[0] ?? content] on
    [content = completion.choices[0]?.message?.content || "{}"]. *)
Definition jsonStr (c : option string) : string :=
  let content := orElse c "{}" in
  match braceBlock content with Some b => b | None => content end.

(** What the [try] block reads from the backend; [None] when there is no
    backend, the call throws, or the answer does not parse: the three ways
    into the default fields. *)
Definition modelAnswer (w : World) (text : string) : option Fields :=
  if negb (groq w) then None
  else
    match extraction w (userPrompt text) with
    | Throws => None
    | Content c => parseFields (jsonStr c)
    end.

Definition extractOrderFieldsWithLLM (w : World) (text : string) : Extracted :=
  match modelAnswer w text with
  | None => fallbackFields text
  | Some parsed =>
      {| e_customerName := orNull (f_customerName parsed);
         e_address := orNull (f_address parsed);
         e_item := orElse (f_item parsed) text;
         e_qty := numOr (f_qty parsed) 1;
         e_pickupTime := f_pickupTime parsed;
         e_assignedTo := orNull (f_assignedTo parsed);
         e_status := orElse (f_status parsed) "created";
         e_trackingId := orNull (f_trackingId parsed);
         e_amount := numOr (f_amount parsed) 200;
         e_expenses := numOr (f_expenses parsed) 50 |}
  end.

(** The create branch's [new Order({...})]. *)
Definition newOrder (w : World) (userId : string) (id : nat) (e : Extracted) : Order :=
  {| _id := id;
     customerName := orNull (e_customerName e);
     address := orNull (e_address e);
     item := e_item e;
     qty := orNum (e_qty e) 1;
     status := "created";
     pickupTime := e_pickupTime e;
     trackingId := makeTrackingId (now w) (random w);
     createdBy := userId;
     assignedTo := orNull (e_assignedTo e);
     amount := orNum (e_amount e) 200;
     expenses := orNum (e_expenses e) 50;
     createdAt := now w;
     updatedAt := now w |}.

(** The messages of the chat call: role and content, a name only on
    function messages. *)
Definition groqMessage (m : Msg) : Msg :=
  match m_role m with
  | function => {| m_role := function; content := content m; name := Some (orElse (name m) "fn") |}
  | r => {| m_role := r; content := content m; name := None |}
  end.

(** The tail of [aiReply], reached when no branch returned. *)
Definition chatFallback (w : World) (userId : string) (st : State) : State * Result :=
  if groq w then
    match chat w (List.map groqMessage (lastN 8 (historyOf userId st))) with
    | Throws => (st, InternalError)
    | Content c => respond userId st (response (orElse c "Sorry, I didn't get that.") "llm_reply")
    end
  else respond userId st (response "Sorry, I couldn't process that right now." "fallback").

Definition createBranch (w : World) (text userId : string) (st : State) : State * Result :=
  let extracted := extractOrderFieldsWithLLM w text in
  let o := newOrder w userId (nextId st) extracted in
  let st' := {| orders := (orders st ++ [o])%list;
                conversationHistory := conversationHistory st;
                nextId := S (nextId st) |} in
  respond userId st'
    (withOrder (Doc o)
       (response ("Order created. Tracking ID " ++ trackingId o ++ ".") "created_order")).

Definition trackBranch (tid userId : string) (st : State) : State * Result :=
  match Store.findOne (Store.byTrackingId tid) (orders st) with
  | None =>
      respond userId st
        (withTrackingId tid (response ("I couldn't find order " ++ tid ++ ".") "order_not_found"))
  | Some o =>
      respond userId st
        (withOrder (Doc o)
           (response
              ("Here are the details for " ++ trackingId o ++ ": " ++ nl
               ++ "- Customer: " ++ orElse (customerName o) "N/A" ++ " " ++ nl
               ++ "- Items: " ++ orElse (Some (item o)) "N/A" ++ " " ++ nl
               ++ "- Address: " ++ orElse (address o) "N/A" ++ " " ++ nl
               ++ "- Status: " ++ status o)
              "track_order"))
  end.

Definition nextPickupBranch (userId : string) (st : State) : State * Result :=
  match Store.earliest (List.filter awaitingPickup (orders st)) with
  | None => respond userId st (response "You have no upcoming pickups." "no_pickups")
  | Some next =>
      respond userId st
        (withOrder (Doc next)
           (response
              ("Next pickup: " ++ item next ++ " (" ++ showNumber (qty next) ++ ") " ++ emDash
               ++ " " ++ orElse (address next) "address not set"
               ++ ". Tracking ID " ++ trackingId next ++ ".")
              "next_pickup"))
  end.

Definition listBranch (userId : string) (st : State) : State * Result :=
  let found := List.firstn 10 (Store.sortNewestFirst (orders st)) in
  let rep :=
    match found with
    | [] => "No orders found."
    | _ => "Showing your " ++ pretty (List.length found) ++ " most recent orders."
    end in
  respond userId st (withList found (response rep "list_orders")).

Definition cancelBranch (w : World) (text userId : string) (st : State) : State * Result :=
  match Rx.find cancelIdRx text with
  | Some id =>
      let '(l, res) :=
        Store.findOneAndUpdate (Store.byTrackingId (Str.toUpperCase id))
          (fun o => setStatus "cancelled" o (now w)) (orders st) in
      match res with
      | Some o =>
          respond userId (withOrders l st)
            (withOrder (Doc o) (response ("Order " ++ trackingId o ++ " cancelled.") "cancel_order"))
      | None =>
          respond userId (withOrders l st)
            (withOrder Null (response ("Couldn't find order " ++ id ++ ".") "cancel_order"))
      end
  | None =>
      respond userId st
        (response "Please provide the order ID to cancel (e.g., 'Cancel order ORD-ABC123')."
           "ask_for_order_id")
  end.

(** [if (a?.toLowerCase().startsWith(p)) a = a.slice(n).trim()], the prefix
    compared after lower-casing or as it is. *)
Definition stripLead (lower : bool) (p : string) (a : option string) : option string :=
  match a with
  | Some s =>
      if Str.startsWith p (if lower then Str.toLowerCase s else s)
      then Some (Str.trim (Str.drop (String.length p) s)) else Some s
  | None => None
  end.

Definition updateAddressBranch (w : World) (text userId : string) (st : State) : State * Result :=
  match Rx.find ordLoose text with
  | None =>
      respond userId st
        (response
           "Please provide the order ID to update the address (e.g., 'Update address of order ORD-ABC123 Pune')."
           "ask_for_order_id")
  | Some m =>
      let tid := Str.toUpperCase m in
      let addressMatch := option_map Str.trim (List.nth_error (splitOn tid text) 1) in
      let addressMatch := stripLead true "to " addressMatch in
      let addressMatch := stripLead true "is " addressMatch in
      let addressMatch := stripLead false ":" addressMatch in
      match orNull addressMatch with
      | None =>
          respond userId st
            (withTrackingId tid
               (response
                  ("Please provide the new address after the order ID (e.g., 'Update address of order "
                   ++ tid ++ " Pune, Maharashtra').")
                  "ask_for_address"))
      | Some a =>
          let '(l, res) :=
            Store.findOneAndUpdate (Store.byTrackingId tid)
              (fun o => setAddress a o (now w)) (orders st) in
          match res with
          | None =>
              respond userId (withOrders l st)
                (withTrackingId tid
                   (response ("Sorry, I couldn't find order " ++ tid ++ ".") "order_not_found"))
          | Some o =>
              respond userId (withOrders l st)
                (withOrder (Doc o)
                   (response
                      ("The address for order " ++ tid ++ " has been updated to: "
                       ++ default "null" (address o))
                      "update_address"))
          end
      end
  end.

(** [toRemove.forEach(rem => newItem = newItem.replace(...))] *)
Fixpoint removeAll (toRemove : list string) (newItem : string) : option string :=
  match toRemove with
  | [] => Some newItem
  | rem :: r => removeWord rem newItem ≫= removeAll r
  end.

(** The item list after the add step of the update branch, when it fires. *)
Definition addedItems (text : string) (o : Order) : option string :=
  if Rx.test (Rx.word Char.eqCI "add") text then
    let part := List.nth 1 (splitBy addSep text) EmptyString in
    let addText := List.nth 0 (splitBy addStop part) EmptyString in
    let items := itemList addText in
    match items with
    | [] => None
    | _ => Some (Str.join ", " (List.filter Str.truthy [item o; Str.join ", " items]))
    end
  else None.

(** The item list after the remove step, when it fires; the outer [None] is a
    thrown error. *)
Definition removedItems (text : string) (o : Order) : option (option string) :=
  if Rx.test (Rx.word Char.eqCI "remove") text && Str.truthy (item o) then
    let part := List.nth 1 (splitBy removeSep text) EmptyString in
    let removeText := List.nth 0 (splitBy removeStop part) EmptyString in
    let toRemove := itemList removeText in
    match toRemove with
    | [] => Some None
    | _ =>
        match removeAll toRemove (item o) with
        | Some newItem =>
            Some (Some (Str.trim (replaceAll edgeComma EmptyString (replaceAll commaGap ", " newItem))))
        | None => None
        end
    end
  else Some None.

Definition updateOrderBranch (w : World) (text userId : string) (st : State) : State * Result :=
  match extractTrackingIdFrom text with
  | None =>
      respond userId st
        (response "Please provide a valid order ID (e.g., ORD-ABC123) to update." "ask_for_order_id")
  | Some tid =>
      match Store.findOne (Store.byTrackingId tid) (orders st) with
      | None =>
          respond userId st
            (withTrackingId tid
               (response ("Sorry, I couldn't find order " ++ tid ++ ".") "order_not_found"))
      | Some o =>
          let newStatus := extractStatus text in
          let dt := if Rx.test pickupRx text then extractPickupTime (now w) (later w) text else None in
          let assignee := extractAssignee text ≫= fun a => orNull (Some a) in
          let added := addedItems text o in
          match removedItems text o with
          | None => (st, InternalError)
          | Some removed =>
              let updates :=
                {| u_status := newStatus; u_pickupTime := dt; u_assignedTo := assignee;
                   u_item := match removed with Some i => Some i | None => added end |} in
              if noUpdates updates then
                respond userId st
                  (withOrder (Doc o)
                     (response "What would you like to update? (status, pickup time, assignee, items)"
                        "update_order"))
              else
                let '(l, updated) :=
                  Store.findOneAndUpdate (Store.byId (_id o))
                    (fun x => applyUpdates updates x (now w)) (orders st) in
                let rep :=
                  "Order " ++ tid ++ " updated." ++ nl
                  ++ "- Status: " ++ match updated with Some x => status x | None => status o end ++ nl
                  ++ "- Pickup time: "
                  ++ match updated ≫= pickupTime with
                     | Some d => toLocaleString d
                     | None => "not set"
                     end ++ nl
                  ++ "- Assigned to: " ++ default "not set" (updated ≫= assignedTo) ++ nl
                  ++ "- Items: " ++ match updated with Some x => item x | None => "N/A" end in
                respond userId (withOrders l st)
                  (withOrder (match updated with Some x => Doc x | None => Null end)
                     (response rep "update_order"))
          end
      end
  end.

Definition deleteBranch (text userId : string) (st : State) : State * Result :=
  match extractTrackingIdFrom text with
  | None =>
      respond userId st
        (response "Please provide the order ID to delete (e.g., 'delete order ORD-ABC123')."
           "ask_for_order_id")
  | Some tid =>
      match Store.findOne (Store.byTrackingId tid) (orders st) with
      | None =>
          respond userId st
            (withTrackingId tid (response ("I couldn't find order " ++ tid ++ ".") "order_not_found"))
      | Some o =>
          respond userId (withOrders (Store.deleteOne (Store.byId (_id o)) (orders st)) st)
            (withOrder (Ref tid) (response ("Order " ++ tid ++ " has been deleted.") "delete_order"))
      end
  end.

(** [aiReply], as a transition of the process state that yields what is sent. *)
Definition aiReply (w : World) (text userId : string) (st : State) : State * Result :=
  let st := enter userId text st in
  let parsed := parseIntent text in
  match p_intent parsed with
  | create_order => createBranch w text userId st
  | track_order =>
      match orNull (p_trackingId parsed) with
      | Some tid => trackBranch tid userId st
      | None => chatFallback w userId st
      end
  | next_pickup => nextPickupBranch userId st
  | list_orders => listBranch userId st
  | cancel_order => cancelBranch w text userId st
  | update_address => updateAddressBranch w text userId st
  | update_order => updateOrderBranch w text userId st
  | delete_order => deleteBranch text userId st
  | general => chatFallback w userId st
  end.

End Controller.

(** ** The specification's vocabulary *)

(** The classifier as the specification words it: an ordered table of
    pattern rules, read against the lower-cased input; the first rule that
    matches decides, and [general] is the answer when none does. *)
Fixpoint firstMatch (rules : list (intent * (string -> bool))) (t : string) : intent :=
  match rules with
  | [] => general
  | (i, p) :: r => if p t then i else firstMatch r t
  end.

Definition ruleTable : list (intent * (string -> bool)) :=
  [ (create_order, Rx.test createRx);
    (track_order, fun t => Rx.test trackRx t || Rx.test whereRx t);
    (next_pickup, Rx.test nextRx);
    (list_orders, Rx.test listRx);
    (cancel_order, Rx.test cancelRx);
    (delete_order, Rx.test deleteRx);
    (update_address, Rx.test addressRx);
    (update_order, Rx.test updateRx) ].

Definition classify (text : string) : intent :=
  firstMatch ruleTable (Str.toLowerCase text).

(** [^ORD-[A-Z0-9]+$] *)
Definition isOrdUpper (s : string) : bool :=
  match Str.lit "ORD-" s with
  | Some r => Str.truthy r && Str.all (fun c => Char.isUpper c || Char.isDigit c) r
  | None => false
  end.

(** An integer that is at least 1. *)
Definition positiveInteger (q : Q) : bool :=
  (Qnum q mod Zpos (Qden q) =? 0) && Qle_bool 1 q.

(** [s.includes(p)] *)
Definition includes (p s : string) : bool := Rx.test (Rx.literal p) s.

(** The shape the specification promises for the answer to a create
    request. *)
Definition createdUpperShape (r : Result) : Prop :=
  exists resp o,
    r = Json resp /\ action resp = "created_order" /\ order resp = Some (Doc o)
    /\ isOrdUpper (trackingId o) = true /\ positiveInteger (qty o) = true.

(** Creation times from the newest to the oldest, with and without ties. *)
Fixpoint descending (strict : bool) (l : list Order) : bool :=
  match l with
  | a :: ((b :: _) as r) =>
      (if strict then createdAt b <? createdAt a else createdAt b <=? createdAt a)
      && descending strict r
  | _ => true
  end.

(** [m] matches at none of the positions of the prefix [pre] of a text,
    whatever follows the prefix; [prev] is the character before it. *)
Fixpoint nowhereIn {A} (m : Rx.anchored A) (prev : option ascii) (pre : string) : Prop :=
  match pre with
  | EmptyString => True
  | String c r => (forall l, m prev (String c r ++ l) = None) /\ nowhereIn m (Some c) r
  end.

(** *** Sample data *)

Module Sample.

Definition noFields : Fields :=
  {| f_customerName := None; f_address := None; f_item := None; f_qty := None;
     f_pickupTime := None; f_assignedTo := None; f_status := None;
     f_trackingId := None; f_amount := None; f_expenses := None |}.

(** The answer [{ qty: -2, item: bread }] of a model, as JSON text. *)
Definition answer : string :=
  "{" ++ dquote ++ "item" ++ dquote ++ ": " ++ dquote ++ "bread" ++ dquote ++ ", "
  ++ dquote ++ "qty" ++ dquote ++ ": -2}".

Definition parseFields (s : string) : option Fields :=
  if String.eqb s answer then
    Some {| f_customerName := None; f_address := None; f_item := Some "bread";
            f_qty := Some (-2 # 1); f_pickupTime := None; f_assignedTo := None;
            f_status := None; f_trackingId := None; f_amount := None; f_expenses := None |}
  else if String.eqb s "{}" then Some noFields
  else None.

Definition removeWord (rem newItem : string) : option string := Some newItem.
Definition showNumber (q : Q) : string := pretty (Qnum q).
Definition toLocaleString (t : Z) : string := pretty t.

(** No backend is configured. *)
Definition offline : World :=
  {| groq := false; now := 1700000000000; later := 1700000000000;
     random := "0.4fzyo82mvyr";
     extraction := fun _ => Throws; chat := fun _ => Throws |}.

(** A backend that answers [answer]. *)
Definition online : World :=
  {| groq := true; now := 1700000000000; later := 1700000000000;
     random := "0.4fzyo82mvyr";
     extraction := fun _ => Content (Some ("Here you go: " ++ answer));
     chat := fun _ => Content (Some "ok") |}.

Definition empty : State := {| orders := []; conversationHistory := ∅; nextId := 0 |}.

Definition bread (id : nat) (tid : string) (t : Z) : Order :=
  {| _id := id; customerName := None; address := None; item := "bread"; qty := 1;
     status := "created"; pickupTime := None; trackingId := tid; createdBy := "demo-user";
     assignedTo := None; amount := 200; expenses := 50; createdAt := t; updatedAt := t |}.

Definition holding (l : list Order) : State :=
  {| orders := l; conversationHistory := ∅; nextId := 100 |}.

Definition run (w : World) (text : string) (st : State) : State * Result :=
  aiReply parseFields removeWord showNumber toLocaleString w text "demo-user" st.

(** The collection after one create request answered without a backend; the
    order it holds has the tracking id [ORD-loyw3v284FZYO8]. *)
Definition created : State := fst (run offline "create order for milk" empty).

(** An order of bread under that generated tracking id. *)
Definition generated : State := holding [bread 1 "ORD-loyw3v284FZYO8" 1700000000000].

End Sample.

(** *** Vocabulary of the further properties *)

(** How a request ends, seen from the state [entered] it starts in once the
    utterance is in the history: an answer, after which the reply is pushed
    on a state with the same histories, or the internal error, which leaves
    [entered] as it is. *)
Inductive outcome (uid : string) (entered : State) : State * Result -> Prop :=
  | answered (st : State) (r : Response) :
      conversationHistory st = conversationHistory entered ->
      outcome uid entered (respond uid st r)
  | failed : outcome uid entered (entered, InternalError).

(** The history of a user when a request comes in: what is stored, or the
    system preamble for a user not seen before. *)
Definition historyBefore (uid : string) (st : State) : list Msg :=
  match conversationHistory st !! uid with
  | Some h => h
  | None => [msg system systemPreamble]
  end.

(** Every stored history begins with the system preamble. *)
Definition preambleFirst (st : State) : Prop :=
  forall uid h, conversationHistory st !! uid = Some h ->
    exists tl, h = msg system systemPreamble :: tl.

(** The fields of an order that no branch of the controller writes after the
    order is made. *)
Definition core (o : Order) : nat * string * Z * string * option string * Q * Q * Q :=
  (_id o, trackingId o, createdAt o, createdBy o, customerName o, qty o, amount o, expenses o).

(** Storage ids are unique and below the next one to be given. *)
Definition wellFormed (st : State) : Prop :=
  List.NoDup (List.map _id (orders st))
  /\ Forall (fun o => (_id o < nextId st)%nat) (orders st).

(** The intents whose branch only reads the collection. *)
Definition readOnly (i : intent) : bool :=
  match i with
  | track_order | next_pickup | list_orders | general => true
  | _ => false
  end.

(** What a request may do to the collection, by intent. *)
Definition storeEffect (i : intent) (st st' : State) : Prop :=
  match i with
  | create_order =>
      nextId st' = S (nextId st)
      /\ exists o, orders st' = (orders st ++ [o])%list /\ _id o = nextId st
  | delete_order =>
      nextId st' = nextId st
      /\ (orders st' = orders st
          \/ exists o, In o (orders st)
                       /\ orders st' = Store.deleteOne (Store.byId (_id o)) (orders st))
  | track_order | next_pickup | list_orders | general =>
      nextId st' = nextId st /\ orders st' = orders st
  | cancel_order | update_address | update_order =>
      nextId st' = nextId st /\ List.map core (orders st') = List.map core (orders st)
  end.

(** ** Properties *)

(** *** Sanity checks of the embedding on the controller's own examples *)

Example extractTrackingId_ship :
  extractTrackingIdFrom "ship ord-abc123 now" = Some "ORD-ABC123".
Proof. vm_compute. reflexivity. Qed.

Example makeTrackingId_sample :
  makeTrackingId 1700000000000 "0.4fzyo82mvyr" = "ORD-loyw3v284FZYO8".
Proof. vm_compute. reflexivity. Qed.

Example itemList_sample : itemList " juice and " = ["juice"].
Proof. vm_compute. reflexivity. Qed.

Example splitBy_add_sample :
  splitBy addSep "update ORD-A1 add juice and status shipped"
  = ["update ORD-A1 "; " juice and status shipped"].
Proof. vm_compute. reflexivity. Qed.

Example edgeComma_sample : replaceAll edgeComma EmptyString ", bread , " = "bread".
Proof. vm_compute. reflexivity. Qed.

Example braceBlock_sample : braceBlock "sure: {a:{}} ok}" = Some "{a:{}} ok}".
Proof. vm_compute. reflexivity. Qed.

Example extractAssignee_sample : extractAssignee "please assign to Ravi Kumar" = Some "Ravi Kumar".
Proof. vm_compute. reflexivity. Qed.

Example online_create_qty :
  exists resp o, snd (Sample.run Sample.online "create order for bread" Sample.empty) = Json resp
    /\ order resp = Some (Doc o) /\ item o = "bread" /\ qty o = (-2 # 1)%Q.
Proof. vm_compute. eauto 10. Qed.

(** *** Intent classification *)

Lemma test_find {A} (m : Rx.anchored A) (t : string) :
  Rx.test m t = match Rx.find m t with Some _ => true | None => false end.
Proof.
  unfold Rx.test. destruct (Rx.find m t) as [x|].
  - apply bool_decide_eq_true. eauto.
  - apply bool_decide_eq_false. intros [x Hx]. discriminate.
Qed.

(** C3. [parseIntent] is the first-match reading of the eight rules in the
    order create_order, track_order, next_pickup, list_orders, cancel_order,
    delete_order, update_address, update_order, against the lower-cased
    input, with [general] when no rule matches; the text
    [update address of ORD-1] matches the rules update_address and
    update_order, and is classified as update_address. *)
Theorem parseIntent_first_match :
  (forall text, p_intent (parseIntent text) = classify text)
  /\ map fst ruleTable
     = [create_order; track_order; next_pickup; list_orders; cancel_order;
        delete_order; update_address; update_order]
  /\ p_intent (parseIntent "update address of ORD-1") = update_address
  /\ Rx.test addressRx (Str.toLowerCase "update address of ORD-1") = true
  /\ Rx.test updateRx (Str.toLowerCase "update address of ORD-1") = true.
Proof.
  split; [|repeat split; vm_compute; reflexivity].
  intros text. unfold parseIntent, classify, ruleTable, firstMatch.
  generalize (Str.toLowerCase text); intros t.
  destruct (Rx.test createRx t); [reflexivity|].
  rewrite (test_find trackRx), (test_find whereRx).
  destruct (Rx.find trackRx t); [reflexivity|].
  destruct (Rx.find whereRx t); [reflexivity|]. simpl.
  repeat match goal with
         | |- context [if ?b then _ else _] => destruct b; [reflexivity|]
         end.
  reflexivity.
Qed.

(** *** Order creation *)

Lemma orNum_nonzero (q d : Q) : ~ (d == 0)%Q -> ~ (orNum q d == 0)%Q.
Proof.
  intros Hd. unfold orNum, truthyQ.
  destruct (Qeq_bool q 0) eqn:E; simpl; [exact Hd|].
  intros H. apply Qeq_bool_iff in H. congruence.
Qed.

Lemma orNum_idem (q d : Q) : truthyQ d = true -> orNum (orNum q d) d = orNum q d.
Proof.
  intros Hd. unfold orNum. destruct (truthyQ q) eqn:E; [rewrite E|rewrite Hd]; reflexivity.
Qed.

Section Properties.

Variable parseFields : string -> option Fields.
Variable removeWord : string -> string -> option string.
Variable showNumber : Q -> string.
Variable toLocaleString : Z -> string.

Abbreviation aiReply := (aiReply parseFields removeWord showNumber toLocaleString).
Abbreviation modelAnswer := (modelAnswer parseFields).
Abbreviation extractOrderFieldsWithLLM := (extractOrderFieldsWithLLM parseFields).

(** C1, as the controller has it.  A text classified as a create request is
    answered with action [created_order] and the stored order; its tracking
    id is [ORD-], the time stamp of the request in base 36, and the
    upper-cased random characters; its quantity is never zero: it is 1 when
    the default fields are used or the model gives no quantity or zero, and
    otherwise the non-zero quantity the model gave, whatever its sign or
    fraction. *)
Theorem create_order_response (w : World) (text userId : string) (st : State) :
  p_intent (parseIntent text) = create_order ->
  exists resp o,
    snd (aiReply w text userId st) = Json resp
    /\ action resp = "created_order"
    /\ order resp = Some (Doc o)
    /\ In o (orders (fst (aiReply w text userId st)))
    /\ trackingId o
       = "ORD-" ++ toString36 (now w) ++ Str.toUpperCase (Str.slice 2 8 (random w))
    /\ ~ (qty o == 0)%Q
    /\ (modelAnswer w text = None -> qty o = 1%Q)
    /\ (forall p, modelAnswer w text = Some p ->
          (f_qty p = None -> qty o = 1%Q)
          /\ (forall q, f_qty p = Some q ->
                ((q == 0)%Q -> qty o = 1%Q) /\ (~ (q == 0)%Q -> qty o = q))).
Proof.
  intros Hi. unfold aiReply. rewrite Hi. unfold createBranch, respond. simpl.
  eexists. eexists. split; [reflexivity|]. simpl.
  split; [reflexivity|]. split; [reflexivity|].
  split; [apply in_or_app; right; left; reflexivity|].
  split; [reflexivity|].
  split; [apply orNum_nonzero; discriminate|].
  unfold extractOrderFieldsWithLLM. split.
  - intros ->. reflexivity.
  - intros p ->. simpl. split.
    + intros ->. reflexivity.
    + intros q ->. simpl. rewrite orNum_idem by reflexivity.
      unfold orNum, truthyQ. destruct (Qeq_bool q 0) eqn:E; simpl; split.
      * reflexivity.
      * intros Hn. exfalso. apply Hn. apply Qeq_bool_iff. exact E.
      * intros Hz. apply Qeq_bool_iff in Hz. congruence.
      * reflexivity.
Qed.

(** C2. When no backend is configured, the extraction call throws, or its
    answer does not parse, a create request is still answered with action
    [created_order], never with the internal error, and the stored order has
    the default fields: the item is the input text, quantity 1, amount 200,
    expenses 50. *)
Theorem create_order_fallback (w : World) (text userId : string) (st : State) :
  p_intent (parseIntent text) = create_order ->
  groq w = false
  \/ extraction w (userPrompt text) = Throws
  \/ (exists c, extraction w (userPrompt text) = Content c /\ parseFields (jsonStr c) = None) ->
  exists resp o,
    snd (aiReply w text userId st) = Json resp
    /\ action resp = "created_order"
    /\ order resp = Some (Doc o)
    /\ In o (orders (fst (aiReply w text userId st)))
    /\ item o = text /\ qty o = 1%Q /\ amount o = 200%Q /\ expenses o = 50%Q
    /\ status o = "created".
Proof.
  intros Hi Hfail.
  assert (Hm : modelAnswer w text = None).
  { unfold modelAnswer. destruct (groq w); [simpl|reflexivity].
    destruct Hfail as [Hg|[Ht|(c & Hc & Hp)]]; [discriminate| |].
    - rewrite Ht. reflexivity.
    - rewrite Hc. exact Hp. }
  unfold aiReply. rewrite Hi. unfold createBranch, respond. simpl.
  unfold extractOrderFieldsWithLLM. rewrite Hm.
  eexists. eexists. split; [reflexivity|]. simpl.
  repeat split; try reflexivity.
  apply in_or_app; right; left; reflexivity.
Qed.

End Properties.

(** C1, as the specification words it, fails: the model may give the quantity
    -2, and the time stamp is written in lower-case digits. *)
Lemma create_order_shape_fails :
  ~ createdUpperShape
      (snd (aiReply Sample.parseFields Sample.removeWord Sample.showNumber
              Sample.toLocaleString Sample.online "create order for bread"
              "demo-user" Sample.empty)).
Proof.
  intros (resp & o & Hr & _ & Ho & _ & Hq).
  vm_compute in Hr. injection Hr as <-. simpl in Ho. injection Ho as <-.
  vm_compute in Hq. discriminate.
Qed.

Lemma create_order_response_witness :
  exists resp o,
    snd (Sample.run Sample.online "create order for bread" Sample.empty) = Json resp
    /\ action resp = "created_order"
    /\ order resp = Some (Doc o)
    /\ In o (orders (fst (Sample.run Sample.online "create order for bread" Sample.empty)))
    /\ trackingId o
       = "ORD-" ++ toString36 (now Sample.online)
         ++ Str.toUpperCase (Str.slice 2 8 (random Sample.online))
    /\ ~ (qty o == 0)%Q
    /\ (modelAnswer Sample.parseFields Sample.online "create order for bread" = None ->
        qty o = 1%Q)
    /\ (forall p, modelAnswer Sample.parseFields Sample.online "create order for bread" = Some p ->
          (f_qty p = None -> qty o = 1%Q)
          /\ (forall q, f_qty p = Some q ->
                ((q == 0)%Q -> qty o = 1%Q) /\ (~ (q == 0)%Q -> qty o = q))).
Proof.
  apply (create_order_response Sample.parseFields Sample.removeWord Sample.showNumber
           Sample.toLocaleString Sample.online "create order for bread" "demo-user" Sample.empty).
  vm_compute. reflexivity.
Defined.

Lemma create_order_fallback_witness :
  exists resp o,
    snd (Sample.run Sample.offline "please create an order of rice" Sample.empty) = Json resp
    /\ action resp = "created_order"
    /\ order resp = Some (Doc o)
    /\ In o (orders (fst (Sample.run Sample.offline "please create an order of rice" Sample.empty)))
    /\ item o = "please create an order of rice" /\ qty o = 1%Q /\ amount o = 200%Q
    /\ expenses o = 50%Q /\ status o = "created".
Proof.
  apply (create_order_fallback Sample.parseFields Sample.removeWord Sample.showNumber
           Sample.toLocaleString Sample.offline "please create an order of rice" "demo-user"
           Sample.empty).
  - vm_compute. reflexivity.
  - left. reflexivity.
Defined.

(** *** Pickup times *)

Lemma parsedClock_five_pm : parsedClock "5 pm" = Some (17, 0).
Proof. vm_compute. reflexivity. Qed.

(** C7, as the controller has it.  [extractPickupTime] on [5 pm] yields 17:00
    of the current day while that instant is not before the clock, the clock
    showing exactly 17:00:00.000 included, and 17:00 of the next day once the
    clock is past it; in general the parsed time of day rolls to the next day
    exactly when it is strictly before the clock. *)
Theorem pickup_five_pm (created now : Z) :
  let today17 := startOfDay created + 17 * 3600000 in
  (now <= today17 -> extractPickupTime created now "5 pm" = Some today17)
  /\ (today17 < now -> extractPickupTime created now "5 pm" = Some (today17 + msPerDay))
  /\ (forall text h min, parsedClock text = Some (h, min) ->
        (now <= setHours created h min ->
           extractPickupTime created now text = Some (setHours created h min))
        /\ (setHours created h min < now ->
           extractPickupTime created now text = Some (setHours created h min + msPerDay))).
Proof.
  assert (G : forall text h min, parsedClock text = Some (h, min) ->
        (now <= setHours created h min ->
           extractPickupTime created now text = Some (setHours created h min))
        /\ (setHours created h min < now ->
           extractPickupTime created now text = Some (setHours created h min + msPerDay))).
  { intros text h min Hc. unfold extractPickupTime. rewrite Hc.
    destruct (Z.ltb_spec (setHours created h min) now); split; intros; try lia; reflexivity. }
  intros today17.
  assert (E : setHours created 17 0 = today17) by (unfold setHours, today17; lia).
  destruct (G "5 pm" 17 0 parsedClock_five_pm) as [G1 G2]. rewrite E in G1, G2.
  repeat split; auto; apply G; assumption.
Qed.

Lemma pickup_five_pm_witness :
  extractPickupTime 1699970000000 1699970000500 "5 pm" = Some 1699981200000.
Proof.
  apply (proj1 (pickup_five_pm 1699970000000 1699970000500)).
  vm_compute. discriminate.
Defined.

(** C7, as the specification words it, fails when the clock shows 17:00
    sharp: the time of day is at 17:00, and the answer is today's 17:00, not
    tomorrow's. *)
Lemma pickup_at_five_sharp :
  let t := 1699981200000 in
  t - startOfDay t = 17 * 3600000
  /\ extractPickupTime t t "5 pm" = Some (startOfDay t + 17 * 3600000)
  /\ extractPickupTime t t "5 pm" <> Some (startOfDay t + 17 * 3600000 + msPerDay).
Proof. vm_compute. repeat split; discriminate. Qed.

(** *** Listing *)

Lemma descending_cons (a b : Order) (r : list Order) :
  descending false (a :: b :: r)
  = (createdAt b <=? createdAt a) && descending false (b :: r).
Proof. reflexivity. Qed.

Lemma descending_tail (a : Order) (r : list Order) :
  descending false (a :: r) = true -> descending false r = true.
Proof.
  destruct r as [|b r']; [reflexivity|]. rewrite descending_cons.
  intros H. apply andb_true_iff in H. tauto.
Qed.

Lemma descending_insert (o : Order) (l : list Order) :
  descending false l = true -> descending false (Store.insertDesc o l) = true.
Proof.
  induction l as [|x r IH]; intros H; [reflexivity|].
  cbn [Store.insertDesc].
  destruct (Z.leb_spec (createdAt x) (createdAt o)) as [Hlt|Hge].
  - rewrite descending_cons, H.
    replace (createdAt x <=? createdAt o) with true by (symmetry; apply Z.leb_le; lia).
    reflexivity.
  - specialize (IH (descending_tail _ _ H)).
    destruct r as [|y r'].
    + cbn [Store.insertDesc]. rewrite descending_cons.
      replace (createdAt o <=? createdAt x) with true by (symmetry; apply Z.leb_le; lia).
      reflexivity.
    + rewrite descending_cons in H. apply andb_true_iff in H. destruct H as [Hxy _].
      cbn [Store.insertDesc] in *.
      destruct (createdAt y <=? createdAt o); rewrite descending_cons, IH.
      * replace (createdAt o <=? createdAt x) with true by (symmetry; apply Z.leb_le; lia).
        reflexivity.
      * rewrite Hxy. reflexivity.
Qed.

Lemma sortNewestFirst_descending (l : list Order) :
  descending false (Store.sortNewestFirst l) = true.
Proof.
  induction l as [|o r IH]; [reflexivity|].
  apply descending_insert. exact IH.
Qed.

Lemma insertDesc_perm (o : Order) (l : list Order) :
  Permutation (Store.insertDesc o l) (o :: l).
Proof.
  induction l as [|x r IH]; [reflexivity|]. cbn [Store.insertDesc].
  destruct (createdAt x <=? createdAt o); [reflexivity|].
  rewrite IH. apply perm_swap.
Qed.

Lemma sortNewestFirst_perm (l : list Order) : Permutation (Store.sortNewestFirst l) l.
Proof.
  induction l as [|o r IH]; [reflexivity|].
  unfold Store.sortNewestFirst in *. cbn [fold_right].
  rewrite insertDesc_perm. constructor. exact IH.
Qed.

Section Listing.

Variable parseFields : string -> option Fields.
Variable removeWord : string -> string -> option string.
Variable showNumber : Q -> string.
Variable toLocaleString : Z -> string.

Abbreviation aiReply := (aiReply parseFields removeWord showNumber toLocaleString).

(** C8, as the controller has it.  A list request is answered with at most
    ten orders, the first ten of an arrangement of the whole collection by
    creation time from the newest to the oldest, in which two orders created
    at the same instant stand side by side; the collection is not changed. *)
Theorem list_orders_newest_first (w : World) (text userId : string) (st : State) :
  p_intent (parseIntent text) = list_orders ->
  exists resp l rest,
    snd (aiReply w text userId st) = Json resp
    /\ action resp = "list_orders"
    /\ r_orders resp = Some l
    /\ (length l <= 10)%nat
    /\ descending false l = true
    /\ Permutation (l ++ rest) (orders st)
    /\ descending false (l ++ rest) = true
    /\ (length l = 10%nat \/ rest = [])
    /\ orders (fst (aiReply w text userId st)) = orders st.
Proof.
  intros Hi. unfold aiReply. rewrite Hi. unfold listBranch, respond.
  cbn [snd fst].
  set (sorted := Store.sortNewestFirst (orders (enter userId text st))).
  assert (Hs : orders (enter userId text st) = orders st).
  { unfold enter, push. destruct (conversationHistory st !! userId); reflexivity. }
  exists (withList (firstn 10 sorted)
            (response match firstn 10 sorted with
                      | [] => "No orders found."
                      | _ => "Showing your " ++ pretty (length (firstn 10 sorted))
                             ++ " most recent orders."
                      end "list_orders")),
    (firstn 10 sorted), (skipn 10 sorted).
  split; [reflexivity|]. split; [reflexivity|]. split; [reflexivity|].
  assert (Hd : descending false sorted = true) by apply sortNewestFirst_descending.
  split; [apply firstn_le_length|].
  split.
  { revert Hd. generalize 10%nat. generalize sorted. clear.
    induction sorted as [|a r IH]; intros n Hd; [destruct n; reflexivity|].
    destruct n as [|n]; [reflexivity|]. cbn [firstn].
    specialize (IH n (descending_tail _ _ Hd)).
    destruct r as [|b r']; [destruct n; reflexivity|].
    destruct n as [|n]; [reflexivity|].
    cbn [firstn] in *. rewrite descending_cons in Hd |- *.
    apply andb_true_iff in Hd. destruct Hd as [Hab _]. rewrite Hab. exact IH. }
  rewrite firstn_skipn.
  split; [unfold sorted; rewrite Hs; apply sortNewestFirst_perm|].
  split; [exact Hd|].
  split; [|simpl; exact Hs].
  destruct (Nat.le_gt_cases 10 (length sorted)) as [Hlen|Hlen].
  - left. apply firstn_length_le. exact Hlen.
  - right. apply skipn_all2. lia.
Qed.

End Listing.

Lemma list_orders_newest_first_witness :
  exists resp l rest,
    snd (Sample.run Sample.offline "show my orders"
           (Sample.holding [Sample.bread 1 "ORD-A1" 10; Sample.bread 2 "ORD-A2" 30])) = Json resp
    /\ action resp = "list_orders"
    /\ r_orders resp = Some l
    /\ (length l <= 10)%nat
    /\ descending false l = true
    /\ Permutation (l ++ rest) [Sample.bread 1 "ORD-A1" 10; Sample.bread 2 "ORD-A2" 30]
    /\ descending false (l ++ rest) = true
    /\ (length l = 10%nat \/ rest = [])
    /\ orders (fst (Sample.run Sample.offline "show my orders"
           (Sample.holding [Sample.bread 1 "ORD-A1" 10; Sample.bread 2 "ORD-A2" 30])))
       = [Sample.bread 1 "ORD-A1" 10; Sample.bread 2 "ORD-A2" 30].
Proof.
  apply (list_orders_newest_first Sample.parseFields Sample.removeWord Sample.showNumber
           Sample.toLocaleString Sample.offline "show my orders" "demo-user"
           (Sample.holding [Sample.bread 1 "ORD-A1" 10; Sample.bread 2 "ORD-A2" 30])).
  vm_compute. reflexivity.
Defined.

(** C8, as the specification words it, fails: two orders created at the same
    instant are listed one after the other, which is not strictly
    descending. *)
Lemma list_orders_ties :
  exists resp l,
    snd (Sample.run Sample.offline "list orders"
           (Sample.holding [Sample.bread 1 "ORD-A1" 30; Sample.bread 2 "ORD-A2" 30])) = Json resp
    /\ r_orders resp = Some l
    /\ l = [Sample.bread 1 "ORD-A1" 30; Sample.bread 2 "ORD-A2" 30]
    /\ descending true l = false.
Proof.
  do 2 eexists. split; [vm_compute; reflexivity|].
  split; [reflexivity|]. split; reflexivity.
Qed.

(** *** Generated tracking ids against the lookups *)

(** C4, evaluated.  The create request returns the tracking id
    [ORD-loyw3v284FZYO8] and the item [create order for milk];
    [track order ORD-loyw3v284FZYO8], issued next, captures the id from the
    lower-cased text, looks up [ord-loyw3v284fzyo8] and is answered
    [order_not_found], without an order. *)
Theorem track_after_create_not_found :
  (exists resp o,
     snd (Sample.run Sample.offline "create order for milk" Sample.empty) = Json resp
     /\ action resp = "created_order" /\ order resp = Some (Doc o)
     /\ trackingId o = "ORD-loyw3v284FZYO8" /\ item o = "create order for milk"
     /\ orders Sample.created = [o])
  /\ parseIntent "track order ORD-loyw3v284FZYO8"
     = {| p_intent := track_order; p_trackingId := Some "ord-loyw3v284fzyo8" |}
  /\ (exists resp,
       snd (Sample.run Sample.offline "track order ORD-loyw3v284FZYO8" Sample.created) = Json resp
       /\ action resp = "order_not_found" /\ order resp = None
       /\ r_trackingId resp = Some "ord-loyw3v284fzyo8").
Proof.
  split; [|split].
  - do 2 eexists. split; [vm_compute; reflexivity|].
    repeat split; vm_compute; reflexivity.
  - vm_compute. reflexivity.
  - eexists. split; [vm_compute; reflexivity|]. repeat split.
Qed.

(** C5, evaluated.  Against an order of bread whose tracking id is the
    generated [ORD-loyw3v284FZYO8], the update text with that id and
    [add juice and status shipped] looks up the upper-cased id, is answered
    [order_not_found], and the stored order keeps its item and status. *)
Theorem update_generated_id_not_found :
  exists resp,
    snd (Sample.run Sample.offline "update ORD-loyw3v284FZYO8 add juice and status shipped"
           Sample.generated) = Json resp
    /\ action resp = "order_not_found" /\ order resp = None
    /\ r_trackingId resp = Some "ORD-LOYW3V284FZYO8"
    /\ orders (fst (Sample.run Sample.offline
                      "update ORD-loyw3v284FZYO8 add juice and status shipped" Sample.generated))
       = orders Sample.generated.
Proof.
  eexists. split; [vm_compute; reflexivity|]. repeat split.
Qed.

(** The same update against an upper-case id is applied in one call. *)
Example update_upper_id_applied :
  exists resp o,
    snd (Sample.run Sample.offline "update ORD-ABC123 add juice and status shipped"
           (Sample.holding [Sample.bread 1 "ORD-ABC123" 5])) = Json resp
    /\ action resp = "update_order" /\ order resp = Some (Doc o)
    /\ item o = "bread, juice" /\ status o = "shipped"
    /\ orders (fst (Sample.run Sample.offline "update ORD-ABC123 add juice and status shipped"
                      (Sample.holding [Sample.bread 1 "ORD-ABC123" 5]))) = [o].
Proof.
  do 2 eexists. split; [vm_compute; reflexivity|].
  repeat split; vm_compute; reflexivity.
Qed.

(** The add step splits the text at the first [add], word or not: an id that
    spells it takes the place of the items. *)
Example update_id_spelling_add :
  exists resp o,
    snd (Sample.run Sample.offline "update ORD-ADD1 add juice and status shipped"
           (Sample.holding [Sample.bread 1 "ORD-ADD1" 5])) = Json resp
    /\ order resp = Some (Doc o) /\ item o = "bread, 1".
Proof.
  do 2 eexists. split; [vm_compute; reflexivity|]. repeat split.
Qed.

(** C10, evaluated.  On the collection that holds the generated
    [ORD-loyw3v284FZYO8], [cancel order ORD-loyw3v284FZYO8] looks up the
    upper-cased id and answers [cancel_order] with a null order and a reply
    that contains [Couldn't find], the collection unchanged; but
    [track order ORD-loyw3v284FZYO8] does not succeed either: it is answered
    [order_not_found]. *)
Theorem cancel_and_track_generated_id :
  (exists resp,
     snd (Sample.run Sample.offline "cancel order ORD-loyw3v284FZYO8" Sample.created) = Json resp
     /\ action resp = "cancel_order" /\ order resp = Some Null
     /\ includes "Couldn't find" (reply resp) = true
     /\ orders (fst (Sample.run Sample.offline "cancel order ORD-loyw3v284FZYO8" Sample.created))
        = orders Sample.created)
  /\ (exists resp,
       snd (Sample.run Sample.offline "track order ORD-loyw3v284FZYO8" Sample.created) = Json resp
       /\ action resp = "order_not_found" /\ order resp = None).
Proof.
  split.
  - eexists. split; [vm_compute; reflexivity|].
    repeat split; vm_compute; reflexivity.
  - eexists. split; [vm_compute; reflexivity|]. repeat split.
Qed.

(** *** Characters and strings *)

Ltac each_char c :=
  destruct c as [[] [] [] [] [] [] [] []]; vm_compute; try reflexivity; try discriminate.

Lemma toUpper_toLower (c : ascii) : Char.toUpper (Char.toLower c) = Char.toUpper c.
Proof. each_char c. Qed.

Lemma toLower_toUpper (c : ascii) : Char.toLower (Char.toUpper c) = Char.toLower c.
Proof. each_char c. Qed.

Lemma toUpper_idem (c : ascii) : Char.toUpper (Char.toUpper c) = Char.toUpper c.
Proof. each_char c. Qed.

Lemma isAlnum_toUpper (c : ascii) : Char.isAlnum (Char.toUpper c) = Char.isAlnum c.
Proof. each_char c. Qed.

Lemma eqCI_toUpper (a c : ascii) : Char.eqCI a c = true -> Char.toUpper c = Char.toUpper a.
Proof.
  unfold Char.eqCI. intros H. apply Ascii.eqb_eq in H.
  rewrite <- (toUpper_toLower c), <- H. apply toUpper_toLower.
Qed.

Lemma map_app (f : ascii -> ascii) (a b : string) :
  Str.map f (a ++ b) = Str.map f a ++ Str.map f b.
Proof.
  induction a as [|c a IH]; [reflexivity|].
  change (Str.map f (String c (a ++ b)) = String (f c) (Str.map f a ++ Str.map f b)).
  cbn [Str.map]. rewrite IH. reflexivity.
Qed.

Lemma toUpperCase_idem (s : string) : Str.toUpperCase (Str.toUpperCase s) = Str.toUpperCase s.
Proof.
  induction s as [|c s IH]; [reflexivity|]. unfold Str.toUpperCase in *. cbn.
  rewrite toUpper_idem, IH. reflexivity.
Qed.

Lemma all_isAlnum_toUpperCase (s : string) :
  Str.all Char.isAlnum (Str.toUpperCase s) = Str.all Char.isAlnum s.
Proof.
  induction s as [|c s IH]; [reflexivity|]. unfold Str.toUpperCase in *. cbn.
  rewrite isAlnum_toUpper, IH. reflexivity.
Qed.

Lemma span_spec (p : ascii -> bool) (s a b : string) :
  Str.span p s = (a, b) -> Str.all p a = true /\ s = a ++ b.
Proof.
  revert a b. induction s as [|c s IH]; intros a b H; cbn in H.
  - injection H as <- <-. split; reflexivity.
  - destruct (p c) eqn:Ec.
    + destruct (Str.span p s) as [a' b'] eqn:Es. injection H as <- <-.
      destruct (IH a' b' eq_refl) as [Ha Hs]. cbn. rewrite Ec, Ha, Hs at 1. split; reflexivity.
    + injection H as <- <-. split; reflexivity.
Qed.

Lemma span_all (p : ascii -> bool) (s : string) :
  Str.all p s = true -> Str.span p s = (s, EmptyString).
Proof.
  induction s as [|c s IH]; intros H; [reflexivity|]. cbn in *.
  apply andb_true_iff in H. destruct H as [Hc Hs]. rewrite Hc, (IH Hs). reflexivity.
Qed.

(** A match found by the leftmost search is a match of the anchored pattern
    at some position. *)
Lemma search_some {A} (m : Rx.anchored A) (s : string) (prev : option ascii) (x : A) :
  Rx.search m prev s = Some x -> exists prev' s', m prev' s' = Some x.
Proof.
  revert prev. induction s as [|c s IH]; intros prev H; cbn in H.
  - destruct (m prev EmptyString) eqn:E; [|discriminate]. injection H as <-. eauto.
  - destruct (m prev (String c s)) eqn:E.
    + injection H as <-. eauto.
    + eapply IH. exact H.
Qed.

Lemma search_here {A} (m : Rx.anchored A) (s : string) (prev : option ascii) (x : A) :
  m prev s = Some x -> Rx.search m prev s = Some x.
Proof. intros H. destruct s; cbn; rewrite H; reflexivity. Qed.

(** *** Tracking-id extraction *)

(** What [ordToken] matches: four characters that spell [ORD-] in some case,
    then a non-empty run of alphanumerics. *)
Lemma ordToken_shape (prev : option ascii) (s m : string) :
  ordToken prev s = Some m ->
  exists run, Str.toUpperCase m = "ORD-" ++ Str.toUpperCase run
              /\ Str.all Char.isAlnum run = true /\ run <> EmptyString.
Proof.
  unfold ordToken. destruct (Rx.wordBefore prev); [discriminate|].
  destruct s as [|c1 [|c2 [|c3 [|c4 r]]]]; try (cbn; discriminate);
    try (cbn; repeat match goal with |- context [Char.eqCI ?a ?b] => destruct (Char.eqCI a b) end;
         discriminate).
  unfold Str.litCI. cbn [Str.dropPrefix].
  destruct (Char.eqCI "O" c1) eqn:E1; [|discriminate].
  destruct (Char.eqCI "R" c2) eqn:E2; [|discriminate].
  destruct (Char.eqCI "D" c3) eqn:E3; [|discriminate].
  destruct (Char.eqCI "-" c4) eqn:E4; [|discriminate].
  destruct (Str.span Char.isAlnum r) as [run rest] eqn:Es.
  destruct (Str.truthy run) eqn:Et; [|discriminate].
  destruct (negb (Rx.wordAt rest)); [|discriminate].
  cbn [andb Str.take]. intros H. injection H as <-.
  exists run. split; [|split].
  - change (String (Char.toUpper c1) (String (Char.toUpper c2) (String (Char.toUpper c3)
              (String (Char.toUpper c4) (Str.toUpperCase run))))
            = String "O" (String "R" (String "D" (String "-" (Str.toUpperCase run))))).
    rewrite (eqCI_toUpper _ _ E1), (eqCI_toUpper _ _ E2), (eqCI_toUpper _ _ E3),
      (eqCI_toUpper _ _ E4). reflexivity.
  - apply (span_spec _ _ _ _ Es).
  - intros ->. discriminate.
Qed.

Lemma extract_canonical (run : string) :
  Str.all Char.isAlnum run = true -> run <> EmptyString ->
  extractTrackingIdFrom ("ORD-" ++ Str.toUpperCase run) = Some ("ORD-" ++ Str.toUpperCase run).
Proof.
  intros Ha Hne. unfold extractTrackingIdFrom, Rx.find.
  assert (Hm : ordToken None ("ORD-" ++ Str.toUpperCase run)
               = Some ("ORD-" ++ Str.toUpperCase run)).
  { unfold ordToken. cbn [Rx.wordBefore].
    change (Str.litCI "ORD-" ("ORD-" ++ Str.toUpperCase run)) with (Some (Str.toUpperCase run)).
    cbv beta iota.
    rewrite span_all by (rewrite all_isAlnum_toUpperCase; exact Ha).
    destruct run as [|c run]; [congruence|]. reflexivity. }
  rewrite (search_here _ _ _ _ Hm).
  change (Str.toUpperCase ("ORD-" ++ Str.toUpperCase run))
    with ("ORD-" ++ Str.toUpperCase (Str.toUpperCase run)).
  rewrite toUpperCase_idem. reflexivity.
Qed.

Lemma upper_or_digit_toUpper (c : ascii) :
  Char.isAlnum c = true -> Char.isUpper (Char.toUpper c) || Char.isDigit (Char.toUpper c) = true.
Proof. destruct c as [[] [] [] [] [] [] [] []]; vm_compute; intros; congruence. Qed.

Lemma all_upper_or_digit (s : string) :
  Str.all Char.isAlnum s = true ->
  Str.all (fun c => Char.isUpper c || Char.isDigit c) (Str.toUpperCase s) = true.
Proof.
  induction s as [|c s IH]; [reflexivity|]. unfold Str.toUpperCase in *. cbn [Str.map Str.all].
  intros H. apply andb_true_iff in H. destruct H as [Hc Hs].
  rewrite (upper_or_digit_toUpper _ Hc), (IH Hs). reflexivity.
Qed.

Lemma ordToken_canonical (prev : option ascii) (s m : string) :
  ordToken prev s = Some m -> isOrdUpper (Str.toUpperCase m) = true.
Proof.
  intros Hm. destruct (ordToken_shape _ _ _ Hm) as (run & -> & Ha & Hne).
  unfold isOrdUpper. change (Str.lit "ORD-" ("ORD-" ++ Str.toUpperCase run))
    with (Some (Str.toUpperCase run)). cbv beta iota.
  rewrite (all_upper_or_digit _ Ha). destruct run; [congruence|reflexivity].
Qed.

(** A match found by the leftmost search sits in the text: the text is a
    prefix followed by the position the pattern matches at. *)
Lemma search_some_at {A} (m : Rx.anchored A) (s : string) (prev : option ascii) (x : A) :
  Rx.search m prev s = Some x ->
  exists pre s' prev', s = pre ++ s' /\ m prev' s' = Some x.
Proof.
  revert prev. induction s as [|c s IH]; intros prev H; cbn [Rx.search] in H.
  - destruct (m prev EmptyString) eqn:E; [|discriminate]. injection H as <-.
    exists EmptyString, EmptyString, prev. split; [reflexivity|exact E].
  - destruct (m prev (String c s)) eqn:E.
    + injection H as <-. exists EmptyString, (String c s), prev. split; [reflexivity|exact E].
    + destruct (IH _ H) as (pre & s' & prev' & -> & Hm).
      exists (String c pre), s', prev'. split; [reflexivity|exact Hm].
Qed.

(** What [ordToken] matches is the head of the text from its position on: a
    token that spells [ORD-] in some case before a non-empty run of
    alphanumerics, and no word character follows it. *)
Lemma ordToken_token (prev : option ascii) (s m : string) :
  ordToken prev s = Some m ->
  exists run rest,
    s = m ++ rest /\ Str.litCI "ORD-" m = Some run
    /\ Str.all Char.isAlnum run = true /\ run <> EmptyString /\ Rx.wordAt rest = false.
Proof.
  unfold ordToken. destruct (Rx.wordBefore prev); [discriminate|].
  destruct s as [|c1 [|c2 [|c3 [|c4 r]]]]; try (cbn; discriminate);
    try (cbn; repeat match goal with |- context [Char.eqCI ?a ?b] => destruct (Char.eqCI a b) end;
         discriminate).
  unfold Str.litCI. cbn [Str.dropPrefix].
  destruct (Char.eqCI "O" c1) eqn:E1; [|discriminate].
  destruct (Char.eqCI "R" c2) eqn:E2; [|discriminate].
  destruct (Char.eqCI "D" c3) eqn:E3; [|discriminate].
  destruct (Char.eqCI "-" c4) eqn:E4; [|discriminate].
  destruct (Str.span Char.isAlnum r) as [run rest] eqn:Es.
  destruct (Str.truthy run) eqn:Et; [|discriminate].
  destruct (Rx.wordAt rest) eqn:Ew; [discriminate|].
  cbn [andb negb Str.take]. intros H. injection H as <-.
  destruct (span_spec _ _ _ _ Es) as [Ha ->].
  exists run, rest. split; [|split; [|split; [|split]]].
  - change (String c1 (String c2 (String c3 (String c4 (run ++ rest))))
            = String c1 (String c2 (String c3 (String c4 (EmptyString ++ run ++ rest))))).
    reflexivity.
  - change (Str.dropPrefix Char.eqCI "ORD-" (String c1 (String c2 (String c3 (String c4 run))))
            = Some run).
    cbn [Str.dropPrefix]. rewrite E1, E2, E3, E4. reflexivity.
  - exact Ha.
  - intros ->. discriminate.
  - exact Ew.
Qed.

(** A token alone is extracted whole. *)
Lemma ordToken_alone (tok run : string) :
  Str.litCI "ORD-" tok = Some run -> Str.all Char.isAlnum run = true -> run <> EmptyString ->
  ordToken None tok = Some tok.
Proof.
  intros Hl Ha Hne. unfold ordToken. cbn [Rx.wordBefore]. rewrite Hl.
  rewrite (span_all _ _ Ha). destruct run as [|c run]; [congruence|].
  cbn [Str.truthy Str.isEmpty negb Rx.wordAt andb].
  f_equal. unfold Str.litCI in Hl.
  destruct tok as [|c1 [|c2 [|c3 [|c4 r]]]]; cbn [Str.dropPrefix] in Hl; try discriminate;
    repeat match type of Hl with
           | (if ?b then _ else _) = _ => destruct b; [|discriminate]
           end; try discriminate.
  injection Hl as ->. reflexivity.
Qed.

(** The extractor under a change of case: [f] is a map on characters that
    the classes, the comparison under the [i] flag and the upper-casing do
    not see. *)
Section CaseMap.

Variable f : ascii -> ascii.
Hypothesis f_eqCI : forall a c, Char.eqCI a (f c) = Char.eqCI a c.
Hypothesis f_word : forall c, Char.isWord (f c) = Char.isWord c.
Hypothesis f_alnum : forall c, Char.isAlnum (f c) = Char.isAlnum c.
Hypothesis f_upper : forall c, Char.toUpper (f c) = Char.toUpper c.

Lemma dropPrefix_map (p s : string) :
  Str.dropPrefix Char.eqCI p (Str.map f s)
  = option_map (Str.map f) (Str.dropPrefix Char.eqCI p s).
Proof.
  revert s. induction p as [|a p IH]; intros s; [reflexivity|].
  destruct s as [|c s]; [reflexivity|]. cbn [Str.map Str.dropPrefix].
  rewrite f_eqCI. destruct (Char.eqCI a c); [apply IH|reflexivity].
Qed.

Lemma span_map (s : string) :
  Str.span Char.isAlnum (Str.map f s)
  = (Str.map f (fst (Str.span Char.isAlnum s)), Str.map f (snd (Str.span Char.isAlnum s))).
Proof.
  induction s as [|c s IH]; [reflexivity|]. cbn [Str.map Str.span]. rewrite f_alnum.
  destruct (Char.isAlnum c); [|reflexivity].
  rewrite IH. destruct (Str.span Char.isAlnum s) as [a b]. reflexivity.
Qed.

Lemma take_map (n : nat) (s : string) : Str.take n (Str.map f s) = Str.map f (Str.take n s).
Proof.
  revert s. induction n as [|n IH]; intros s; [destruct s; reflexivity|].
  destruct s as [|c s]; [reflexivity|]. cbn [Str.map Str.take]. rewrite IH. reflexivity.
Qed.

Lemma ordToken_map (prev : option ascii) (s : string) :
  ordToken (option_map f prev) (Str.map f s) = option_map (Str.map f) (ordToken prev s).
Proof.
  unfold ordToken.
  assert (Hw : Rx.wordBefore (option_map f prev) = Rx.wordBefore prev)
    by (destruct prev; [apply f_word|reflexivity]).
  rewrite Hw. destruct (Rx.wordBefore prev); [reflexivity|].
  unfold Str.litCI. rewrite dropPrefix_map.
  destruct (Str.dropPrefix Char.eqCI "ORD-" s) as [r|]; [|reflexivity]. cbn [option_map].
  rewrite span_map. destruct (Str.span Char.isAlnum r) as [run rest]. cbn [fst snd].
  assert (Ht : Str.truthy (Str.map f run) = Str.truthy run) by (destruct run; reflexivity).
  assert (Hr : Rx.wordAt (Str.map f rest) = Rx.wordAt rest)
    by (destruct rest; [reflexivity|apply f_word]).
  rewrite Ht, Hr. destruct (Str.truthy run && negb (Rx.wordAt rest)); [|reflexivity].
  cbn [option_map]. rewrite take_map, map_app. reflexivity.
Qed.

Lemma search_ordToken_map (s : string) (prev : option ascii) :
  Rx.search ordToken (option_map f prev) (Str.map f s)
  = option_map (Str.map f) (Rx.search ordToken prev s).
Proof.
  revert prev. induction s as [|c s IH]; intros prev.
  - change (Rx.search ordToken (option_map f prev) (Str.map f EmptyString))
      with (match ordToken (option_map f prev) (Str.map f EmptyString) with
            | Some r => Some r | None => None end).
    rewrite ordToken_map. cbn [Rx.search]. destruct (ordToken prev EmptyString); reflexivity.
  - change (Rx.search ordToken (option_map f prev) (Str.map f (String c s)))
      with (match ordToken (option_map f prev) (Str.map f (String c s)) with
            | Some r => Some r
            | None => Rx.search ordToken (option_map f (Some c)) (Str.map f s)
            end).
    rewrite ordToken_map. cbn [Rx.search]. destruct (ordToken prev (String c s)); [reflexivity|].
    cbn [option_map]. apply (IH (Some c)).
Qed.

Lemma toUpperCase_map (s : string) : Str.toUpperCase (Str.map f s) = Str.toUpperCase s.
Proof.
  induction s as [|c s IH]; [reflexivity|]. unfold Str.toUpperCase in *. cbn [Str.map].
  rewrite f_upper, IH. reflexivity.
Qed.

Lemma extract_map (t : string) :
  extractTrackingIdFrom (Str.map f t) = extractTrackingIdFrom t.
Proof.
  unfold extractTrackingIdFrom, Rx.find.
  pose proof (search_ordToken_map t None) as H. cbn [option_map] in H. rewrite H.
  destruct (Rx.search ordToken None t) as [m|]; [|reflexivity].
  cbn [option_map]. rewrite toUpperCase_map. reflexivity.
Qed.

End CaseMap.

Lemma eqCI_toUpper_r (a c : ascii) : Char.eqCI a (Char.toUpper c) = Char.eqCI a c.
Proof. unfold Char.eqCI. rewrite toLower_toUpper. reflexivity. Qed.

Lemma toLower_idem (c : ascii) : Char.toLower (Char.toLower c) = Char.toLower c.
Proof. each_char c. Qed.

Lemma eqCI_toLower_r (a c : ascii) : Char.eqCI a (Char.toLower c) = Char.eqCI a c.
Proof. unfold Char.eqCI. rewrite toLower_idem. reflexivity. Qed.

Lemma isWord_toUpper (c : ascii) : Char.isWord (Char.toUpper c) = Char.isWord c.
Proof. each_char c. Qed.

Lemma isWord_toLower (c : ascii) : Char.isWord (Char.toLower c) = Char.isWord c.
Proof. each_char c. Qed.

Lemma isAlnum_toLower (c : ascii) : Char.isAlnum (Char.toLower c) = Char.isAlnum c.
Proof. each_char c. Qed.

(** C9. [extractTrackingIdFrom] is case-normalizing and idempotent.  On
    [ship ord-abc123 now] it returns [ORD-ABC123].  Whenever it succeeds, its
    result is the upper-casing of a token of the text, one that spells
    [ORD-] in some case before a non-empty run of alphanumerics and is not
    followed by a word character; the result matches [^ORD-[A-Z0-9]+$], and
    the extractor maps it to itself.  The result does not depend on the case
    of the text, and a token given alone, in any case, is returned
    upper-cased. *)
Theorem extractTrackingIdFrom_idempotent :
  extractTrackingIdFrom "ship ord-abc123 now" = Some "ORD-ABC123"
  /\ (forall t r, extractTrackingIdFrom t = Some r ->
        (exists pre m post run,
           t = pre ++ m ++ post /\ r = Str.toUpperCase m
           /\ Str.litCI "ORD-" m = Some run /\ Str.all Char.isAlnum run = true
           /\ run <> EmptyString /\ Rx.wordAt post = false)
        /\ isOrdUpper r = true
        /\ extractTrackingIdFrom r = Some r)
  /\ (forall t, extractTrackingIdFrom (Str.toUpperCase t) = extractTrackingIdFrom t
                /\ extractTrackingIdFrom (Str.toLowerCase t) = extractTrackingIdFrom t)
  /\ (forall tok run,
        Str.litCI "ORD-" tok = Some run -> Str.all Char.isAlnum run = true ->
        run <> EmptyString ->
        extractTrackingIdFrom tok = Some (Str.toUpperCase tok)).
Proof.
  split; [vm_compute; reflexivity|]. split; [|split].
  - intros t r H. unfold extractTrackingIdFrom in H.
    destruct (Rx.find ordToken t) as [m|] eqn:Ef; [|discriminate].
    injection H as <-.
    apply search_some_at in Ef. destruct Ef as (pre & s & prev & -> & Hm).
    split; [|split].
    + destruct (ordToken_token _ _ _ Hm) as (run & rest & -> & Hl & Ha & Hne & Hw).
      exists pre, m, rest, run. repeat split; assumption.
    + eapply ordToken_canonical. exact Hm.
    + destruct (ordToken_shape _ _ _ Hm) as (run & -> & Ha & Hne).
      apply extract_canonical; assumption.
  - intros t. split.
    + apply (extract_map Char.toUpper eqCI_toUpper_r isWord_toUpper isAlnum_toUpper toUpper_idem).
    + apply (extract_map Char.toLower eqCI_toLower_r isWord_toLower isAlnum_toLower
               toUpper_toLower).
  - intros tok run Hl Ha Hne. unfold extractTrackingIdFrom, Rx.find.
    rewrite (search_here ordToken tok None tok (ordToken_alone tok run Hl Ha Hne)).
    reflexivity.
Qed.

Lemma extractTrackingIdFrom_idempotent_witness :
  ((exists pre m post run,
      "ship ord-abc123 now" = pre ++ m ++ post /\ "ORD-ABC123" = Str.toUpperCase m
      /\ Str.litCI "ORD-" m = Some run /\ Str.all Char.isAlnum run = true
      /\ run <> EmptyString /\ Rx.wordAt post = false)
   /\ isOrdUpper "ORD-ABC123" = true
   /\ extractTrackingIdFrom "ORD-ABC123" = Some "ORD-ABC123")
  /\ extractTrackingIdFrom "Ord-xyz9" = Some "ORD-XYZ9".
Proof.
  destruct extractTrackingIdFrom_idempotent as (_ & H1 & _ & H2). split.
  - apply (H1 "ship ord-abc123 now" "ORD-ABC123"). vm_compute. reflexivity.
  - apply (H2 "Ord-xyz9" "xyz9").
    + vm_compute. reflexivity.
    + vm_compute. reflexivity.
    + discriminate.
Defined.

(** *** Texts without spaces *)

Lemma isIdChar_toLower (c : ascii) : Char.isIdChar (Char.toLower c) = Char.isIdChar c.
Proof. each_char c. Qed.

Lemma eqb_space_not_id (c : ascii) : Ascii.eqb " " c = true -> Char.isIdChar c = false.
Proof. intros H. apply Ascii.eqb_eq in H. subst c. reflexivity. Qed.

Lemma eqCI_space_not_id (c : ascii) : Char.eqCI " " c = true -> Char.isIdChar c = false.
Proof. each_char c. Qed.

Lemma all_isIdChar_toLowerCase (s : string) :
  Str.all Char.isIdChar (Str.toLowerCase s) = Str.all Char.isIdChar s.
Proof.
  induction s as [|c s IH]; [reflexivity|]. unfold Str.toLowerCase in *.
  cbn [Str.map Str.all]. rewrite isIdChar_toLower, IH. reflexivity.
Qed.

(** A literal with a space in it does not start a text of id characters. *)
Lemma dropPrefix_space (eq : ascii -> ascii -> bool) (p s : string) :
  (forall c, eq " "%char c = true -> Char.isIdChar c = false) ->
  Str.any (Ascii.eqb " ") p = true ->
  Str.all Char.isIdChar s = true ->
  Str.dropPrefix eq p s = None.
Proof.
  intros Heq. revert s. induction p as [|a p IH]; intros s Hp Hs; [discriminate|].
  destruct s as [|b s]; [reflexivity|]. cbn [Str.dropPrefix].
  cbn [Str.all] in Hs. apply andb_true_iff in Hs. destruct Hs as [Hb Hs].
  destruct (eq a b) eqn:E; [|reflexivity].
  cbn [Str.any] in Hp. apply orb_true_iff in Hp. destruct Hp as [Ha|Hp].
  - apply Ascii.eqb_eq in Ha. subst a. rewrite (Heq _ E) in Hb. discriminate.
  - apply IH; assumption.
Qed.

Lemma lit_space (p s : string) :
  Str.any (Ascii.eqb " ") p = true -> Str.all Char.isIdChar s = true -> Str.lit p s = None.
Proof. apply dropPrefix_space. exact eqb_space_not_id. Qed.

Lemma litCI_space (p s : string) :
  Str.any (Ascii.eqb " ") p = true -> Str.all Char.isIdChar s = true -> Str.litCI p s = None.
Proof. apply dropPrefix_space. exact eqCI_space_not_id. Qed.

(** A pattern that matches nowhere in texts of id characters is not found in
    one. *)
Lemma search_idChars {A} (m : Rx.anchored A) :
  (forall prev s, Str.all Char.isIdChar s = true -> m prev s = None) ->
  forall s prev, Str.all Char.isIdChar s = true -> Rx.search m prev s = None.
Proof.
  intros Hm. induction s as [|c s IH]; intros prev Hs; cbn [Rx.search]; rewrite (Hm _ _ Hs).
  - reflexivity.
  - cbn [Str.all] in Hs. apply andb_true_iff in Hs. apply IH. tauto.
Qed.

Ltac no_space_literal :=
  repeat first [ rewrite lit_space by (assumption || reflexivity)
               | rewrite litCI_space by (assumption || reflexivity) ];
  reflexivity.

Lemma createRx_idChars (prev : option ascii) (s : string) :
  Str.all Char.isIdChar s = true -> createRx prev s = None.
Proof. intros Hs. unfold createRx. cbn [Rx.alt]. no_space_literal. Qed.

Lemma trackRx_idChars (prev : option ascii) (s : string) :
  Str.all Char.isIdChar s = true -> trackRx prev s = None.
Proof. intros Hs. unfold trackRx. no_space_literal. Qed.

Lemma whereRx_idChars (prev : option ascii) (s : string) :
  Str.all Char.isIdChar s = true -> whereRx prev s = None.
Proof. intros Hs. unfold whereRx. no_space_literal. Qed.

Lemma nextRx_idChars (prev : option ascii) (s : string) :
  Str.all Char.isIdChar s = true -> nextRx prev s = None.
Proof. intros Hs. unfold nextRx. cbn [Rx.alt]. no_space_literal. Qed.

Lemma listRx_idChars (prev : option ascii) (s : string) :
  Str.all Char.isIdChar s = true -> listRx prev s = None.
Proof. intros Hs. unfold listRx. cbn [Rx.alt]. no_space_literal. Qed.

(** A pattern that matches at no position of the prefix and nowhere in id
    characters is not found in the prefix followed by id characters. *)
Lemma search_after_prefix {A} (m : Rx.anchored A) :
  (forall prev s, Str.all Char.isIdChar s = true -> m prev s = None) ->
  forall pre prev l,
    nowhereIn m prev pre -> Str.all Char.isIdChar l = true ->
    Rx.search m prev (pre ++ l) = None.
Proof.
  intros Hid. induction pre as [|c r IH]; intros prev l Hpre Hl.
  - apply search_idChars; assumption.
  - destruct Hpre as [Hc Hr]. specialize (Hc l).
    change (String c r ++ l) with (String c (r ++ l)) in *.
    cbn [Rx.search]. rewrite Hc. apply IH; assumption.
Qed.

Ltac nowhere := cbn [nowhereIn]; repeat split; intros; reflexivity.

(** *** Cancellation *)

Ltac not_found_after pre m Hid :=
  rewrite (search_after_prefix m Hid pre None) by first [assumption | nowhere].

(** [cancel order ] followed by id characters is a cancel request. *)
Lemma parseIntent_cancel_order (U : string) :
  Str.all Char.isIdChar U = true ->
  parseIntent ("cancel order " ++ U) = just cancel_order.
Proof.
  intros HU. unfold parseIntent.
  change (Str.toLowerCase ("cancel order " ++ U)) with ("cancel order " ++ Str.toLowerCase U).
  assert (Hl : Str.all Char.isIdChar (Str.toLowerCase U) = true)
    by (rewrite all_isIdChar_toLowerCase; exact HU).
  revert Hl. generalize (Str.toLowerCase U). intros l Hl.
  rewrite !test_find. unfold Rx.find.
  not_found_after "cancel order " createRx createRx_idChars.
  not_found_after "cancel order " trackRx trackRx_idChars.
  not_found_after "cancel order " whereRx whereRx_idChars.
  not_found_after "cancel order " nextRx nextRx_idChars.
  not_found_after "cancel order " listRx listRx_idChars.
  assert (Hc : Rx.search cancelRx None ("cancel order " ++ l) = Some (" " ++ l))
    by (apply search_here; reflexivity).
  rewrite Hc. reflexivity.
Qed.

(** The dedicated pattern captures the whole id after [cancel order ]. *)
Lemma cancelIdRx_captures (U : string) :
  Str.all Char.isIdChar U = true -> U <> EmptyString ->
  Rx.find cancelIdRx ("cancel order " ++ U) = Some U.
Proof.
  intros HU Hne. apply search_here. unfold cancelIdRx.
  change (Str.litCI "cancel order " ("cancel order " ++ U)) with (Some U).
  cbn [mbind option_bind]. unfold idToken. rewrite (span_all _ _ HU). cbn [fst].
  destruct U; [congruence|reflexivity].
Qed.

Lemma findOneAndUpdate_none (p : Order -> bool) (f : Order -> Order) (l : list Order) :
  (forall o, In o l -> p o = false) -> Store.findOneAndUpdate p f l = (l, None).
Proof.
  induction l as [|o r IH]; intros H; [reflexivity|]. cbn [Store.findOneAndUpdate].
  rewrite (H o) by (left; reflexivity).
  rewrite IH by (intros x Hx; apply H; right; exact Hx). reflexivity.
Qed.

Lemma orders_enter (userId text : string) (st : State) :
  orders (enter userId text st) = orders st.
Proof. unfold enter, push. destruct (conversationHistory st !! userId); reflexivity. Qed.

Lemma includes_prefix (p s : string) (r : string) :
  Str.lit p s = Some r -> includes p s = true.
Proof.
  intros H. unfold includes. rewrite test_find. unfold Rx.find.
  rewrite (search_here (Rx.literal p) s None r H). reflexivity.
Qed.

Section Cancellation.

Variable parseFields : string -> option Fields.
Variable removeWord : string -> string -> option string.
Variable showNumber : Q -> string.
Variable toLocaleString : Z -> string.

Abbreviation aiReply := (aiReply parseFields removeWord showNumber toLocaleString).

(** The answer to [cancel order U] when no stored tracking id is the
    upper-cased [U]. *)
Lemma cancel_not_found (w : World) (userId : string) (st : State) (U : string) :
  U <> EmptyString -> Str.all Char.isIdChar U = true ->
  (forall o, In o (orders st) -> trackingId o <> Str.toUpperCase U) ->
  aiReply w ("cancel order " ++ U) userId st
  = respond userId (enter userId ("cancel order " ++ U) st)
      (withOrder Null (response ("Couldn't find order " ++ U ++ ".") "cancel_order")).
Proof.
  intros Hne HU Hst. unfold aiReply.
  rewrite (parseIntent_cancel_order U HU). cbn [p_intent just].
  unfold cancelBranch. rewrite (cancelIdRx_captures U HU Hne).
  rewrite findOneAndUpdate_none.
  - unfold withOrders. destruct (enter userId ("cancel order " ++ U) st); reflexivity.
  - intros o Ho. rewrite orders_enter in Ho. unfold Store.byTrackingId.
    apply String.eqb_neq. apply Hst. exact Ho.
Qed.

(** C6, as the controller has it.  For an id [U] whose upper-cased form is no
    stored tracking id, [cancel order U] is answered [cancel_order] with a
    null order and the reply [Couldn't find order U.]; a cancel request
    without an id after [cancel order] is answered [ask_for_order_id]; in
    both cases the collection is unchanged. *)
Theorem cancel_unknown_or_missing_id (w : World) (userId : string) (st : State) :
  (forall U, U <> EmptyString -> Str.all Char.isIdChar U = true ->
     (forall o, In o (orders st) -> trackingId o <> Str.toUpperCase U) ->
     exists resp,
       snd (aiReply w ("cancel order " ++ U) userId st) = Json resp
       /\ action resp = "cancel_order" /\ order resp = Some Null
       /\ reply resp = "Couldn't find order " ++ U ++ "."
       /\ includes "Couldn't find" (reply resp) = true
       /\ orders (fst (aiReply w ("cancel order " ++ U) userId st)) = orders st)
  /\ (forall text, p_intent (parseIntent text) = cancel_order ->
        Rx.find cancelIdRx text = None ->
        exists resp,
          snd (aiReply w text userId st) = Json resp
          /\ action resp = "ask_for_order_id" /\ order resp = None
          /\ orders (fst (aiReply w text userId st)) = orders st).
Proof.
  split.
  - intros U Hne HU Hst. rewrite (cancel_not_found w userId st U Hne HU Hst).
    eexists. split; [reflexivity|]. cbn [snd fst respond].
    split; [reflexivity|]. split; [reflexivity|]. split; [reflexivity|].
    split; [|apply orders_enter].
    apply (includes_prefix _ _ (" order " ++ U ++ ".")). reflexivity.
  - intros text Hi Hm. unfold aiReply. rewrite Hi. unfold cancelBranch. rewrite Hm.
    eexists. split; [reflexivity|]. cbn [snd fst respond].
    split; [reflexivity|]. split; [reflexivity|]. apply orders_enter.
Qed.

End Cancellation.

Lemma cancel_unknown_or_missing_id_witness :
  (exists resp,
     snd (Sample.run Sample.offline "cancel order ORD-ZZZ9"
            (Sample.holding [Sample.bread 1 "ORD-ABC" 5])) = Json resp
     /\ action resp = "cancel_order" /\ order resp = Some Null
     /\ reply resp = "Couldn't find order ORD-ZZZ9."
     /\ includes "Couldn't find" (reply resp) = true
     /\ orders (fst (Sample.run Sample.offline "cancel order ORD-ZZZ9"
                       (Sample.holding [Sample.bread 1 "ORD-ABC" 5])))
        = [Sample.bread 1 "ORD-ABC" 5])
  /\ (exists resp,
        snd (Sample.run Sample.offline "please cancel order" 
               (Sample.holding [Sample.bread 1 "ORD-ABC" 5])) = Json resp
        /\ action resp = "ask_for_order_id" /\ order resp = None
        /\ orders (fst (Sample.run Sample.offline "please cancel order"
                          (Sample.holding [Sample.bread 1 "ORD-ABC" 5])))
           = [Sample.bread 1 "ORD-ABC" 5]).
Proof.
  pose proof (cancel_unknown_or_missing_id Sample.parseFields Sample.removeWord
                Sample.showNumber Sample.toLocaleString Sample.offline "demo-user"
                (Sample.holding [Sample.bread 1 "ORD-ABC" 5])) as [H1 H2].
  split.
  - apply (H1 "ORD-ZZZ9").
    + discriminate.
    + vm_compute. reflexivity.
    + intros o [<-|[]]. vm_compute. discriminate.
  - apply (H2 "please cancel order"); vm_compute; reflexivity.
Defined.

(** C6, as the specification words it, fails: [ord-abc] is not a tracking id
    of the collection, and [cancel order ord-abc] cancels [ORD-ABC]. *)
Lemma cancel_lower_case_id :
  (forall o, In o (orders (Sample.holding [Sample.bread 1 "ORD-ABC" 5])) ->
     trackingId o <> "ord-abc")
  /\ exists resp o,
       snd (Sample.run Sample.offline "cancel order ord-abc"
              (Sample.holding [Sample.bread 1 "ORD-ABC" 5])) = Json resp
       /\ action resp = "cancel_order" /\ order resp = Some (Doc o)
       /\ trackingId o = "ORD-ABC" /\ status o = "cancelled"
       /\ reply resp = "Order ORD-ABC cancelled."
       /\ includes "Couldn't find" (reply resp) = false.
Proof.
  split.
  - intros o [<-|[]]. vm_compute. discriminate.
  - do 2 eexists. split; [vm_compute; reflexivity|].
    repeat split; vm_compute; reflexivity.
Qed.

(** *** Tracking a created order *)

Lemma all_app (p : ascii -> bool) (a b : string) :
  Str.all p (a ++ b) = Str.all p a && Str.all p b.
Proof.
  induction a as [|c a IH]; [reflexivity|].
  change (Str.all p (String c (a ++ b)) = Str.all p (String c a) && Str.all p b).
  cbn [Str.all]. rewrite IH. apply andb_assoc.
Qed.

Lemma all_weaken (p q : ascii -> bool) (s : string) :
  (forall c, p c = true -> q c = true) -> Str.all p s = true -> Str.all q s = true.
Proof.
  intros Hpq. induction s as [|c s IH]; [reflexivity|]. cbn [Str.all].
  intros H. apply andb_true_iff in H. destruct H as [Hc Hs].
  rewrite (Hpq _ Hc), (IH Hs). reflexivity.
Qed.

Lemma isAlnum_isIdChar (c : ascii) : Char.isAlnum c = true -> Char.isIdChar c = true.
Proof. unfold Char.isIdChar. intros ->. reflexivity. Qed.

Lemma digit36_alnum (d : Z) : 0 <= d < 36 -> Char.isAlnum (digit36 d) = true.
Proof.
  intros Hd. assert (H : exists k : nat, (k < 36)%nat /\ d = Z.of_nat k)
    by (exists (Z.to_nat d); lia).
  destruct H as (k & Hk & ->).
  do 36 (destruct k as [|k]; [reflexivity|]). lia.
Qed.

Lemma digits36_alnum (fuel : nat) (n : Z) (acc : string) :
  0 <= n -> Str.all Char.isAlnum acc = true ->
  Str.all Char.isAlnum (digits36 fuel n acc) = true.
Proof.
  revert n acc. induction fuel as [|f IH]; intros n acc Hn Hacc; [exact Hacc|].
  cbn [digits36].
  assert (Hd : Str.all Char.isAlnum (String (digit36 (n mod 36)) acc) = true).
  { cbn [Str.all]. rewrite digit36_alnum by (apply Z.mod_pos_bound; lia). exact Hacc. }
  destruct (n <? 36); [exact Hd|].
  apply IH; [apply Z.div_pos; lia|exact Hd].
Qed.

Lemma toString36_alnum (n : Z) : 0 <= n -> Str.all Char.isAlnum (toString36 n) = true.
Proof.
  intros Hn. unfold toString36.
  destruct (Z.ltb_spec n 0); [lia|]. apply digits36_alnum; [exact Hn|reflexivity].
Qed.

(** A generated id is [ORD-] and alphanumerics, for a clock after the epoch
    and random characters in base 36. *)
Lemma makeTrackingId_shape (now : Z) (rnd : string) :
  0 <= now -> Str.all Char.isAlnum (Str.slice 2 8 rnd) = true ->
  exists x, makeTrackingId now rnd = "ORD-" ++ x /\ Str.all Char.isAlnum x = true.
Proof.
  intros Hn Hr. exists (toString36 now ++ Str.toUpperCase (Str.slice 2 8 rnd)).
  split; [reflexivity|].
  rewrite all_app, toString36_alnum, all_isAlnum_toUpperCase, Hr by exact Hn. reflexivity.
Qed.

(** [track order ] followed by id characters is a track request for the
    lower-cased id. *)
Lemma parseIntent_track_order (T : string) :
  Str.all Char.isIdChar T = true -> T <> EmptyString ->
  parseIntent ("track order " ++ T)
  = {| p_intent := track_order; p_trackingId := Some (Str.toLowerCase T) |}.
Proof.
  intros HT Hne. unfold parseIntent.
  change (Str.toLowerCase ("track order " ++ T)) with ("track order " ++ Str.toLowerCase T).
  assert (Hl : Str.all Char.isIdChar (Str.toLowerCase T) = true)
    by (rewrite all_isIdChar_toLowerCase; exact HT).
  assert (Hn : Str.toLowerCase T <> EmptyString) by (destruct T; [congruence|discriminate]).
  revert Hl Hn. generalize (Str.toLowerCase T). intros l Hl Hn.
  rewrite test_find. unfold Rx.find.
  not_found_after "track order " createRx createRx_idChars.
  assert (Ht : Rx.search trackRx None ("track order " ++ l) = Some l).
  { apply search_here. unfold trackRx.
    change (Str.litCI "track " ("track order " ++ l)) with (Some ("order " ++ l)).
    cbn [mbind option_bind]. unfold optional.
    change (Str.dropPrefix Char.eqCI "order " ("order " ++ l)) with (Some l).
    unfold idToken. rewrite (span_all _ _ Hl). cbn [fst].
    destruct l; [congruence|reflexivity]. }
  rewrite Ht. reflexivity.
Qed.

Lemma find_none (p : Order -> bool) (l : list Order) :
  (forall o, In o l -> p o = false) -> List.find p l = None.
Proof.
  induction l as [|o r IH]; intros H; [reflexivity|]. cbn [find].
  rewrite (H o) by (left; reflexivity). apply IH. intros x Hx. apply H. right. exact Hx.
Qed.

Section Tracking.

Variable parseFields : string -> option Fields.
Variable removeWord : string -> string -> option string.
Variable showNumber : Q -> string.
Variable toLocaleString : Z -> string.

Abbreviation aiReply := (aiReply parseFields removeWord showNumber toLocaleString).

(** No order made by a create request is found by [track order] with its
    own id: the id begins with [ORD-] in upper case and the lookup is for its
    lower-cased form. *)
Lemma track_created_never_found (w w' : World) (text userId : string) (st : State) :
  p_intent (parseIntent text) = create_order ->
  0 <= now w -> Str.all Char.isAlnum (Str.slice 2 8 (random w)) = true ->
  (forall o, In o (orders st) ->
     trackingId o <> Str.toLowerCase (makeTrackingId (now w) (random w))) ->
  exists resp,
    snd (aiReply w' ("track order " ++ makeTrackingId (now w) (random w)) userId
           (fst (aiReply w text userId st))) = Json resp
    /\ action resp = "order_not_found" /\ order resp = None.
Proof.
  intros Hi Hn Hr Hst.
  destruct (makeTrackingId_shape _ _ Hn Hr) as (x & HT & Hx).
  assert (Hid : Str.all Char.isIdChar (makeTrackingId (now w) (random w)) = true).
  { rewrite HT. change (Str.all Char.isIdChar ("ORD-" ++ x)) with (Str.all Char.isIdChar x).
    exact (all_weaken _ _ _ isAlnum_isIdChar Hx). }
  assert (Hne : makeTrackingId (now w) (random w) <> EmptyString) by (rewrite HT; discriminate).
  unfold aiReply at 1.
  rewrite (parseIntent_track_order _ Hid Hne). cbn [p_intent p_trackingId].
  set (l := Str.toLowerCase (makeTrackingId (now w) (random w))) in *.
  assert (Hl : orNull (Some l) = Some l)
    by (unfold l; rewrite HT; reflexivity).
  rewrite Hl. unfold trackBranch. unfold Store.findOne. rewrite find_none.
  - eexists. split; [reflexivity|]. split; reflexivity.
  - intros o Ho. rewrite orders_enter in Ho.
    unfold aiReply in Ho. rewrite Hi in Ho. unfold createBranch, respond in Ho.
    cbn [fst orders push] in Ho. rewrite orders_enter in Ho.
    unfold Store.byTrackingId. apply String.eqb_neq.
    apply in_app_or in Ho. destruct Ho as [Ho|[<-|[]]].
    + apply Hst. exact Ho.
    + cbn [trackingId newOrder]. unfold l. rewrite HT. discriminate.
Qed.

End Tracking.

(** ** Further properties of the controller *)

(** *** The helpers *)






Lemma digits36_nonempty (fuel : nat) (n : Z) (acc : string) :
  acc <> EmptyString -> digits36 fuel n acc <> EmptyString.
Proof.
  revert n acc. induction fuel as [|f IH]; intros n acc H; [exact H|]. cbn [digits36].
  destruct (n <? 36); [discriminate|]. apply IH. discriminate.
Qed.

Lemma toString36_nonempty (n : Z) : toString36 n <> EmptyString.
Proof.
  unfold toString36. destruct (n <? 0); [discriminate|]. cbn [digits36].
  destruct (n <? 36); [discriminate|]. apply digits36_nonempty. discriminate.
Qed.

Lemma ordToken_whole (x : string) :
  Str.all Char.isAlnum x = true -> x <> EmptyString ->
  ordToken None ("ORD-" ++ x) = Some ("ORD-" ++ x).
Proof.
  intros Ha Hne. unfold ordToken. cbn [Rx.wordBefore].
  change (Str.litCI "ORD-" ("ORD-" ++ x)) with (Some x). cbv beta iota.
  rewrite (span_all _ _ Ha). destruct x; [congruence|reflexivity].
Qed.

(** The extractor recognises a generated tracking id as one token and returns
    it upper-cased: the lookups of the update and delete branches are for the
    upper-cased id, not for the id as generated. *)
Theorem extract_generated_id (now : Z) (rnd : string) :
  0 <= now -> Str.all Char.isAlnum (Str.slice 2 8 rnd) = true ->
  extractTrackingIdFrom (makeTrackingId now rnd)
  = Some (Str.toUpperCase (makeTrackingId now rnd)).
Proof.
  intros Hn Hr. unfold extractTrackingIdFrom, Rx.find, makeTrackingId.
  set (x := toString36 now ++ Str.toUpperCase (Str.slice 2 8 rnd)).
  assert (Ha : Str.all Char.isAlnum x = true).
  { unfold x. rewrite all_app, toString36_alnum, all_isAlnum_toUpperCase, Hr by exact Hn.
    reflexivity. }
  assert (Hne : x <> EmptyString).
  { unfold x. pose proof (toString36_nonempty now) as H.
    destruct (toString36 now); [congruence|discriminate]. }
  rewrite (search_here ordToken _ None _ (ordToken_whole x Ha Hne)). reflexivity.
Qed.

Lemma extract_generated_id_witness :
  extractTrackingIdFrom (makeTrackingId 1700000000000 "0.4fzyo82mvyr")
  = Some "ORD-LOYW3V284FZYO8".
Proof.
  apply (extract_generated_id 1700000000000 "0.4fzyo82mvyr").
  - vm_compute. discriminate.
  - vm_compute. reflexivity.
Defined.

(** *** The conversation history *)

Section History.

Variable parseFields : string -> option Fields.
Variable removeWord : string -> string -> option string.
Variable showNumber : Q -> string.
Variable toLocaleString : Z -> string.

Abbreviation aiReply := (aiReply parseFields removeWord showNumber toLocaleString).

Lemma history_withOrders (l : list Order) (st : State) :
  conversationHistory (withOrders l st) = conversationHistory st.
Proof. reflexivity. Qed.

Ltac answer := first [ apply answered; reflexivity | apply failed ].

Lemma chatFallback_outcome (w : World) (uid : string) (st : State) :
  outcome uid st (chatFallback w uid st).
Proof.
  unfold chatFallback. destruct (groq w); [|answer].
  destruct (chat w _); answer.
Qed.

(** Every request ends in an answer pushed on the history, or in the internal
    error. *)
Lemma aiReply_outcome (w : World) (text uid : string) (st : State) :
  outcome uid (enter uid text st) (aiReply w text uid st).
Proof.
  unfold aiReply. generalize (enter uid text st). intros e.
  destruct (p_intent (parseIntent text)).
  - unfold createBranch. answer.
  - destruct (orNull _); [|apply chatFallback_outcome].
    unfold trackBranch. destruct (Store.findOne _ _); answer.
  - unfold nextPickupBranch. destruct (Store.earliest _); answer.
  - unfold listBranch. answer.
  - unfold cancelBranch. destruct (Rx.find _ _); [|answer].
    destruct (Store.findOneAndUpdate _ _ _) as [l [o|]]; answer.
  - unfold deleteBranch. destruct (extractTrackingIdFrom _); [|answer].
    destruct (Store.findOne _ _); answer.
  - unfold updateAddressBranch. destruct (Rx.find _ _); [|answer].
    destruct (orNull _); [|answer].
    destruct (Store.findOneAndUpdate _ _ _) as [l [o|]]; answer.
  - unfold updateOrderBranch. destruct (extractTrackingIdFrom _); [|answer].
    destruct (Store.findOne _ _); [|answer].
    destruct (removedItems _ _ _); [|answer].
    destruct (noUpdates _); [answer|].
    destruct (Store.findOneAndUpdate _ _ _) as [l u]. answer.
  - apply chatFallback_outcome.
Qed.

Lemma history_enter (uid text : string) (st : State) :
  conversationHistory (enter uid text st) !! uid
  = Some (historyBefore uid st ++ [msg user text])%list.
Proof.
  unfold enter, historyBefore, push, historyOf.
  destruct (conversationHistory st !! uid) as [h|] eqn:E; cbn [conversationHistory].
  - rewrite lookup_insert_eq, E. reflexivity.
  - rewrite lookup_insert_eq, lookup_insert_eq. reflexivity.
Qed.

Lemma history_enter_other (uid other text : string) (st : State) :
  other <> uid ->
  conversationHistory (enter uid text st) !! other = conversationHistory st !! other.
Proof.
  intros Hne. unfold enter, push.
  destruct (conversationHistory st !! uid) as [h|] eqn:E; cbn [conversationHistory].
  - rewrite lookup_insert_ne by congruence. reflexivity.
  - rewrite !lookup_insert_ne by congruence. reflexivity.
Qed.

(** Whatever the intent, a request appends the utterance to the history of
    its user, and the reply after it when it is answered; the internal error
    leaves the utterance alone at the end; the histories of the other users
    are not touched. *)
Theorem history_grows (w : World) (text uid : string) (st : State) :
  (forall r, snd (aiReply w text uid st) = Json r ->
     conversationHistory (fst (aiReply w text uid st)) !! uid
     = Some (historyBefore uid st ++ [msg user text; msg assistant (reply r)])%list)
  /\ (snd (aiReply w text uid st) = InternalError ->
      conversationHistory (fst (aiReply w text uid st)) !! uid
      = Some (historyBefore uid st ++ [msg user text])%list)
  /\ (forall other, other <> uid ->
      conversationHistory (fst (aiReply w text uid st)) !! other
      = conversationHistory st !! other).
Proof.
  destruct (aiReply_outcome w text uid st) as [st' r' Hh|]; cbn [fst snd respond]; unfold push.
  - split; [|split].
    + intros r Hr. injection Hr as <-. cbn [conversationHistory].
      rewrite lookup_insert_eq. unfold historyOf. rewrite Hh, history_enter.
      unfold default, id. rewrite <- List.app_assoc. reflexivity.
    + discriminate.
    + intros other Hne. cbn [conversationHistory].
      rewrite lookup_insert_ne by congruence. rewrite Hh. apply history_enter_other. exact Hne.
  - split; [discriminate|]. split.
    + intros _. apply history_enter.
    + intros other Hne. apply history_enter_other. exact Hne.
Qed.

(** The invariant of the data model: when every stored history begins with
    the system preamble, so does every history after a request, that of a
    user seen for the first time included. *)
Theorem preamble_kept (w : World) (text uid : string) (st : State) :
  preambleFirst st -> preambleFirst (fst (aiReply w text uid st)).
Proof.
  intros Hst u h Hu.
  assert (Hb : exists tl, historyBefore uid st = msg system systemPreamble :: tl).
  { unfold historyBefore. destruct (conversationHistory st !! uid) as [h0|] eqn:E.
    - apply (Hst uid). exact E.
    - eexists. reflexivity. }
  destruct Hb as (tl & Hb).
  destruct (decide (u = uid)) as [->|Hne].
  - destruct (aiReply_outcome w text uid st) as [st' r' Hh|]; cbn [fst respond] in Hu; unfold push in Hu.
    + cbn [conversationHistory] in Hu. rewrite lookup_insert_eq in Hu. injection Hu as <-.
      unfold historyOf. rewrite Hh, history_enter, Hb. unfold default, id. eexists. reflexivity.
    + rewrite history_enter, Hb in Hu. injection Hu as <-. eexists. reflexivity.
  - apply (Hst u).
    destruct (aiReply_outcome w text uid st) as [st' r' Hh|]; cbn [fst respond] in Hu; unfold push in Hu.
    + cbn [conversationHistory] in Hu. rewrite lookup_insert_ne in Hu by congruence.
      rewrite Hh, history_enter_other in Hu by exact Hne. exact Hu.
    + rewrite history_enter_other in Hu by exact Hne. exact Hu.
Qed.

End History.

Lemma history_grows_witness :
  conversationHistory (fst (Sample.run Sample.offline "hello there" Sample.empty)) !! "demo-user"
  = Some ([msg system systemPreamble; msg user "hello there";
           msg assistant "Sorry, I couldn't process that right now."])%list.
Proof.
  apply (proj1 (history_grows Sample.parseFields Sample.removeWord Sample.showNumber
                  Sample.toLocaleString Sample.offline "hello there" "demo-user" Sample.empty)
           (response "Sorry, I couldn't process that right now." "fallback")).
  vm_compute. reflexivity.
Defined.

Lemma preamble_kept_witness :
  preambleFirst (fst (Sample.run Sample.offline "list my orders" Sample.empty)).
Proof.
  apply (preamble_kept Sample.parseFields Sample.removeWord Sample.showNumber
           Sample.toLocaleString Sample.offline "list my orders" "demo-user" Sample.empty).
  intros uid h H. unfold Sample.empty in H. cbn [conversationHistory] in H.
  rewrite lookup_empty in H. discriminate.
Defined.

(** *** The order collection under requests *)

Lemma findOneAndUpdate_core (p : Order -> bool) (f : Order -> Order) (l : list Order) :
  (forall o, core (f o) = core o) ->
  List.map core (fst (Store.findOneAndUpdate p f l)) = List.map core l.
Proof.
  intros Hf. induction l as [|o r IH]; [reflexivity|]. cbn [Store.findOneAndUpdate].
  destruct (p o).
  - cbn [fst List.map]. rewrite Hf. reflexivity.
  - destruct (Store.findOneAndUpdate p f r) as [r' res]. cbn [fst List.map] in *.
    rewrite IH. reflexivity.
Qed.

Lemma find_In (p : Order -> bool) (l : list Order) (o : Order) :
  List.find p l = Some o -> In o l /\ p o = true.
Proof. apply List.find_some. Qed.

Section Collection.

Variable parseFields : string -> option Fields.
Variable removeWord : string -> string -> option string.
Variable showNumber : Q -> string.
Variable toLocaleString : Z -> string.

Abbreviation aiReply := (aiReply parseFields removeWord showNumber toLocaleString).

Lemma nextId_enter (uid text : string) (st : State) : nextId (enter uid text st) = nextId st.
Proof. unfold enter, push. destruct (conversationHistory st !! uid); reflexivity. Qed.

Lemma chatFallback_store (w : World) (uid : string) (st : State) :
  nextId (fst (chatFallback w uid st)) = nextId st
  /\ orders (fst (chatFallback w uid st)) = orders st.
Proof.
  unfold chatFallback. destruct (groq w); [|split; reflexivity].
  destruct (chat w _); split; reflexivity.
Qed.

(** The effect of a request on the collection is the one its intent allows. *)
Lemma aiReply_storeEffect (w : World) (text uid : string) (st : State) :
  storeEffect (p_intent (parseIntent text)) st (fst (aiReply w text uid st)).
Proof.
  unfold aiReply.
  pose proof (orders_enter uid text st) as Ho. pose proof (nextId_enter uid text st) as Hn.
  revert Ho Hn. generalize (enter uid text st). intros e Ho Hn.
  destruct (p_intent (parseIntent text)); cbn [storeEffect]; rewrite <- ?Ho, <- ?Hn.
  - unfold createBranch. cbn [fst respond]. split; [reflexivity|].
    eexists. split; reflexivity.
  - destruct (orNull _); [|apply chatFallback_store].
    unfold trackBranch. destruct (Store.findOne _ _); split; reflexivity.
  - unfold nextPickupBranch. destruct (Store.earliest _); split; reflexivity.
  - unfold listBranch. split; reflexivity.
  - unfold cancelBranch. destruct (Rx.find _ _) as [id|]; [|split; reflexivity].
    match goal with |- context [Store.findOneAndUpdate ?p ?f ?l] =>
      pose proof (findOneAndUpdate_core p f l (fun o => eq_refl)) as Hc;
      destruct (Store.findOneAndUpdate p f l) as [l' [o|]] end;
      split; try reflexivity; exact Hc.
  - unfold deleteBranch. destruct (extractTrackingIdFrom _); [|split; [reflexivity|left; reflexivity]].
    destruct (Store.findOne _ _) as [o|] eqn:Ef; [|split; [reflexivity|left; reflexivity]].
    split; [reflexivity|]. right. exists o. split; [|reflexivity].
    apply find_In in Ef. tauto.
  - unfold updateAddressBranch. destruct (Rx.find _ _) as [m|]; [|split; reflexivity].
    destruct (orNull _) as [a|]; [|split; reflexivity].
    match goal with |- context [Store.findOneAndUpdate ?p ?f ?l] =>
      pose proof (findOneAndUpdate_core p f l (fun o => eq_refl)) as Hc;
      destruct (Store.findOneAndUpdate p f l) as [l' [o|]] end;
      split; try reflexivity; exact Hc.
  - unfold updateOrderBranch. destruct (extractTrackingIdFrom _); [|split; reflexivity].
    destruct (Store.findOne _ _) as [o|]; [|split; reflexivity].
    destruct (removedItems _ _ _); [|split; reflexivity].
    destruct (noUpdates _); [split; reflexivity|].
    match goal with |- context [Store.findOneAndUpdate ?p ?f ?l] =>
      pose proof (findOneAndUpdate_core p f l (fun o => eq_refl)) as Hc;
      destruct (Store.findOneAndUpdate p f l) as [l' u] end.
    split; [reflexivity|exact Hc].
  - apply chatFallback_store.
Qed.

(** Track, next-pickup, list and free-text requests only read the
    collection: the orders are the same after the request, whatever the world
    answers. *)
Theorem read_only_intents (w : World) (text uid : string) (st : State) :
  readOnly (p_intent (parseIntent text)) = true ->
  orders (fst (aiReply w text uid st)) = orders st
  /\ nextId (fst (aiReply w text uid st)) = nextId st.
Proof.
  intros Hr. pose proof (aiReply_storeEffect w text uid st) as H.
  destruct (p_intent (parseIntent text)); try discriminate; cbn [storeEffect] in H; tauto.
Qed.

(** Cancel, update-address and update requests keep every order in its place
    and never write its storage id, tracking id, creation time, creator,
    customer name, quantity, amount or expenses. *)
Theorem identity_fields_kept (w : World) (text uid : string) (st : State) :
  p_intent (parseIntent text) <> create_order ->
  p_intent (parseIntent text) <> delete_order ->
  List.map core (orders (fst (aiReply w text uid st))) = List.map core (orders st).
Proof.
  intros Hc Hd. pose proof (aiReply_storeEffect w text uid st) as H.
  destruct (p_intent (parseIntent text)); try congruence; cbn [storeEffect] in H;
    destruct H as [_ H]; rewrite H; reflexivity.
Qed.

Lemma deleteOne_incl (p : Order -> bool) (l : list Order) (x : Order) :
  In x (Store.deleteOne p l) -> In x l.
Proof.
  induction l as [|o r IH]; [tauto|]. cbn [Store.deleteOne].
  destruct (p o); cbn [In]; tauto.
Qed.

Lemma deleteOne_NoDup (p : Order -> bool) (l : list Order) :
  List.NoDup (List.map _id l) -> List.NoDup (List.map _id (Store.deleteOne p l)).
Proof.
  induction l as [|o r IH]; [tauto|]. cbn [Store.deleteOne List.map].
  intros H. inversion H as [|? ? Hn Hr]; subst.
  destruct (p o); [exact Hr|]. cbn [List.map]. constructor; [|apply IH; exact Hr].
  intros Hin. apply Hn. apply in_map_iff in Hin. destruct Hin as (x & Hx & Hin).
  apply in_map_iff. exists x. split; [exact Hx|]. eapply deleteOne_incl. exact Hin.
Qed.

(** Storage ids stay unique: a request, whatever it is, leaves them unique
    and below the next id when they were. *)
Theorem wellFormed_kept (w : World) (text uid : string) (st : State) :
  wellFormed st -> wellFormed (fst (aiReply w text uid st)).
Proof.
  intros [Hnd Hlt]. pose proof (aiReply_storeEffect w text uid st) as H.
  unfold wellFormed.
  assert (Hcore : forall l l' : list Order,
             List.map core l' = List.map core l -> List.map _id l' = List.map _id l).
  { intros l l' E.
    assert (Hm : forall k : list Order,
               List.map _id k
               = List.map (fun c => fst (fst (fst (fst (fst (fst (fst c))))))) (List.map core k))
      by (intros k; rewrite List.map_map; reflexivity).
    rewrite (Hm l), (Hm l'), E. reflexivity. }
  assert (Hsame : forall st', nextId st' = nextId st ->
             List.map _id (orders st') = List.map _id (orders st) ->
             List.NoDup (List.map _id (orders st'))
             /\ Forall (fun o => (_id o < nextId st')%nat) (orders st')).
  { intros st' Hn Hm. rewrite Hm, Hn. split; [exact Hnd|].
    apply List.Forall_forall. intros o Ho.
    assert (Hi : In (_id o) (List.map _id (orders st)))
      by (rewrite <- Hm; apply in_map; exact Ho).
    apply in_map_iff in Hi. destruct Hi as (x & <- & Hx).
    rewrite List.Forall_forall in Hlt. apply Hlt. exact Hx. }
  rewrite List.Forall_forall in Hlt.
  destruct (p_intent (parseIntent text)); cbn [storeEffect] in H;
    try (destruct H as [Hn Ho]; apply Hsame; [exact Hn|]; first [rewrite Ho; reflexivity | apply Hcore; exact Ho]).
  - destruct H as (Hn & o & Ho & Hid). rewrite Ho, Hn. split.
    + rewrite List.map_app. cbn [List.map].
      apply (Permutation_NoDup (Permutation_cons_append _ _)). constructor; [|exact Hnd].
      intros Hin. apply in_map_iff in Hin. destruct Hin as (x & Hx & Hin).
      specialize (Hlt x Hin). lia.
    + apply List.Forall_forall. intros x Hx. apply in_app_or in Hx. destruct Hx as [Hx|[<-|[]]].
      * specialize (Hlt x Hx). lia.
      * lia.
  - destruct H as (Hn & [Ho|(o & Hin & Ho)]); [apply Hsame; [exact Hn|rewrite Ho; reflexivity]|].
    rewrite Ho, Hn. split; [apply deleteOne_NoDup; exact Hnd|].
    apply List.Forall_forall. intros x Hx. apply Hlt. eapply deleteOne_incl. exact Hx.
Qed.

End Collection.

Lemma read_only_intents_witness :
  orders (fst (Sample.run Sample.offline "where is order ORD-ABC"
                 (Sample.holding [Sample.bread 1 "ORD-ABC" 5])))
  = [Sample.bread 1 "ORD-ABC" 5]
  /\ nextId (fst (Sample.run Sample.offline "where is order ORD-ABC"
                    (Sample.holding [Sample.bread 1 "ORD-ABC" 5]))) = 100%nat.
Proof.
  apply (read_only_intents Sample.parseFields Sample.removeWord Sample.showNumber
           Sample.toLocaleString Sample.offline "where is order ORD-ABC" "demo-user"
           (Sample.holding [Sample.bread 1 "ORD-ABC" 5])).
  vm_compute. reflexivity.
Defined.

Lemma identity_fields_kept_witness :
  List.map core (orders (fst (Sample.run Sample.offline "update ORD-ABC status delivered"
                                (Sample.holding [Sample.bread 1 "ORD-ABC" 5]))))
  = [core (Sample.bread 1 "ORD-ABC" 5)].
Proof.
  apply (identity_fields_kept Sample.parseFields Sample.removeWord Sample.showNumber
           Sample.toLocaleString Sample.offline "update ORD-ABC status delivered" "demo-user"
           (Sample.holding [Sample.bread 1 "ORD-ABC" 5])); vm_compute; discriminate.
Defined.

Lemma wellFormed_kept_witness :
  wellFormed (fst (Sample.run Sample.offline "delete order ORD-ABC"
                     (Sample.holding [Sample.bread 1 "ORD-ABC" 5; Sample.bread 2 "ORD-XYZ" 6]))).
Proof.
  apply (wellFormed_kept Sample.parseFields Sample.removeWord Sample.showNumber
           Sample.toLocaleString Sample.offline "delete order ORD-ABC" "demo-user"
           (Sample.holding [Sample.bread 1 "ORD-ABC" 5; Sample.bread 2 "ORD-XYZ" 6])).
  split.
  - cbn. repeat constructor; cbn; intuition discriminate.
  - cbn. repeat constructor; cbn; lia.
Defined.

(** *** Lookups by tracking id *)

Lemma extract_isOrdUpper (text tid : string) :
  extractTrackingIdFrom text = Some tid -> isOrdUpper tid = true.
Proof.
  unfold extractTrackingIdFrom. intros H.
  destruct (Rx.find ordToken text) as [m|] eqn:Ef; [|discriminate]. injection H as <-.
  apply search_some in Ef. destruct Ef as (prev & s & Hm). eapply ordToken_canonical. exact Hm.
Qed.

Lemma find_split (p : Order -> bool) (l : list Order) (o : Order) :
  List.find p l = Some o ->
  exists l1 l2, l = (l1 ++ o :: l2)%list /\ (forall x, In x l1 -> p x = false) /\ p o = true.
Proof.
  induction l as [|x r IH]; [discriminate|]. cbn [find]. destruct (p x) eqn:E.
  - intros H. injection H as <-. exists [], r. repeat split; [intros ? []|exact E].
  - intros H. destruct (IH H) as (l1 & l2 & -> & Hl1 & Ho).
    exists (x :: l1), l2. repeat split; [|exact Ho].
    intros y [<-|Hy]; [exact E|apply Hl1; exact Hy].
Qed.

Lemma find_first (p : Order -> bool) (l1 l2 : list Order) (o : Order) :
  (forall x, In x l1 -> p x = false) -> p o = true ->
  List.find p (l1 ++ o :: l2) = Some o.
Proof.
  intros Hl1 Ho. induction l1 as [|x r IH]; cbn [app find]; [rewrite Ho; reflexivity|].
  rewrite (Hl1 x) by (left; reflexivity). apply IH. intros y Hy. apply Hl1. right. exact Hy.
Qed.

Lemma deleteOne_first (p : Order -> bool) (l1 l2 : list Order) (o : Order) :
  (forall x, In x l1 -> p x = false) -> p o = true ->
  Store.deleteOne p (l1 ++ o :: l2) = (l1 ++ l2)%list.
Proof.
  intros Hl1 Ho. induction l1 as [|x r IH]; cbn [app Store.deleteOne]; [rewrite Ho; reflexivity|].
  rewrite (Hl1 x) by (left; reflexivity). rewrite IH; [reflexivity|].
  intros y Hy. apply Hl1. right. exact Hy.
Qed.

Lemma findOneAndUpdate_first (p : Order -> bool) (f : Order -> Order)
    (l1 l2 : list Order) (o : Order) :
  (forall x, In x l1 -> p x = false) -> p o = true ->
  Store.findOneAndUpdate p f (l1 ++ o :: l2) = ((l1 ++ f o :: l2)%list, Some (f o)).
Proof.
  intros Hl1 Ho. induction l1 as [|x r IH]; cbn [app Store.findOneAndUpdate];
    [rewrite Ho; reflexivity|].
  rewrite (Hl1 x) by (left; reflexivity). rewrite IH; [reflexivity|].
  intros y Hy. apply Hl1. right. exact Hy.
Qed.

Lemma byTrackingId_false (tid : string) (x : Order) :
  trackingId x <> tid -> Store.byTrackingId tid x = false.
Proof. intros H. apply String.eqb_neq. exact H. Qed.

Lemma byTrackingId_true (tid : string) (x : Order) :
  trackingId x = tid -> Store.byTrackingId tid x = true.
Proof. intros H. apply String.eqb_eq. exact H. Qed.

Lemma NoDup_ids_before (l1 l2 : list Order) (o x : Order) :
  List.NoDup (List.map _id (l1 ++ o :: l2)) -> In x l1 -> Store.byId (_id o) x = false.
Proof.
  intros Hnd Hx. unfold Store.byId. apply Nat.eqb_neq. intros E.
  rewrite List.map_app in Hnd. cbn [List.map] in Hnd.
  apply NoDup_remove_2 in Hnd. apply Hnd. apply in_or_app. left.
  rewrite <- E. apply in_map. exact Hx.
Qed.

Section Lookups.

Variable parseFields : string -> option Fields.
Variable removeWord : string -> string -> option string.
Variable showNumber : Q -> string.
Variable toLocaleString : Z -> string.

Abbreviation aiReply := (aiReply parseFields removeWord showNumber toLocaleString).

(** The three ways a delete request ends.  Without an id in the text the
    controller asks for one; with an id no order carries, it answers
    [order_not_found]; in both cases the collection is unchanged.  With the
    id of a stored order, storage ids being unique, exactly the first order
    under that id leaves the collection, and the same request sent again is
    answered [order_not_found] when no other order carries the id. *)
Theorem delete_outcomes (w w' : World) (text uid : string) (st : State) :
  p_intent (parseIntent text) = delete_order ->
  (extractTrackingIdFrom text = None ->
     exists r, snd (aiReply w text uid st) = Json r /\ action r = "ask_for_order_id"
               /\ orders (fst (aiReply w text uid st)) = orders st)
  /\ (forall tid, extractTrackingIdFrom text = Some tid ->
        (forall x, In x (orders st) -> trackingId x <> tid) ->
        exists r, snd (aiReply w text uid st) = Json r /\ action r = "order_not_found"
                  /\ r_trackingId r = Some tid
                  /\ orders (fst (aiReply w text uid st)) = orders st)
  /\ (forall tid o l1 l2, extractTrackingIdFrom text = Some tid ->
        orders st = (l1 ++ o :: l2)%list -> trackingId o = tid ->
        (forall x, In x l1 -> trackingId x <> tid) ->
        List.NoDup (List.map _id (orders st)) ->
        (exists r, snd (aiReply w text uid st) = Json r /\ action r = "delete_order"
                   /\ order r = Some (Ref tid)
                   /\ reply r = "Order " ++ tid ++ " has been deleted."
                   /\ orders (fst (aiReply w text uid st)) = (l1 ++ l2)%list)
        /\ ((forall x, In x l2 -> trackingId x <> tid) ->
            exists r, snd (aiReply w' text uid (fst (aiReply w text uid st))) = Json r
                      /\ action r = "order_not_found")).
Proof.
  intros Hi. unfold aiReply. rewrite Hi. unfold deleteBranch. split; [|split].
  - intros ->. eexists. split; [reflexivity|]. split; [reflexivity|apply orders_enter].
  - intros tid -> Hno. unfold Store.findOne. rewrite find_none.
    + eexists. split; [reflexivity|]. split; [reflexivity|]. split; [reflexivity|apply orders_enter].
    + intros x Hx. rewrite orders_enter in Hx. apply byTrackingId_false. apply Hno. exact Hx.
  - intros tid o l1 l2 -> Hst Ho Hl1 Hnd. unfold Store.findOne.
    rewrite !orders_enter, Hst.
    rewrite (find_first (Store.byTrackingId tid) l1 l2 o)
      by (first [intros x Hx; apply byTrackingId_false; apply Hl1; exact Hx
                | apply byTrackingId_true; exact Ho]).
    rewrite deleteOne_first
      by (first [intros x Hx; apply (NoDup_ids_before l1 l2 o x); [rewrite <- Hst; exact Hnd|exact Hx]
                | apply Nat.eqb_refl]).
    split.
    + eexists. split; [reflexivity|]. repeat split.
    + intros Hl2. cbn [fst respond]. unfold push, withOrders.
      cbn [orders]. rewrite find_none.
      * eexists. split; [reflexivity|]. reflexivity.
      * intros x Hx. apply byTrackingId_false. apply in_app_or in Hx.
        destruct Hx as [Hx|Hx]; [apply Hl1|apply Hl2]; exact Hx.
Qed.

(** A cancel request that names a stored order, in any case, sets the status
    of the first order under the upper-cased id to [cancelled] and answers
    with that order; its place in the collection, its item and its fixed
    fields are kept, and no other order is written. *)
Theorem cancel_found (w : World) (uid : string) (st : State)
    (U : string) (o : Order) (l1 l2 : list Order) :
  U <> EmptyString -> Str.all Char.isIdChar U = true ->
  orders st = (l1 ++ o :: l2)%list ->
  trackingId o = Str.toUpperCase U ->
  (forall x, In x l1 -> trackingId x <> Str.toUpperCase U) ->
  exists r o',
    snd (aiReply w ("cancel order " ++ U) uid st) = Json r
    /\ action r = "cancel_order" /\ order r = Some (Doc o')
    /\ reply r = "Order " ++ Str.toUpperCase U ++ " cancelled."
    /\ status o' = "cancelled" /\ updatedAt o' = now w
    /\ core o' = core o /\ item o' = item o /\ address o' = address o
    /\ orders (fst (aiReply w ("cancel order " ++ U) uid st)) = (l1 ++ o' :: l2)%list.
Proof.
  intros Hne HU Hst Ho Hl1. unfold aiReply.
  rewrite (parseIntent_cancel_order U HU). cbn [p_intent just].
  unfold cancelBranch. rewrite (cancelIdRx_captures U HU Hne).
  rewrite orders_enter, Hst.
  rewrite findOneAndUpdate_first
    by (first [intros x Hx; apply byTrackingId_false; apply Hl1; exact Hx
              | apply byTrackingId_true; exact Ho]).
  exists (withOrder (Doc (setStatus "cancelled" o (now w)))
            (response ("Order " ++ trackingId (setStatus "cancelled" o (now w)) ++ " cancelled.")
               "cancel_order")),
    (setStatus "cancelled" o (now w)).
  split; [reflexivity|]. cbn [fst respond]. unfold push, withOrders. cbn [orders].
  split; [reflexivity|]. split; [reflexivity|].
  split; [cbn [reply withOrder response trackingId setStatus]; rewrite Ho; reflexivity|].
  repeat split.
Qed.

(** Update and delete requests look orders up under the canonical upper-case
    form of the id: when no stored tracking id has that form, whatever the
    text, nothing is written and the answer asks for an id or reports the
    order as not found. *)
Theorem noncanonical_ids_unreachable (w : World) (text uid : string) (st : State) :
  p_intent (parseIntent text) = update_order \/ p_intent (parseIntent text) = delete_order ->
  (forall o, In o (orders st) -> isOrdUpper (trackingId o) = false) ->
  orders (fst (aiReply w text uid st)) = orders st
  /\ exists r, snd (aiReply w text uid st) = Json r
               /\ (action r = "ask_for_order_id" \/ action r = "order_not_found").
Proof.
  intros Hi Hst.
  assert (Hf : forall tid e, extractTrackingIdFrom text = Some tid -> orders e = orders st ->
               Store.findOne (Store.byTrackingId tid) (orders e) = None).
  { intros tid e Ht He. apply find_none. intros x Hx. rewrite He in Hx.
    apply byTrackingId_false. intros E. apply extract_isOrdUpper in Ht.
    rewrite <- E, (Hst x Hx) in Ht. discriminate. }
  unfold aiReply. destruct Hi as [-> | ->].
  - unfold updateOrderBranch. destruct (extractTrackingIdFrom text) as [tid|] eqn:Et.
    + rewrite (Hf tid _ eq_refl (orders_enter _ _ _)). cbn [fst snd respond].
      split; [apply orders_enter|]. eexists. split; [reflexivity|]. right. reflexivity.
    + split; [apply orders_enter|]. eexists. split; [reflexivity|]. left. reflexivity.
  - unfold deleteBranch. destruct (extractTrackingIdFrom text) as [tid|] eqn:Et.
    + rewrite (Hf tid _ eq_refl (orders_enter _ _ _)). cbn [fst snd respond].
      split; [apply orders_enter|]. eexists. split; [reflexivity|]. right. reflexivity.
    + split; [apply orders_enter|]. eexists. split; [reflexivity|]. left. reflexivity.
Qed.

End Lookups.

Lemma delete_outcomes_witness :
  (exists r, snd (Sample.run Sample.offline "delete order ORD-ABC"
                    (Sample.holding [Sample.bread 1 "ORD-XYZ" 5; Sample.bread 2 "ORD-ABC" 6]))
             = Json r
             /\ action r = "delete_order" /\ order r = Some (Ref "ORD-ABC")
             /\ reply r = "Order ORD-ABC has been deleted."
             /\ orders (fst (Sample.run Sample.offline "delete order ORD-ABC"
                               (Sample.holding [Sample.bread 1 "ORD-XYZ" 5;
                                                Sample.bread 2 "ORD-ABC" 6])))
                = [Sample.bread 1 "ORD-XYZ" 5])
  /\ exists r, snd (Sample.run Sample.offline "delete order ORD-ABC"
                      (fst (Sample.run Sample.offline "delete order ORD-ABC"
                              (Sample.holding [Sample.bread 1 "ORD-XYZ" 5;
                                               Sample.bread 2 "ORD-ABC" 6])))) = Json r
               /\ action r = "order_not_found".
Proof.
  pose proof (delete_outcomes Sample.parseFields Sample.removeWord Sample.showNumber
                Sample.toLocaleString Sample.offline Sample.offline "delete order ORD-ABC"
                "demo-user"
                (Sample.holding [Sample.bread 1 "ORD-XYZ" 5; Sample.bread 2 "ORD-ABC" 6])) as H.
  destruct H as (_ & _ & H); [vm_compute; reflexivity|].
  destruct (H "ORD-ABC" (Sample.bread 2 "ORD-ABC" 6) [Sample.bread 1 "ORD-XYZ" 5] []) as [H1 H2].
  - vm_compute. reflexivity.
  - reflexivity.
  - reflexivity.
  - intros x [<-|[]]. vm_compute. discriminate.
  - cbn. repeat constructor; cbn; intuition discriminate.
  - split; [exact H1|]. apply H2. intros x [].
Defined.

Lemma cancel_found_witness :
  exists r o',
    snd (Sample.run Sample.offline "cancel order ord-abc"
           (Sample.holding [Sample.bread 1 "ORD-ABC" 5])) = Json r
    /\ action r = "cancel_order" /\ order r = Some (Doc o')
    /\ reply r = "Order ORD-ABC cancelled."
    /\ status o' = "cancelled" /\ updatedAt o' = 1700000000000
    /\ core o' = core (Sample.bread 1 "ORD-ABC" 5) /\ item o' = "bread" /\ address o' = None
    /\ orders (fst (Sample.run Sample.offline "cancel order ord-abc"
                      (Sample.holding [Sample.bread 1 "ORD-ABC" 5]))) = [o'].
Proof.
  apply (cancel_found Sample.parseFields Sample.removeWord Sample.showNumber
           Sample.toLocaleString Sample.offline "demo-user"
           (Sample.holding [Sample.bread 1 "ORD-ABC" 5]) "ord-abc"
           (Sample.bread 1 "ORD-ABC" 5) [] []).
  - discriminate.
  - vm_compute. reflexivity.
  - reflexivity.
  - vm_compute. reflexivity.
  - intros x [].
Defined.

Lemma noncanonical_ids_unreachable_witness :
  orders (fst (Sample.run Sample.offline "delete order ORD-loyw3v284FZYO8" Sample.generated))
  = orders Sample.generated
  /\ exists r, snd (Sample.run Sample.offline "delete order ORD-loyw3v284FZYO8" Sample.generated)
               = Json r
               /\ (action r = "ask_for_order_id" \/ action r = "order_not_found").
Proof.
  apply (noncanonical_ids_unreachable Sample.parseFields Sample.removeWord Sample.showNumber
           Sample.toLocaleString Sample.offline "delete order ORD-loyw3v284FZYO8" "demo-user"
           Sample.generated).
  - right. vm_compute. reflexivity.
  - intros o [<-|[]]. vm_compute. reflexivity.
Defined.

(** *** Track requests *)

Lemma isUpper_toLower (c : ascii) : Char.isUpper (Char.toLower c) = false.
Proof. each_char c. Qed.

Lemma toLowerCase_no_upper (s : string) :
  Str.all (fun c => negb (Char.isUpper c)) (Str.toLowerCase s) = true.
Proof.
  induction s as [|c s IH]; [reflexivity|]. unfold Str.toLowerCase in *. cbn [Str.map Str.all].
  rewrite isUpper_toLower, IH. reflexivity.
Qed.

Lemma no_upper_any (s : string) :
  Str.all (fun c => negb (Char.isUpper c)) s = true -> Str.any Char.isUpper s = false.
Proof.
  induction s as [|c s IH]; [reflexivity|]. cbn [Str.all Str.any]. intros H.
  apply andb_true_iff in H. destruct H as [Hc Hs]. rewrite (IH Hs).
  destruct (Char.isUpper c); [discriminate|reflexivity].
Qed.

Lemma search_some_all {A} (m : Rx.anchored A) (p : ascii -> bool) (s : string)
    (prev : option ascii) (x : A) :
  Str.all p s = true -> Rx.search m prev s = Some x ->
  exists prev' s', Str.all p s' = true /\ m prev' s' = Some x.
Proof.
  revert prev. induction s as [|c s IH]; intros prev Hs H; cbn [Rx.search] in H.
  - destruct (m prev EmptyString) eqn:E; [|discriminate]. injection H as <-. eauto.
  - destruct (m prev (String c s)) eqn:E.
    + injection H as <-. eauto.
    + cbn [Str.all] in Hs. apply andb_true_iff in Hs. eapply IH; [apply Hs|exact H].
Qed.

Lemma dropPrefix_all (eq : ascii -> ascii -> bool) (p : ascii -> bool) (q s r : string) :
  Str.all p s = true -> Str.dropPrefix eq q s = Some r -> Str.all p r = true.
Proof.
  revert s. induction q as [|a q IH]; intros s Hs H; cbn [Str.dropPrefix] in H.
  - injection H as <-. exact Hs.
  - destruct s as [|b s]; [discriminate|]. destruct (eq a b); [|discriminate].
    cbn [Str.all] in Hs. apply andb_true_iff in Hs. eapply IH; [apply Hs|exact H].
Qed.

Lemma idToken_all (p : ascii -> bool) (s g : string) :
  Str.all p s = true -> idToken s = Some g -> Str.all p g = true /\ g <> EmptyString.
Proof.
  unfold idToken. intros Hs. destruct (Str.span Char.isIdChar s) as [a b] eqn:E. cbn [fst].
  destruct (Str.truthy a) eqn:Et; [|discriminate]. intros H. injection H as <-.
  destruct (span_spec _ _ _ _ E) as [_ ->]. rewrite all_app in Hs.
  apply andb_true_iff in Hs. split; [tauto|]. intros ->. discriminate.
Qed.

Lemma trackRx_all (p : ascii -> bool) (prev : option ascii) (s g : string) :
  Str.all p s = true -> trackRx prev s = Some g -> Str.all p g = true /\ g <> EmptyString.
Proof.
  unfold trackRx. intros Hs. destruct (Str.litCI "track " s) as [r|] eqn:E; [|discriminate].
  cbn [mbind option_bind]. pose proof (dropPrefix_all _ p _ _ _ Hs E) as Hr.
  unfold optional. destruct (Str.dropPrefix Char.eqCI "order " r) as [r2|] eqn:E2.
  - destruct (idToken r2) as [g2|] eqn:E3.
    + intros H. injection H as <-. eapply idToken_all; [|exact E3].
      eapply dropPrefix_all; [exact Hr|exact E2].
    + apply idToken_all. exact Hr.
  - apply idToken_all. exact Hr.
Qed.

Lemma whereRx_all (p : ascii -> bool) (prev : option ascii) (s g : string) :
  Str.all p s = true -> whereRx prev s = Some g -> Str.all p g = true /\ g <> EmptyString.
Proof.
  unfold whereRx. intros Hs.
  destruct (Str.litCI "where is order " s) as [r|] eqn:E; [|discriminate].
  cbn [mbind option_bind]. apply idToken_all. eapply dropPrefix_all; [exact Hs|exact E].
Qed.

(** The id of a track request is a non-empty token without upper-case
    letters. *)
Lemma track_id_lower (text : string) :
  p_intent (parseIntent text) = track_order ->
  exists tid, parseIntent text = {| p_intent := track_order; p_trackingId := Some tid |}
              /\ tid <> EmptyString /\ Str.any Char.isUpper tid = false.
Proof.
  unfold parseIntent. pose proof (toLowerCase_no_upper text) as Hl. revert Hl.
  generalize (Str.toLowerCase text). intros t Hl.
  destruct (Rx.test createRx t); [discriminate|].
  destruct (Rx.find trackRx t) as [g|] eqn:E1.
  - intros _. exists g. split; [reflexivity|].
    apply (search_some_all _ _ _ _ _ Hl) in E1. destruct E1 as (prev & s & Hs & Hm).
    destruct (trackRx_all _ _ _ _ Hs Hm) as [Hg Hne]. split; [exact Hne|apply no_upper_any; exact Hg].
  - destruct (Rx.find whereRx t) as [g|] eqn:E2.
    + intros _. exists g. split; [reflexivity|].
      apply (search_some_all _ _ _ _ _ Hl) in E2. destruct E2 as (prev & s & Hs & Hm).
      destruct (whereRx_all _ _ _ _ Hs Hm) as [Hg Hne].
      split; [exact Hne|apply no_upper_any; exact Hg].
    + repeat match goal with
             | |- context [if ?b then _ else _] => destruct b; [discriminate|]
             end. discriminate.
Qed.

Section TrackRequests.

Variable parseFields : string -> option Fields.
Variable removeWord : string -> string -> option string.
Variable showNumber : Q -> string.
Variable toLocaleString : Z -> string.

Abbreviation aiReply := (aiReply parseFields removeWord showNumber toLocaleString).

(** A track request looks up the id as it stands in the lower-cased text: the
    id it asks for has no upper-case letter, and when every stored tracking
    id has one, as every id that begins with [ORD-] has, the answer is
    [order_not_found] whatever the text. *)
Theorem track_lookup_lower_case (w : World) (text uid : string) (st : State) :
  p_intent (parseIntent text) = track_order ->
  exists tid,
    p_trackingId (parseIntent text) = Some tid
    /\ tid <> EmptyString /\ Str.any Char.isUpper tid = false
    /\ ((forall o, In o (orders st) -> Str.any Char.isUpper (trackingId o) = true) ->
        exists r, snd (aiReply w text uid st) = Json r
                  /\ action r = "order_not_found" /\ order r = None
                  /\ r_trackingId r = Some tid).
Proof.
  intros Hi. destruct (track_id_lower text Hi) as (tid & Hp & Hne & Hup).
  exists tid. rewrite Hp. split; [reflexivity|]. split; [exact Hne|]. split; [exact Hup|].
  intros Hst. unfold aiReply. rewrite Hp. cbn [p_intent p_trackingId].
  assert (Ho : orNull (Some tid) = Some tid) by (destruct tid; [congruence|reflexivity]).
  rewrite Ho. unfold trackBranch, Store.findOne. rewrite find_none.
  - eexists. split; [reflexivity|]. repeat split.
  - intros o Hin. rewrite orders_enter in Hin. apply byTrackingId_false.
    intros E. rewrite <- E, (Hst o Hin) in Hup. discriminate.
Qed.

End TrackRequests.

Lemma track_lookup_lower_case_witness :
  exists tid,
    p_trackingId (parseIntent "Where is order ORD-ABC?") = Some tid
    /\ tid <> EmptyString /\ Str.any Char.isUpper tid = false
    /\ ((forall o, In o (orders (Sample.holding [Sample.bread 1 "ORD-ABC" 5])) ->
           Str.any Char.isUpper (trackingId o) = true) ->
        exists r, snd (Sample.run Sample.offline "Where is order ORD-ABC?"
                         (Sample.holding [Sample.bread 1 "ORD-ABC" 5])) = Json r
                  /\ action r = "order_not_found" /\ order r = None
                  /\ r_trackingId r = Some tid).
Proof.
  apply (track_lookup_lower_case Sample.parseFields Sample.removeWord Sample.showNumber
           Sample.toLocaleString Sample.offline "Where is order ORD-ABC?" "demo-user"
           (Sample.holding [Sample.bread 1 "ORD-ABC" 5])).
  vm_compute. reflexivity.
Defined.

(** *** The next pickup *)

Lemma notBefore_trans (a b c : Order) :
  Store.pickupBefore a b = false -> Store.pickupBefore b c = false ->
  Store.pickupBefore a c = false.
Proof.
  unfold Store.pickupBefore.
  destruct (pickupTime a) as [x|], (pickupTime b) as [y|], (pickupTime c) as [z|];
    try discriminate; try reflexivity;
    rewrite ?orb_false_iff, ?andb_false_iff, ?Z.ltb_ge, ?Z.eqb_neq; lia.
Qed.

Lemma pickupBefore_asym (a b : Order) :
  Store.pickupBefore a b = true -> Store.pickupBefore b a = false.
Proof.
  unfold Store.pickupBefore.
  destruct (pickupTime a) as [x|], (pickupTime b) as [y|];
    try discriminate; try reflexivity;
    rewrite ?orb_true_iff, ?andb_true_iff, ?orb_false_iff, ?andb_false_iff,
      ?Z.ltb_lt, ?Z.ltb_ge, ?Z.eqb_eq, ?Z.eqb_neq; lia.
Qed.

Lemma pickupBefore_irrefl (a : Order) : Store.pickupBefore a a = false.
Proof.
  destruct (Store.pickupBefore a a) eqn:E; [|reflexivity].
  rewrite (pickupBefore_asym _ _ E) in E. discriminate.
Qed.

(** [earliest] yields an order of the list that no order of the list is
    before. *)
Lemma earliest_spec (l : list Order) (m : Order) :
  Store.earliest l = Some m ->
  In m l /\ forall x, In x l -> Store.pickupBefore x m = false.
Proof.
  revert m. induction l as [|o r IH]; intros m H; [discriminate|]. cbn [Store.earliest] in H.
  destruct (Store.earliest r) as [m'|] eqn:E.
  - destruct (IH m' eq_refl) as [Hin Hmin].
    destruct (Store.pickupBefore m' o) eqn:Eb; injection H as <-.
    + split; [right; exact Hin|]. intros x [<-|Hx]; [apply pickupBefore_asym; exact Eb|].
      apply Hmin. exact Hx.
    + split; [left; reflexivity|]. intros x [<-|Hx]; [apply pickupBefore_irrefl|].
      eapply notBefore_trans; [apply Hmin; exact Hx|exact Eb].
  - injection H as <-. destruct r; [|cbn [Store.earliest] in E; destruct (Store.earliest r);
      [destruct (Store.pickupBefore _ _)|]; discriminate].
    split; [left; reflexivity|]. intros x [<-|[]]. apply pickupBefore_irrefl.
Qed.

Lemma earliest_none (l : list Order) : Store.earliest l = None -> l = [].
Proof.
  destruct l as [|o r]; [reflexivity|]. cbn [Store.earliest].
  destruct (Store.earliest r); [destruct (Store.pickupBefore _ _)|]; discriminate.
Qed.

Section NextPickup.

Variable parseFields : string -> option Fields.
Variable removeWord : string -> string -> option string.
Variable showNumber : Q -> string.
Variable toLocaleString : Z -> string.

Abbreviation aiReply := (aiReply parseFields removeWord showNumber toLocaleString).

(** A next-pickup request is answered [no_pickups] exactly when no stored
    order has the status created, assigned or pending; otherwise it is
    answered with a stored order of such a status that no other such order
    precedes: none has an earlier pickup time, a missing pickup time counting
    as the earliest, and none with the same pickup time was created before
    it. *)
Theorem next_pickup_earliest (w : World) (text uid : string) (st : State) :
  p_intent (parseIntent text) = next_pickup ->
  exists r, snd (aiReply w text uid st) = Json r
    /\ ((forall o, In o (orders st) -> awaitingPickup o = false) ->
        action r = "no_pickups" /\ order r = None)
    /\ ((exists o, In o (orders st) /\ awaitingPickup o = true) ->
        action r = "next_pickup"
        /\ exists m, order r = Some (Doc m) /\ In m (orders st) /\ awaitingPickup m = true
                     /\ forall x, In x (orders st) -> awaitingPickup x = true ->
                                  Store.pickupBefore x m = false).
Proof.
  intros Hi. unfold aiReply. rewrite Hi. unfold nextPickupBranch. rewrite orders_enter.
  destruct (Store.earliest (List.filter awaitingPickup (orders st))) as [m|] eqn:E.
  - eexists. split; [reflexivity|]. cbn [action order withOrder response].
    destruct (earliest_spec _ _ E) as [Hin Hmin]. apply filter_In in Hin. split.
    + intros Hno. rewrite (Hno m) in Hin by tauto. destruct Hin. discriminate.
    + intros _. split; [reflexivity|]. exists m. split; [reflexivity|].
      split; [tauto|]. split; [tauto|]. intros x Hx Ha. apply Hmin. apply filter_In. tauto.
  - eexists. split; [reflexivity|]. cbn [action order response]. split; [tauto|].
    intros (o & Hin & Ha). apply earliest_none in E.
    assert (H : In o (List.filter awaitingPickup (orders st))) by (apply filter_In; tauto).
    rewrite E in H. destruct H.
Qed.

End NextPickup.

Lemma next_pickup_earliest_witness :
  exists r, snd (Sample.run Sample.offline "what is my next pickup"
                   (Sample.holding [Sample.bread 1 "ORD-A1" 30; Sample.bread 2 "ORD-A2" 10]))
            = Json r
    /\ ((forall o, In o [Sample.bread 1 "ORD-A1" 30; Sample.bread 2 "ORD-A2" 10] ->
           awaitingPickup o = false) ->
        action r = "no_pickups" /\ order r = None)
    /\ ((exists o, In o [Sample.bread 1 "ORD-A1" 30; Sample.bread 2 "ORD-A2" 10]
                   /\ awaitingPickup o = true) ->
        action r = "next_pickup"
        /\ exists m, order r = Some (Doc m)
                     /\ In m [Sample.bread 1 "ORD-A1" 30; Sample.bread 2 "ORD-A2" 10]
                     /\ awaitingPickup m = true
                     /\ forall x, In x [Sample.bread 1 "ORD-A1" 30; Sample.bread 2 "ORD-A2" 10] ->
                                  awaitingPickup x = true -> Store.pickupBefore x m = false).
Proof.
  apply (next_pickup_earliest Sample.parseFields Sample.removeWord Sample.showNumber
           Sample.toLocaleString Sample.offline "what is my next pickup" "demo-user"
           (Sample.holding [Sample.bread 1 "ORD-A1" 30; Sample.bread 2 "ORD-A2" 10])).
  vm_compute. reflexivity.
Defined.

(** *** Pickup times are not in the past *)

Lemma isDigit_code (c : ascii) : Char.isDigit c = true -> 48 <= Z.of_N (Char.code c).
Proof.
  unfold Char.isDigit, Char.between. intros H. apply andb_true_iff in H.
  destruct H as [H _]. apply N.leb_le in H. lia.
Qed.

Lemma parseDigits_nonneg (s : string) (acc : Z) :
  Str.all Char.isDigit s = true -> 0 <= acc -> 0 <= parseDigits acc s.
Proof.
  revert acc. induction s as [|c s IH]; intros acc Hs Ha; [exact Ha|]. cbn [parseDigits].
  cbn [Str.all] in Hs. apply andb_true_iff in Hs. destruct Hs as [Hc Hs].
  apply IH; [exact Hs|]. pose proof (isDigit_code c Hc). lia.
Qed.

Lemma timeGroups_digits (prev : option ascii) (s g1 : string) (g2 : option string)
    (g3 : option ampm) :
  timeGroups prev s = Some (g1, g2, g3) ->
  Str.all Char.isDigit g1 = true
  /\ match g2 with Some m => Str.all Char.isDigit m = true | None => True end.
Proof.
  unfold timeGroups. destruct s as [|d1 r]; [discriminate|].
  destruct (Char.isDigit d1) eqn:E1; [|discriminate].
  set (first := match r with
                | String d2 r' => if Char.isDigit d2 then (String d1 (String d2 EmptyString), r')
                                  else (String d1 EmptyString, r)
                | EmptyString => (String d1 EmptyString, r)
                end).
  assert (H1 : Str.all Char.isDigit (fst first) = true).
  { unfold first. destruct r as [|d2 r']; [cbn; rewrite E1; reflexivity|].
    destruct (Char.isDigit d2) eqn:E2; cbn; rewrite E1, ?E2; reflexivity. }
  destruct first as [a r1]. cbn [fst] in H1.
  set (second := match r1 with
                 | String ":" (String m1 (String m2 r')) =>
                     if Char.isDigit m1 && Char.isDigit m2
                     then (Some (String m1 (String m2 EmptyString)), r') else (None, r1)
                 | _ => (None, r1)
                 end).
  assert (H2 : match fst second with
               | Some m => Str.all Char.isDigit m = true | None => True end).
  { unfold second. destruct r1 as [|c0 r1']; [exact I|].
    destruct c0 as [[] [] [] [] [] [] [] []]; try exact I.
    destruct r1' as [|m1 [|m2 r']]; try exact I.
    destruct (Char.isDigit m1) eqn:E1'; [|exact I].
    destruct (Char.isDigit m2) eqn:E2'; [|exact I].
    cbn [andb fst Str.all]. rewrite E1', E2'. reflexivity. }
  destruct second as [b r2]. cbn [fst] in H2.
  intros H. injection H as <- <- _. split; assumption.
Qed.

(** The hour and the minute read from a text are not negative. *)
Lemma parsedClock_nonneg (text : string) (h min : Z) :
  parsedClock text = Some (h, min) -> 0 <= h /\ 0 <= min.
Proof.
  unfold parsedClock. destruct (Rx.find timeGroups text) as [[[g1 g2] g3]|] eqn:E; [|discriminate].
  apply search_some in E. destruct E as (prev & s & Hm).
  destruct (timeGroups_digits _ _ _ _ _ Hm) as [H1 H2].
  pose proof (parseDigits_nonneg g1 0 H1 (Z.le_refl 0)) as Hh.
  intros H. injection H as <- <-. split.
  - destruct g3 as [[|]|]; [destruct (_ =? 12)|destruct (_ <? 12)|]; lia.
  - destruct g2 as [m|]; [apply parseDigits_nonneg; [exact H2|lia]|lia].
Qed.

Lemma startOfDay_le (t : Z) : startOfDay t <= t < startOfDay t + msPerDay.
Proof.
  unfold startOfDay, msPerDay.
  pose proof (Z.div_mod t 86400000 ltac:(lia)).
  pose proof (Z.mod_pos_bound t 86400000 ltac:(lia)). lia.
Qed.

(** A pickup time is never before the clock: while the second reading of the
    clock is on the day of the first, the time [extractPickupTime] returns is
    at or after it.  In particular one reading used for both is never
    answered with a past instant. *)
Theorem pickup_not_in_past (created now : Z) (text : string) (r : Z) :
  now < startOfDay created + msPerDay ->
  extractPickupTime created now text = Some r -> now <= r.
Proof.
  intros Hday. unfold extractPickupTime.
  destruct (parsedClock text) as [[h min]|] eqn:E; [|discriminate].
  destruct (parsedClock_nonneg _ _ _ E) as [Hh Hm].
  intros H. injection H as <-. unfold setHours in *.
  destruct (Z.ltb_spec (startOfDay created + h * 3600000 + min * 60000) now); lia.
Qed.

Lemma pickup_not_in_past_witness : 1699981200001 <= 1700067600000.
Proof.
  apply (pickup_not_in_past 1699981200001 1699981200001 "pickup at 5 pm" 1700067600000).
  - vm_compute. reflexivity.
  - vm_compute. reflexivity.
Defined.

(** *** Free text, and creation followed by listing *)

Lemma lastN_snoc {A} (n : nat) (h : list A) (x : A) :
  lastN (S n) (h ++ [x]) = (lastN n h ++ [x])%list.
Proof.
  unfold lastN. rewrite List.length_app. cbn [length].
  replace (length h + 1 - S n)%nat with (length h - n)%nat by lia.
  rewrite List.skipn_app.
  replace (length h - n - length h)%nat with 0%nat by lia. reflexivity.
Qed.

Lemma lastN_length {A} (n : nat) (h : list A) : (length (lastN n h) <= n)%nat.
Proof. unfold lastN. rewrite List.length_skipn. lia. Qed.

Lemma sortNewestFirst_newest (l : list Order) (o : Order) :
  (forall x, In x l -> createdAt x < createdAt o) ->
  Store.sortNewestFirst (l ++ [o]) = o :: Store.sortNewestFirst l.
Proof.
  unfold Store.sortNewestFirst. induction l as [|x r IH]; intros H; [reflexivity|].
  cbn [app fold_right]. rewrite IH by (intros y Hy; apply H; right; exact Hy).
  cbn [Store.insertDesc].
  replace (createdAt o <=? createdAt x) with false; [reflexivity|].
  symmetry. apply Z.leb_gt. apply H. left. reflexivity.
Qed.

Section FreeText.

Variable parseFields : string -> option Fields.
Variable removeWord : string -> string -> option string.
Variable showNumber : Q -> string.
Variable toLocaleString : Z -> string.

Abbreviation aiReply := (aiReply parseFields removeWord showNumber toLocaleString).

(** A text no rule matches goes to the chat backend with at most eight
    messages, the last of which is the utterance itself, preceded by the last
    seven of the history; a missing or empty answer becomes a fixed excuse,
    and a call that throws ends the request in the internal error, unlike
    the extraction call of the create branch.  Without a backend the answer
    is the fixed [fallback] reply. *)
Theorem free_text_reply (w : World) (text uid : string) (st : State) :
  p_intent (parseIntent text) = general ->
  (groq w = false ->
     snd (aiReply w text uid st)
     = Json (response "Sorry, I couldn't process that right now." "fallback"))
  /\ (groq w = true ->
      exists older,
        (length older <= 7)%nat
        /\ older = List.map groqMessage (lastN 7 (historyBefore uid st))
        /\ snd (aiReply w text uid st)
           = match chat w (older ++ [msg user text]) with
             | Throws => InternalError
             | Content c => Json (response (orElse c "Sorry, I didn't get that.") "llm_reply")
             end).
Proof.
  intros Hi. unfold aiReply. rewrite Hi. unfold chatFallback. split.
  - intros ->. reflexivity.
  - intros ->. exists (List.map groqMessage (lastN 7 (historyBefore uid st))).
    split; [rewrite List.length_map; apply lastN_length|]. split; [reflexivity|].
    unfold historyOf. rewrite (history_enter uid text st). unfold default, id.
    rewrite lastN_snoc, List.map_app. cbn [List.map].
    change (groqMessage (msg user text)) with (msg user text).
    destruct (chat w _); reflexivity.
Qed.

(** A create request followed by a list request: when the clock of the create
    request is past the creation time of every stored order, the new order
    heads the list, followed by the nine newest of the others. *)
Theorem created_order_listed_first (w w' : World) (text text' uid uid' : string) (st : State) :
  p_intent (parseIntent text) = create_order ->
  p_intent (parseIntent text') = list_orders ->
  (forall x, In x (orders st) -> createdAt x < now w) ->
  exists o r,
    snd (aiReply w text uid st)
    = Json (withOrder (Doc o)
              (response ("Order created. Tracking ID " ++ trackingId o ++ ".") "created_order"))
    /\ snd (aiReply w' text' uid' (fst (aiReply w text uid st))) = Json r
    /\ action r = "list_orders"
    /\ r_orders r = Some (o :: List.firstn 9 (Store.sortNewestFirst (orders st))).
Proof.
  intros Hc Hl Hnew. unfold aiReply. rewrite Hc, Hl. unfold createBranch, listBranch.
  cbn [fst snd respond]. rewrite !orders_enter. unfold push. cbn [orders].
  rewrite ?orders_enter.
  eexists. eexists. split; [reflexivity|].
  rewrite sortNewestFirst_newest by exact Hnew. cbn [firstn].
  split; [reflexivity|]. split; reflexivity.
Qed.

(** The order a create request stores never has an empty item, customer name
    or address, nor a zero amount or zero expenses: what the model leaves out
    or leaves empty is filled from the text and the defaults.  Its status is
    [created], whatever status the model gave, and it is stamped with the
    user and the clock of the request. *)
Theorem created_order_fields (w : World) (text uid : string) (st : State) :
  p_intent (parseIntent text) = create_order ->
  exists r o,
    snd (aiReply w text uid st) = Json r /\ order r = Some (Doc o)
    /\ item o <> EmptyString
    /\ customerName o <> Some EmptyString /\ address o <> Some EmptyString
    /\ assignedTo o <> Some EmptyString
    /\ ~ (amount o == 0)%Q /\ ~ (expenses o == 0)%Q
    /\ status o = "created" /\ createdBy o = uid
    /\ createdAt o = now w /\ _id o = nextId st.
Proof.
  intros Hi.
  assert (Ht : text <> EmptyString) by (intros ->; vm_compute in Hi; discriminate).
  assert (HorNull : forall x, orNull x <> Some EmptyString).
  { intros [[|c s]|]; cbn; discriminate. }
  unfold aiReply. rewrite Hi. unfold createBranch. cbn [snd respond].
  eexists. eexists. split; [reflexivity|]. split; [reflexivity|].
  cbn [item customerName address assignedTo amount expenses status createdBy createdAt _id newOrder].
  rewrite nextId_enter.
  split.
  { unfold extractOrderFieldsWithLLM. destruct (modelAnswer _ _ _) as [p|]; cbn [e_item fallbackFields];
      [|exact Ht].
    unfold orElse. destruct (orNull (f_item p)) as [s|] eqn:E; [|exact Ht].
    intros ->. exact (HorNull _ E). }
  repeat split; try apply HorNull; apply orNum_nonzero; discriminate.
Qed.

End FreeText.

Lemma free_text_reply_witness :
  (groq Sample.offline = false ->
     snd (Sample.run Sample.offline "hello there" Sample.empty)
     = Json (response "Sorry, I couldn't process that right now." "fallback"))
  /\ (groq Sample.offline = true ->
      exists older,
        (length older <= 7)%nat
        /\ older = List.map groqMessage (lastN 7 (historyBefore "demo-user" Sample.empty))
        /\ snd (Sample.run Sample.offline "hello there" Sample.empty)
           = match chat Sample.offline (older ++ [msg user "hello there"]) with
             | Throws => InternalError
             | Content c => Json (response (orElse c "Sorry, I didn't get that.") "llm_reply")
             end).
Proof.
  apply (free_text_reply Sample.parseFields Sample.removeWord Sample.showNumber
           Sample.toLocaleString Sample.offline "hello there" "demo-user" Sample.empty).
  vm_compute. reflexivity.
Defined.

Lemma created_order_listed_first_witness :
  exists o r,
    snd (Sample.run Sample.offline "create order for milk"
           (Sample.holding [Sample.bread 1 "ORD-A1" 30]))
    = Json (withOrder (Doc o)
              (response ("Order created. Tracking ID " ++ trackingId o ++ ".") "created_order"))
    /\ snd (Sample.run Sample.offline "show orders"
              (fst (Sample.run Sample.offline "create order for milk"
                      (Sample.holding [Sample.bread 1 "ORD-A1" 30])))) = Json r
    /\ action r = "list_orders"
    /\ r_orders r
       = Some (o :: List.firstn 9 (Store.sortNewestFirst [Sample.bread 1 "ORD-A1" 30])).
Proof.
  apply (created_order_listed_first Sample.parseFields Sample.removeWord Sample.showNumber
           Sample.toLocaleString Sample.offline Sample.offline "create order for milk"
           "show orders" "demo-user" "demo-user" (Sample.holding [Sample.bread 1 "ORD-A1" 30])).
  - vm_compute. reflexivity.
  - vm_compute. reflexivity.
  - intros x [<-|[]]. vm_compute. reflexivity.
Defined.

Lemma created_order_fields_witness :
  exists r o,
    snd (Sample.run Sample.online "create order for bread" Sample.empty) = Json r
    /\ order r = Some (Doc o)
    /\ item o <> EmptyString
    /\ customerName o <> Some EmptyString /\ address o <> Some EmptyString
    /\ assignedTo o <> Some EmptyString
    /\ ~ (amount o == 0)%Q /\ ~ (expenses o == 0)%Q
    /\ status o = "created" /\ createdBy o = "demo-user"
    /\ createdAt o = 1700000000000 /\ _id o = 0%nat.
Proof.
  apply (created_order_fields Sample.parseFields Sample.removeWord Sample.showNumber
           Sample.toLocaleString Sample.online "create order for bread" "demo-user" Sample.empty).
  vm_compute. reflexivity.
Defined.

(** *** Address updates *)

Lemma splitGo_absent (sep : string) (s : string) (prev : option ascii) (cur : string) :
  Rx.search (Rx.literal sep) prev s = None ->
  exists x, splitGo (lengthOf Ascii.eqb sep) O prev cur s = [x].
Proof.
  revert prev cur. induction s as [|c r IH]; intros prev cur H; [eexists; reflexivity|].
  cbn [Rx.search] in H. unfold Rx.literal at 1 in H.
  destruct (Str.lit sep (String c r)) eqn:E; [discriminate|].
  cbn [splitGo]. unfold lengthOf at 1. unfold Str.lit in E. rewrite E. cbn [mbind option_bind].
  apply IH. exact H.
Qed.

Section AddressUpdates.

Variable parseFields : string -> option Fields.
Variable removeWord : string -> string -> option string.
Variable showNumber : Q -> string.
Variable toLocaleString : Z -> string.

Abbreviation aiReply := (aiReply parseFields removeWord showNumber toLocaleString).

(** The guards of the address update.  A text without an [ORD-] token is
    answered [ask_for_order_id].  A text whose token is not written in upper
    case, and that does not hold the upper-cased id elsewhere, is answered
    [ask_for_address] whatever follows the token, because the text is split
    at the upper-cased id.  In both cases nothing is written. *)
Theorem update_address_guards (w : World) (text uid : string) (st : State) :
  p_intent (parseIntent text) = update_address ->
  (Rx.find ordLoose text = None ->
     exists r, snd (aiReply w text uid st) = Json r /\ action r = "ask_for_order_id"
               /\ orders (fst (aiReply w text uid st)) = orders st)
  /\ (forall m, Rx.find ordLoose text = Some m ->
        includes (Str.toUpperCase m) text = false ->
        exists r, snd (aiReply w text uid st) = Json r /\ action r = "ask_for_address"
                  /\ r_trackingId r = Some (Str.toUpperCase m)
                  /\ orders (fst (aiReply w text uid st)) = orders st).
Proof.
  intros Hi. unfold aiReply. rewrite Hi. unfold updateAddressBranch. split.
  - intros ->. eexists. split; [reflexivity|]. split; [reflexivity|apply orders_enter].
  - intros m -> Hinc. unfold includes in Hinc. rewrite test_find in Hinc.
    destruct (Rx.find (Rx.literal (Str.toUpperCase m)) text) eqn:E; [discriminate|].
    destruct (splitGo_absent _ _ None EmptyString E) as (x & Hx).
    unfold splitOn, splitBy. rewrite Hx. cbn [nth_error option_map stripLead orNull].
    eexists. split; [reflexivity|]. split; [reflexivity|]. split; [reflexivity|apply orders_enter].
Qed.

End AddressUpdates.

Lemma update_address_guards_witness :
  exists r, snd (Sample.run Sample.offline "update address of ord-abc1 to Pune"
                   (Sample.holding [Sample.bread 1 "ORD-ABC1" 5])) = Json r
            /\ action r = "ask_for_address"
            /\ r_trackingId r = Some "ORD-ABC1"
            /\ orders (fst (Sample.run Sample.offline "update address of ord-abc1 to Pune"
                              (Sample.holding [Sample.bread 1 "ORD-ABC1" 5])))
               = [Sample.bread 1 "ORD-ABC1" 5].
Proof.
  pose proof (update_address_guards Sample.parseFields Sample.removeWord Sample.showNumber
                Sample.toLocaleString Sample.offline "update address of ord-abc1 to Pune"
                "demo-user" (Sample.holding [Sample.bread 1 "ORD-ABC1" 5])) as H.
  destruct H as [_ H]; [vm_compute; reflexivity|].
  apply (H "ord-abc1"); vm_compute; reflexivity.
Defined.

Example update_address_upper_case_id :
  exists r o, snd (Sample.run Sample.offline "update address of ORD-ABC1 to Pune"
                     (Sample.holding [Sample.bread 1 "ORD-ABC1" 5])) = Json r
              /\ action r = "update_address" /\ order r = Some (Doc o)
              /\ address o = Some "Pune".
Proof. do 2 eexists. split; [vm_compute; reflexivity|]. repeat split. Qed.

(** *** Updates *)

Section Updates.

Variable parseFields : string -> option Fields.
Variable removeWord : string -> string -> option string.
Variable showNumber : Q -> string.
Variable toLocaleString : Z -> string.

Abbreviation aiReply := (aiReply parseFields removeWord showNumber toLocaleString).

(** An update request that names a stored order by its canonical id and
    carries a status keyword, without the word remove: storage ids being
    unique, the first order under the id, and no other, gets the status; its
    place, its fixed fields and its address are kept. *)
Theorem update_status_applied (w : World) (text uid : string) (st : State)
    (tid s : string) (o : Order) (l1 l2 : list Order) :
  p_intent (parseIntent text) = update_order ->
  extractTrackingIdFrom text = Some tid ->
  orders st = (l1 ++ o :: l2)%list -> trackingId o = tid ->
  (forall x, In x l1 -> trackingId x <> tid) ->
  List.NoDup (List.map _id (orders st)) ->
  Rx.test (Rx.word Char.eqCI "remove") text = false ->
  extractStatus text = Some s ->
  exists r o',
    snd (aiReply w text uid st) = Json r
    /\ action r = "update_order" /\ order r = Some (Doc o')
    /\ status o' = s /\ core o' = core o /\ address o' = address o
    /\ updatedAt o' = now w
    /\ orders (fst (aiReply w text uid st)) = (l1 ++ o' :: l2)%list.
Proof.
  intros Hi Ht Hst Ho Hl1 Hnd Hrem Hs. unfold aiReply. rewrite Hi.
  unfold updateOrderBranch. rewrite Ht. unfold Store.findOne. rewrite orders_enter, Hst.
  rewrite (find_first (Store.byTrackingId tid) l1 l2 o)
    by (first [intros x Hx; apply byTrackingId_false; apply Hl1; exact Hx
              | apply byTrackingId_true; exact Ho]).
  unfold removedItems. rewrite Hrem, Hs. cbn [andb noUpdates u_status].
  rewrite findOneAndUpdate_first
    by (first [intros x Hx; apply (NoDup_ids_before l1 l2 o x); [rewrite <- Hst; exact Hnd|exact Hx]
              | apply Nat.eqb_refl]).
  eexists. eexists. split; [reflexivity|]. cbn [fst respond]. unfold push, withOrders.
  cbn [orders]. repeat split.
Qed.

(** An update request for a stored order in which no status keyword, pickup
    word, assignee, add or remove is found writes nothing and asks what to
    update, returning the order as it is. *)
Theorem update_nothing_detected (w : World) (text uid : string) (st : State)
    (tid : string) (o : Order) :
  p_intent (parseIntent text) = update_order ->
  extractTrackingIdFrom text = Some tid ->
  Store.findOne (Store.byTrackingId tid) (orders st) = Some o ->
  extractStatus text = None ->
  Rx.test pickupRx text = false ->
  extractAssignee text = None ->
  Rx.test (Rx.word Char.eqCI "add") text = false ->
  Rx.test (Rx.word Char.eqCI "remove") text = false ->
  snd (aiReply w text uid st)
  = Json (withOrder (Doc o)
            (response "What would you like to update? (status, pickup time, assignee, items)"
               "update_order"))
  /\ orders (fst (aiReply w text uid st)) = orders st.
Proof.
  intros Hi Ht Hf Hs Hp Ha Hadd Hrem. unfold aiReply. rewrite Hi.
  unfold updateOrderBranch. rewrite Ht, orders_enter, Hf.
  unfold removedItems, addedItems. rewrite Hrem, Hadd, Hs, Hp, Ha.
  cbn [andb mbind option_bind noUpdates u_status u_pickupTime u_assignedTo u_item].
  split; [reflexivity|apply orders_enter].
Qed.

End Updates.

Lemma update_status_applied_witness :
  exists r o',
    snd (Sample.run Sample.offline "Change ord-abc1 to Delivered please"
           (Sample.holding [Sample.bread 1 "ORD-XYZ" 4; Sample.bread 2 "ORD-ABC1" 5])) = Json r
    /\ action r = "update_order" /\ order r = Some (Doc o')
    /\ status o' = "delivered" /\ core o' = core (Sample.bread 2 "ORD-ABC1" 5)
    /\ address o' = None /\ updatedAt o' = 1700000000000
    /\ orders (fst (Sample.run Sample.offline "Change ord-abc1 to Delivered please"
                      (Sample.holding [Sample.bread 1 "ORD-XYZ" 4; Sample.bread 2 "ORD-ABC1" 5])))
       = [Sample.bread 1 "ORD-XYZ" 4; o'].
Proof.
  apply (update_status_applied Sample.parseFields Sample.removeWord Sample.showNumber
           Sample.toLocaleString Sample.offline "Change ord-abc1 to Delivered please" "demo-user"
           (Sample.holding [Sample.bread 1 "ORD-XYZ" 4; Sample.bread 2 "ORD-ABC1" 5])
           "ORD-ABC1" "delivered" (Sample.bread 2 "ORD-ABC1" 5) [Sample.bread 1 "ORD-XYZ" 4] []).
  - vm_compute. reflexivity.
  - vm_compute. reflexivity.
  - reflexivity.
  - reflexivity.
  - intros x [<-|[]]. vm_compute. discriminate.
  - cbn. repeat constructor; cbn; intuition discriminate.
  - vm_compute. reflexivity.
  - vm_compute. reflexivity.
Defined.

Lemma update_nothing_detected_witness :
  snd (Sample.run Sample.offline "update ORD-ABC1" (Sample.holding [Sample.bread 2 "ORD-ABC1" 5]))
  = Json (withOrder (Doc (Sample.bread 2 "ORD-ABC1" 5))
            (response "What would you like to update? (status, pickup time, assignee, items)"
               "update_order"))
  /\ orders (fst (Sample.run Sample.offline "update ORD-ABC1"
                    (Sample.holding [Sample.bread 2 "ORD-ABC1" 5])))
     = [Sample.bread 2 "ORD-ABC1" 5].
Proof.
  apply (update_nothing_detected Sample.parseFields Sample.removeWord Sample.showNumber
           Sample.toLocaleString Sample.offline "update ORD-ABC1" "demo-user"
           (Sample.holding [Sample.bread 2 "ORD-ABC1" 5]) "ORD-ABC1" (Sample.bread 2 "ORD-ABC1" 5));
    vm_compute; reflexivity.
Defined.

(** *** Reversal, and what surrounds the model's JSON *)

Lemma append_assoc_s (a b c : string) : (a ++ b) ++ c = a ++ (b ++ c).
Proof.
  induction a as [|x a IH]; [reflexivity|].
  change (String x ((a ++ b) ++ c) = String x (a ++ (b ++ c))). rewrite IH. reflexivity.
Qed.

Lemma append_empty_r (a : string) : a ++ EmptyString = a.
Proof.
  induction a as [|x a IH]; [reflexivity|].
  change (String x (a ++ EmptyString) = String x a). rewrite IH. reflexivity.
Qed.

Lemma rev_onto_spec (s acc : string) : Str.rev_onto s acc = Str.rev s ++ acc.
Proof.
  unfold Str.rev. revert acc. induction s as [|c s IH]; intros acc; [reflexivity|].
  cbn [Str.rev_onto]. rewrite (IH (String c acc)), (IH (String c EmptyString)).
  rewrite append_assoc_s. reflexivity.
Qed.

Lemma rev_cons (c : ascii) (s : string) : Str.rev (String c s) = Str.rev s ++ String c EmptyString.
Proof. unfold Str.rev at 1. cbn [Str.rev_onto]. apply rev_onto_spec. Qed.

Lemma rev_app (a b : string) : Str.rev (a ++ b) = Str.rev b ++ Str.rev a.
Proof.
  induction a as [|c a IH]; [symmetry; apply append_empty_r|].
  change (Str.rev (String c (a ++ b)) = Str.rev b ++ Str.rev (String c a)).
  rewrite !rev_cons, IH, append_assoc_s. reflexivity.
Qed.

Lemma rev_involutive (s : string) : Str.rev (Str.rev s) = s.
Proof.
  induction s as [|c s IH]; [reflexivity|]. rewrite rev_cons, rev_app, IH. reflexivity.
Qed.

Lemma all_rev (p : ascii -> bool) (s : string) : Str.all p (Str.rev s) = Str.all p s.
Proof.
  induction s as [|c s IH]; [reflexivity|]. rewrite rev_cons, all_app, IH.
  cbn [Str.all]. rewrite andb_true_r. apply andb_comm.
Qed.

Lemma dropWhile_app (p : ascii -> bool) (a b : string) :
  Str.all p a = true -> Str.dropWhile p (a ++ b) = Str.dropWhile p b.
Proof.
  unfold Str.dropWhile. induction a as [|c a IH]; intros Ha; [reflexivity|].
  cbn [Str.all] in Ha. apply andb_true_iff in Ha. destruct Ha as [Hc Ha].
  change (snd (Str.span p (String c (a ++ b))) = snd (Str.span p b)).
  cbn [Str.span]. rewrite Hc. specialize (IH Ha).
  destruct (Str.span p (a ++ b)) as [x y]. exact IH.
Qed.

Lemma dropWhile_stop (p : ascii -> bool) (c : ascii) (s : string) :
  p c = false -> Str.dropWhile p (String c s) = String c s.
Proof. intros H. unfold Str.dropWhile. cbn [Str.span]. rewrite H. reflexivity. Qed.

Lemma any_app (p : ascii -> bool) (a b : string) :
  Str.any p (a ++ b) = Str.any p a || Str.any p b.
Proof.
  induction a as [|c a IH]; [reflexivity|].
  change (Str.any p (String c (a ++ b)) = Str.any p (String c a) || Str.any p b).
  cbn [Str.any]. rewrite IH. apply orb_assoc.
Qed.

(** Commentary around the JSON object is ignored: text before the first
    opening brace and after the last closing brace does not reach the
    parser. *)
Theorem jsonStr_ignores_commentary (pre body post : string) :
  Str.all (fun c => negb (Ascii.eqb c "{")) pre = true ->
  Str.all (fun c => negb (Ascii.eqb c "}")) post = true ->
  jsonStr (Some (pre ++ "{" ++ body ++ "}" ++ post)) = "{" ++ body ++ "}".
Proof.
  intros Hpre Hpost. unfold jsonStr.
  assert (Hc : orElse (Some (pre ++ "{" ++ body ++ "}" ++ post)) "{}"
               = pre ++ "{" ++ body ++ "}" ++ post)
    by (destruct pre; reflexivity).
  rewrite Hc. unfold braceBlock. rewrite (dropWhile_app _ _ _ Hpre).
  change ("{" ++ body ++ "}" ++ post) with (String "{" (body ++ "}" ++ post)).
  rewrite dropWhile_stop by reflexivity.
  rewrite any_app. change (Str.any (Ascii.eqb "}") ("}" ++ post)) with true.
  rewrite orb_true_r.
  rewrite rev_cons, rev_app, rev_app, !append_assoc_s.
  rewrite dropWhile_app by (rewrite all_rev; exact Hpost).
  change (Str.rev "}" ++ Str.rev body ++ "{") with (String "}" (Str.rev body ++ "{")).
  rewrite dropWhile_stop by reflexivity.
  rewrite rev_cons, rev_app, rev_involutive. reflexivity.
Qed.

Lemma jsonStr_ignores_commentary_witness :
  jsonStr (Some ("Sure, here it is: " ++ "{" ++ "qty: 2" ++ "}" ++ " Anything else?"))
  = "{" ++ "qty: 2" ++ "}".
Proof.
  apply (jsonStr_ignores_commentary "Sure, here it is: " "qty: 2" " Anything else?");
    vm_compute; reflexivity.
Defined.

(** *** Assignees *)

Lemma all_dropWhile (p q : ascii -> bool) (s : string) :
  Str.all p s = true -> Str.all p (Str.dropWhile q s) = true.
Proof.
  unfold Str.dropWhile. intros H. destruct (Str.span q s) as [a b] eqn:E.
  destruct (span_spec _ _ _ _ E) as [_ ->]. rewrite all_app in H.
  apply andb_true_iff in H. cbn [snd]. tauto.
Qed.

Lemma all_trim (p : ascii -> bool) (s : string) :
  Str.all p s = true -> Str.all p (Str.trim s) = true.
Proof.
  intros H. unfold Str.trim. rewrite all_rev. apply all_dropWhile.
  rewrite all_rev. apply all_dropWhile. exact H.
Qed.

Lemma nameAfterSpaces_all (s nm : string) :
  nameAfterSpaces s = Some nm -> Str.all Char.isAlphaSpace nm = true.
Proof.
  unfold nameAfterSpaces. destruct (Str.span Char.isSpace s) as [ws rest].
  destruct ws as [|c ws']; [discriminate|].
  destruct (Str.span Char.isAlphaSpace rest) as [a b] eqn:E. cbn [fst].
  destruct (Str.truthy a).
  - intros H. injection H as <-. apply (span_spec _ _ _ _ E).
  - destruct (Str.any _ ws'); [|discriminate]. intros H. injection H as <-. reflexivity.
Qed.

(** An assignee read from a text is made of letters and spaces only: the
    capture stops at the first digit or punctuation mark. *)
Theorem extractAssignee_letters (text a : string) :
  extractAssignee text = Some a -> Str.all Char.isAlphaSpace a = true.
Proof.
  unfold extractAssignee. destruct (Rx.find assignName text) as [g|] eqn:E; [|discriminate].
  intros H. injection H as <-. apply all_trim.
  apply search_some in E. destruct E as (prev & s & Hm). unfold assignName in Hm.
  destruct (Str.litCI "assign" s) as [r|]; [|discriminate].
  destruct (Str.span Char.isSpace r) as [ws r1].
  destruct (if Str.truthy ws then Str.litCI "to" r1 else None) as [r2|].
  - destruct (nameAfterSpaces r2) as [nm|] eqn:E2.
    + injection Hm as <-. eapply nameAfterSpaces_all. exact E2.
    + eapply nameAfterSpaces_all. exact Hm.
  - eapply nameAfterSpaces_all. exact Hm.
Qed.

Lemma extractAssignee_letters_witness : Str.all Char.isAlphaSpace "Ravi Kumar" = true.
Proof.
  apply (extractAssignee_letters "update ORD-A1 assign to Ravi Kumar, pickup 5 pm" "Ravi Kumar").
  vm_compute. reflexivity.
Defined.
